(** * ict-sniper-app: the candidate analysis pipeline of [script.js]

    A shallow embedding of the click handler of [runAnalysisBtn], of
    [analyzeCandidate] and of [callGemini], together with the parts of the
    ECMAScript runtime they rely on (Numbers, [parseFloat], [toFixed],
    the conversions to strings and to Numbers and the TypeError they throw
    on an object without a primitive value, truthiness, relational
    comparison), of the settings kept in [localStorage] and of
    [createTradeCard], and the properties of the pipeline proved over that
    embedding.

    What belongs to the engine and to the world is a parameter of the
    embedding: [JSON.parse], [String.prototype.toUpperCase], the readings
    of [Date.now()] and the answers of the network. *)

From Stdlib Require Import ZArith List String Ascii Bool Lia DecimalString.
From Stdlib Require Import SpecFloat.
From Stdlib Require Import Permutation.
Import ListNotations.

Local Open Scope string_scope.
Local Open Scope Z_scope.

(** * ECMAScript Numbers

    A Number is an IEEE 754 binary64 value.  [spec_float] is the Standard
    Library's executable specification of such values (no NaN payload, as in
    ECMAScript, where all NaNs are indistinguishable). *)

Module Num.

Definition number := spec_float.

Definition prec : Z := 53.
Definition emax : Z := 1024.

Definition NaN : number := S754_nan.
Definition pzero : number := S754_zero false.

Definition add : number -> number -> number := SFadd prec emax.
Definition sub : number -> number -> number := SFsub prec emax.
Definition mul : number -> number -> number := SFmul prec emax.
Definition div : number -> number -> number := SFdiv prec emax.
Definition neg : number -> number := SFopp.
Definition abs : number -> number := SFabs.

(** [x < y], false as soon as one side is NaN. *)
Definition ltb : number -> number -> bool := SFltb.

(** [x === y] on Numbers: [+0 === -0], and NaN equals nothing. *)
Definition eqb : number -> number -> bool := SFeqb.

Definition isNaN (x : number) : bool :=
  match x with S754_nan => true | _ => false end.

Definition is_zero (x : number) : bool :=
  match x with S754_zero _ => true | _ => false end.

(** The values a binary64 can hold: canonical mantissa, exponent in range. *)
Definition valid (x : number) : bool := valid_binary prec emax x.

(** The Number value of an integer (round to nearest, ties to even). *)
Definition of_Z (n : Z) : number := binary_normalize prec emax n 0 false.

(** The Number value of the decimal [m * 10^e] with [m > 0], correctly
    rounded; [sign] is true for a negative literal. *)
Definition of_decimal (sign : bool) (m : positive) (e : Z) : number :=
  if 0 <=? e then binary_round prec emax sign (m * Z.to_pos (10 ^ e))%positive 0
  else
    let '(q, e', l) := SFdiv_core_binary prec emax (Zpos m) 0 (10 ^ (- e)) 0 in
    binary_round_aux prec emax sign q e' l.

(** A positive finite Number [m * 2^e] as a fraction of positive integers. *)
Definition fraction (m : positive) (e : Z) : Z * Z :=
  if 0 <=? e then (Zpos m * 2 ^ e, 1) else (Zpos m, 2 ^ (- e)).

End Num.

(** * Strings

    A string holds the UTF-8 encoding of its text. *)

Module Str.

Definition code (c : ascii) : N := N_of_ascii c.

Fixpoint zeros (n : nat) : string :=
  match n with O => "" | S n' => String "0" (zeros n') end.

(** The first [n] characters, and what follows them. *)
Fixpoint take (n : nat) (s : string) : string :=
  match n, s with
  | S n', String c r => String c (take n' r)
  | _, _ => ""
  end.

Fixpoint drop (n : nat) (s : string) : string :=
  match n, s with
  | S n', String _ r => drop n' r
  | _, _ => s
  end.

(** The decimal digits of a natural number, ["0"] for zero. *)
Definition digits (n : Z) : string :=
  NilZero.string_of_uint (N.to_uint (Z.to_N n)).

Definition ndigits (n : Z) : Z := Z.of_nat (String.length (digits n)).

(** Digits without the zeros at their end (the empty string for zeros only). *)
Fixpoint strip_zeros (s : string) : string :=
  match s with
  | "" => ""
  | String c r =>
      match strip_zeros r with
      | "" => if (code c =? 48)%N then "" else String c ""
      | r' => String c r'
      end
  end.

Definition digit_of (c : ascii) : option N :=
  let n := code c in
  if ((48 <=? n) && (n <=? 57))%N then Some (n - 48)%N else None.

(** Reads the longest run of decimal digits at the head of [s]: the number
    it denotes after [acc], how many digits were read after [cnt], the rest. *)
Fixpoint read_digits (acc : N) (cnt : nat) (s : string) : N * nat * string :=
  match s with
  | String c r =>
      match digit_of c with
      | Some d => read_digits (10 * acc + d) (S cnt) r
      | None => (acc, cnt, s)
      end
  | "" => (acc, cnt, s)
  end.

(** [s] without the white space and line terminators at its head
    (ECMAScript's StrWhiteSpaceChar, also what [\s] matches): the ASCII ones,
    U+00A0, U+1680, U+2000 to U+200A, U+2028, U+2029, U+202F, U+205F,
    U+3000 and U+FEFF. *)
Fixpoint skip_white (s : string) : string :=
  match s with
  | String c r =>
      let n := code c in
      if ((9 <=? n) && (n <=? 13) || (n =? 32))%N then skip_white r
      else
        match r with
        | String c1 r1 =>
            let n1 := code c1 in
            if ((n =? 194) && (n1 =? 160))%N then skip_white r1
            else
              match r1 with
              | String c2 r2 =>
                  let n2 := code c2 in
                  if ((n =? 225) && (n1 =? 154) && (n2 =? 128)
                      || (n =? 226) && (n1 =? 128)
                         && ((128 <=? n2) && (n2 <=? 138) || (n2 =? 168)
                             || (n2 =? 169) || (n2 =? 175))
                      || (n =? 226) && (n1 =? 129) && (n2 =? 159)
                      || (n =? 227) && (n1 =? 128) && (n2 =? 128)
                      || (n =? 239) && (n1 =? 187) && (n2 =? 191))%N
                  then skip_white r2
                  else s
              | "" => s
              end
        | "" => s
        end
  | "" => s
  end.

(** [Some rest] when [s] is [p] followed by [rest]. *)
Fixpoint strip_prefix (p s : string) : option string :=
  match p, s with
  | "", _ => Some s
  | String a p', String b s' => if Ascii.eqb a b then strip_prefix p' s' else None
  | String _ _, "" => None
  end.

Fixpoint join (sep : string) (l : list string) : string :=
  match l with
  | [] => ""
  | [s] => s
  | s :: l' => s ++ sep ++ join sep l'
  end.

End Str.

(** * Numbers to text: [Number::toString] and [Number.prototype.toFixed] *)

Module NumText.

Import Num Str.

(** The fraction [a/b] times [10^k]. *)
Definition scale (a b k : Z) : Z * Z :=
  if 0 <=? k then (a * 10 ^ k, b) else (a, b * 10 ^ (- k)).

(** The least [j], counting up from [j], with [b <= a * 10^j]. *)
Fixpoint lead (fuel : nat) (a b j : Z) : Z :=
  match fuel with
  | O => j
  | S fuel' => if b <=? a * 10 ^ j then j else lead fuel' a b (j + 1)
  end.

(** The [n] with [10^(n-1) <= a/b < 10^n], for [a/b > 0]. *)
Definition decimal_exponent (a b : Z) : Z :=
  if b <=? a then ndigits (a / b)
  else 1 - lead (S (Z.to_nat (Z.log2 b))) a b 1.

(** The [k]-digit decimals next to [a/b] (of decimal exponent [n]) that read
    back as [x]: the closer one, the even one on a tie. *)
Definition shortest_at (x : number) (a b n k : Z) : option Z :=
  let '(a', b') := scale a b (k - n) in
  let lo := a' / b' in
  let hi := lo + 1 in
  let back s := eqb (of_decimal false (Z.to_pos s) (n - k)) x in
  match back lo, back hi with
  | true, true =>
      Some match 2 * a' ?= (2 * lo + 1) * b' with
           | Lt => lo
           | Gt => hi
           | Eq => if Z.even lo then lo else hi
           end
  | true, false => Some lo
  | false, true => Some hi
  | false, false => None
  end.

(** The shortest such decimal and its number of digits, trying [k], [k+1],
    ... digits; when [fuel] digits are not enough, [exact]. *)
Fixpoint shortest (fuel : nat) (x : number) (a b n k exact : Z) : Z * Z :=
  match fuel with
  | O => (exact, ndigits exact)
  | S fuel' =>
      match shortest_at x a b n k with
      | Some s => (s, k)
      | None => shortest fuel' x a b n (k + 1) exact
      end
  end.

(** The digits [s] and the exponent [n] of Number::toString for the positive
    finite [m * 2^e]: [s * 10^(n-k)] is the decimal with the fewest digits [k]
    whose Number value is [m * 2^e].  The decimal expansion of a binary
    fraction is finite, which bounds the search; a [k]-digit candidate
    rounded up to [10^k] has one more digit, and moves the exponent. *)
Definition shortest_decimal (m : positive) (e : Z) : string * Z :=
  let '(a, b) := fraction m e in
  let n := decimal_exponent a b in
  let exact := a * 5 ^ Z.log2 b in
  let '(s, k) := shortest (String.length (digits exact))
                   (S754_finite false m e) a b n 1 exact in
  (strip_zeros (digits s), n + (ndigits s - k)).

(** Number::toString(x, 10), for positive finite [x] given by its decimal. *)
Definition layout (ds : string) (n : Z) : string :=
  let k := Z.of_nat (String.length ds) in
  if (k <=? n) && (n <=? 21) then ds ++ zeros (Z.to_nat (n - k))
  else if (0 <? n) && (n <=? 21) then
    take (Z.to_nat n) ds ++ "." ++ drop (Z.to_nat n) ds
  else if (-6 <? n) && (n <=? 0) then
    "0." ++ zeros (Z.to_nat (- n)) ++ ds
  else
    let e := n - 1 in
    let c := if 0 <=? e then "+" else "-" in
    if k =? 1 then ds ++ "e" ++ c ++ digits (Z.abs e)
    else take 1 ds ++ "." ++ drop 1 ds ++ "e" ++ c ++ digits (Z.abs e).

Definition Number_toString (x : number) : string :=
  match x with
  | S754_nan => "NaN"
  | S754_zero _ => "0"
  | S754_infinity s => (if s then "-" else "") ++ "Infinity"
  | S754_finite s m e =>
      let '(ds, n) := shortest_decimal m e in
      (if s then "-" else "") ++ layout ds n
  end.

(** The digits of [n] laid out with [f] digits after the point. *)
Definition fixed (n : Z) (f : nat) : string :=
  let m := digits n in
  match f with
  | O => m
  | _ =>
      let m := zeros (S f - String.length m) ++ m in
      let k := String.length m in
      take (k - f) m ++ "." ++ drop (k - f) m
  end.

(** Number.prototype.toFixed: [n / 10^f] is as close to [|x|] as possible,
    the larger [n] when two are as close. *)
Definition toFixed (x : number) (f : nat) : string :=
  match x with
  | S754_nan | S754_infinity _ => Number_toString x
  | S754_zero _ => fixed 0 f
  | S754_finite s m e =>
      let sign := if s then "-" else "" in
      let '(a, b) := fraction m e in
      if 10 ^ 21 * b <=? a then sign ++ Number_toString (S754_finite false m e)
      else sign ++ fixed ((2 * a * 10 ^ Z.of_nat f + b) / (2 * b)) f
  end.

End NumText.

(** * Text to numbers: [parseFloat] and [StringToNumber] on strings *)

Module TextNum.

Import Num Str.

(** The exponent part at the head of [s], if one is there: [e] or [E], an
    optional sign, at least one digit.  Its value and the rest. *)
Definition read_exponent (s : string) : option (Z * string) :=
  match s with
  | String c r =>
      if ((code c =? 101) || (code c =? 69))%N then
        let '(sign, r') :=
          match r with
          | String d r1 =>
              if (code d =? 45)%N then (true, r1)
              else if (code d =? 43)%N then (false, r1)
              else (false, r)
          | "" => (false, r)
          end in
        match read_digits 0 0 r' with
        | (_, O, _) => None
        | (n, S _, rest) => Some (if sign then - Z.of_N n else Z.of_N n, rest)
        end
      else None
  | "" => None
  end.

(** The longest StrUnsignedDecimalLiteral at the head of [s], as the Number
    of sign [sign] it denotes, and the rest; [None] when there is none. *)
Definition read_unsigned (sign : bool) (s : string) : option (number * string) :=
  match strip_prefix "Infinity" s with
  | Some rest => Some (S754_infinity sign, rest)
  | None =>
      let '(i, ni, r) := read_digits 0 0 s in
      let '(m, nf, r') :=
        match r with
        | String c r1 =>
            if (code c =? 46)%N then
              match read_digits i 0 r1, ni with
              | (_, O, _), O => (i, O, r)
              | (m, nf, r2), _ => (m, nf, r2)
              end
            else (i, O, r)
        | "" => (i, O, r)
        end in
      match ni, nf with
      | O, O => None
      | _, _ =>
          let '(x, rest) :=
            match read_exponent r' with
            | Some (x, rest) => (x, rest)
            | None => (0, r')
            end in
          Some (match m with
                | N0 => S754_zero sign
                | Npos p => of_decimal sign p (x - Z.of_nat nf)
                end, rest)
      end
  end.

(** The longest StrDecimalLiteral at the head of [s]. *)
Definition read_decimal (s : string) : option (number * string) :=
  match s with
  | String c r =>
      if (code c =? 45)%N then read_unsigned true r
      else if (code c =? 43)%N then read_unsigned false r
      else read_unsigned false s
  | "" => None
  end.

(** [parseFloat] of a string: the literal at the head of the trimmed text,
    NaN when there is none. *)
Definition parseFloat_string (s : string) : number :=
  match read_decimal (skip_white s) with
  | Some (x, _) => x
  | None => NaN
  end.

Definition digit_in (radix : N) (c : ascii) : option N :=
  let n := code c in
  let d :=
    if ((48 <=? n) && (n <=? 57))%N then Some (n - 48)%N
    else if ((97 <=? n) && (n <=? 102))%N then Some (n - 87)%N
    else if ((65 <=? n) && (n <=? 70))%N then Some (n - 55)%N
    else None in
  match d with
  | Some v => if (v <? radix)%N then Some v else None
  | None => None
  end.

(** The digits of [s] in [radix], all of [s] and at least one. *)
Fixpoint read_radix (radix : N) (acc : N) (any : bool) (s : string) : option N :=
  match s with
  | "" => if any then Some acc else None
  | String c r =>
      match digit_in radix c with
      | Some d => read_radix radix (radix * acc + d)%N true r
      | None => None
      end
  end.

(** StringToNumber: the whole text, white space at both ends apart, is a
    numeric literal (decimal, or unsigned hexadecimal, octal, binary); the
    empty text is 0; anything else is NaN. *)
Definition StringToNumber (s : string) : number :=
  match skip_white s with
  | "" => pzero
  | String c0 (String c1 r as t) as s' =>
      let n := code c1 in
      let radix :=
        if negb (code c0 =? 48)%N then None
        else if ((n =? 120) || (n =? 88))%N then Some 16%N
        else if ((n =? 111) || (n =? 79))%N then Some 8%N
        else if ((n =? 98) || (n =? 66))%N then Some 2%N
        else None in
      match radix with
      | Some rx =>
          (* the digits end where the trailing white space starts *)
          let fix body (acc : N) (any : bool) (u : string) : number :=
            match u with
            | "" => if any then of_Z (Z.of_N acc) else NaN
            | String c u' =>
                match digit_in rx c with
                | Some d => body (rx * acc + d)%N true u'
                | None =>
                    match skip_white u with
                    | "" => if any then of_Z (Z.of_N acc) else NaN
                    | _ => NaN
                    end
                end
            end in
          body 0%N false r
      | None =>
          match read_decimal s' with
          | Some (x, rest) => match skip_white rest with "" => x | _ => NaN end
          | None => NaN
          end
      end
  | s' =>
      match read_decimal s' with
      | Some (x, rest) => match skip_white rest with "" => x | _ => NaN end
      | None => NaN
      end
  end.

End TextNum.

#[local] Set Warnings "-register-all".

(** * Values and errors

    The values [JSON.parse] and [response.json()] produce, and [undefined]
    for what is absent.  An object lists its properties, each name once. *)

Inductive value : Type :=
| VUndefined
| VNull
| VBool (b : bool)
| VNum (x : Num.number)
| VStr (s : string)
| VArr (items : list value)
| VObj (fields : list (string * value)).

(** What a [throw] carries, here always an Error object: those the program
    makes with [new Error(...)], and the engine's own.  The wording of the
    engine's messages is the engine's; those below follow V8. *)
Inductive exn : Type :=
| Error (message : string)
| TypeError (message : string)
| SyntaxError (message : string).

Definition message (e : exn) : string :=
  match e with Error m | TypeError m | SyntaxError m => m end.


Module Js.

Import Num Str.

Definition nullish (v : value) : bool :=
  match v with VUndefined | VNull => true | _ => false end.

(** How the message of a TypeError names [undefined] and [null]. *)
Definition nullish_text (v : value) : string :=
  match v with VNull => "null" | _ => "undefined" end.

Definition has_key (k : string) (fields : list (string * value)) : bool :=
  existsb (fun kv => String.eqb k (fst kv)) fields.

(** ToPrimitive finds no primitive for an object: the error it throws. *)
Definition unconvertible : exn :=
  TypeError "Cannot convert object to primitive value".

(** The texts of the elements of an array, as [Array.prototype.join] takes
    them one after the other: nothing for [undefined] and [null], and the
    error of the first element that has no text. *)
Definition texts (text : value -> exn + string)
  : list value -> exn + list string :=
  fix go (items : list value) : exn + list string :=
    match items with
    | [] => inr []
    | v :: rest =>
        match (if nullish v then inr "" else text v) with
        | inl e => inl e
        | inr s =>
            match go rest with
            | inl e => inl e
            | inr ss => inr (s :: ss)
            end
        end
    end.

(** ToString.  An array goes through [Array.prototype.toString], and so
    through [join] and the texts of its elements.  An object goes through
    ToPrimitive: the [toString] and [valueOf] it inherits give
    ["[object Object]"], but an object with a property of its own named
    [toString] (which, in a value made by [JSON.parse], is never a
    function) is left with [valueOf], which gives the object back: there
    is no primitive, and ToPrimitive throws. *)
Fixpoint ToString (v : value) : exn + string :=
  match v with
  | VUndefined => inr "undefined"
  | VNull => inr "null"
  | VBool b => inr (if b then "true" else "false")
  | VNum x => inr (NumText.Number_toString x)
  | VStr s => inr s
  | VArr items =>
      match texts ToString items with
      | inl e => inl e
      | inr ss => inr (join "," ss)
      end
  | VObj fields =>
      if has_key "toString" fields then inl unconvertible
      else inr "[object Object]"
  end.

(** [Array.prototype.join] on the elements of an array. *)
Definition Array_join (sep : string) (items : list value) : exn + string :=
  match texts ToString items with
  | inl e => inl e
  | inr ss => inr (join sep ss)
  end.

(** ToNumber; an array or an object goes through ToPrimitive, which gives
    its string or throws. *)
Definition ToNumber (v : value) : exn + number :=
  match v with
  | VUndefined => inr NaN
  | VNull => inr pzero
  | VBool b => inr (if b then of_Z 1 else pzero)
  | VNum x => inr x
  | VStr s => inr (TextNum.StringToNumber s)
  | VArr _ | VObj _ =>
      match ToString v with
      | inl e => inl e
      | inr s => inr (TextNum.StringToNumber s)
      end
  end.

(** ToBoolean: what [if], [!] and [&&] test. *)
Definition truthy (v : value) : bool :=
  match v with
  | VUndefined | VNull => false
  | VBool b => b
  | VNum x => negb (is_zero x || isNaN x)
  | VStr s => negb (String.eqb s "")
  | VArr _ | VObj _ => true
  end.

(** [a && b] *)
Definition and_ (a b : value) : value := if truthy a then b else a.

(** [a > b] and [a < b] with a Number on the right: the left side is
    converted with ToNumber, which may throw, and a comparison with NaN is
    false. *)
Definition gt (a : value) (b : number) : exn + bool :=
  match ToNumber a with
  | inl e => inl e
  | inr x => inr (ltb b x)
  end.

Definition lt (a : value) (b : number) : exn + bool :=
  match ToNumber a with
  | inl e => inl e
  | inr x => inr (ltb x b)
  end.

(** [parseFloat(v)]: the argument is converted with ToString first. *)
Definition parseFloat (v : value) : exn + number :=
  match ToString v with
  | inl e => inl e
  | inr s => inr (TextNum.parseFloat_string s)
  end.

Fixpoint lookup (k : string) (fields : list (string * value)) : value :=
  match fields with
  | [] => VUndefined
  | (k', v) :: rest => if String.eqb k k' then v else lookup k rest
  end.

(** [v.k], for a name [k] that no prototype defines (so not [length],
    [toString], ...): an own property of an object, [undefined] on any
    other value, a TypeError on [undefined] and [null]. *)
Definition field (v : value) (k : string) : exn + value :=
  match v with
  | VUndefined | VNull =>
      inl (TypeError ("Cannot read properties of " ++ nullish_text v
                      ++ " (reading '" ++ k ++ "')"))
  | VObj fields => inr (lookup k fields)
  | _ => inr VUndefined
  end.

(** The UTF-16 code unit [i] of a text, as a string of its own: a character
    of the basic plane is one unit, any other is two (surrogates), each
    written as the three bytes of its code. *)
Definition unit3 (u : N) : string :=
  String (ascii_of_N (224 + u / 4096))
    (String (ascii_of_N (128 + (u / 64) mod 64))
       (String (ascii_of_N (128 + u mod 64)) "")).

Fixpoint unit_at (i : nat) (s : string) : value :=
  match s with
  | "" => VUndefined
  | String c r =>
      let n := code c in
      if (n <? 192)%N then
        match i with O => VStr (String c "") | S i' => unit_at i' r end
      else if (n <? 224)%N then
        match r with
        | String c1 r1 =>
            match i with
            | O => VStr (String c (String c1 ""))
            | S i' => unit_at i' r1
            end
        | "" => VUndefined
        end
      else if (n <? 240)%N then
        match r with
        | String c1 (String c2 r2) =>
            match i with
            | O => VStr (String c (String c1 (String c2 "")))
            | S i' => unit_at i' r2
            end
        | _ => VUndefined
        end
      else
        match r with
        | String c1 (String c2 (String c3 r3)) =>
            let cp := ((n mod 8) * 262144 + (code c1 mod 64) * 4096
                       + (code c2 mod 64) * 64 + code c3 mod 64 - 65536)%N in
            match i with
            | O => VStr (unit3 (55296 + cp / 1024))
            | S O => VStr (unit3 (56320 + cp mod 1024))
            | S (S i') => unit_at i' r3
            end
        | _ => VUndefined
        end
  end.

(** [v[i]] for an index [i]. *)
Definition item (v : value) (i : nat) : exn + value :=
  match v with
  | VUndefined | VNull =>
      inl (TypeError ("Cannot read properties of " ++ nullish_text v
                      ++ " (reading '" ++ digits (Z.of_nat i) ++ "')"))
  | VArr items => inr (nth i items VUndefined)
  | VObj fields => inr (lookup (digits (Z.of_nat i)) fields)
  | VStr s => inr (unit_at i s)
  | _ => inr VUndefined
  end.

(** [Math.floor] *)
Definition floor (x : number) : number :=
  match x with
  | S754_finite s m e =>
      if 0 <=? e then x
      else
        let q := Z.shiftr (Zpos m) (- e) in
        if s then
          binary_normalize prec emax
            (- (if Zpos m =? Z.shiftl q (- e) then q else q + 1)) 0 true
        else binary_normalize prec emax q 0 false
  | _ => x
  end.

End Js.

(** * Asynchronous functions

    An [async] function runs until its next [await fetch(...)], where it
    hands the request out and waits for the answer; it ends by returning or
    by throwing, which fulfils or rejects its promise. *)

Inductive request : Type :=
| GET (url : string)
| POST (url : string) (body : value).

(** A response of [fetch]: its [ok] and [status], and what [text()] and
    [json()] resolve to, or reject with.  Reading the body is awaited too,
    but what it gives is fixed once the response is there. *)
Record response : Type := {
  ok : bool;
  status : Z;
  text : exn + string;
  json : exn + value
}.

(** [fetch] rejects when the network fails, and resolves with a response
    otherwise, whatever its status. *)
Definition answer : Type := exn + response.

Inductive async (A : Type) : Type :=
| Return (a : A)
| Throw (e : exn)
| Fetch (rq : request) (k : answer -> async A).

Arguments Return {A} a.
Arguments Throw {A} e.
Arguments Fetch {A} rq k.

Fixpoint bind {A B : Type} (m : async A) (f : A -> async B) : async B :=
  match m with
  | Return a => f a
  | Throw e => Throw e
  | Fetch rq k => Fetch rq (fun r => bind (k r) f)
  end.

(** [await fetch(rq)] *)
Definition fetch (rq : request) : async response :=
  Fetch rq (fun r => match r with inl e => Throw e | inr rs => Return rs end).

(** The value of an expression that may throw, or of a promise already
    determined, such as [response.json()]. *)
Definition attempt {A : Type} (r : exn + A) : async A :=
  match r with inl e => Throw e | inr a => Return a end.

Declare Scope async_scope.
Delimit Scope async_scope with async.
Notation "x <- m ;; k" := (bind m (fun x => k))
  (at level 100, m at next level, right associativity) : async_scope.
Local Open Scope async_scope.

(** How a promise settles. *)
Inductive outcome (A : Type) : Type :=
| Fulfilled (a : A)
| Rejected (reason : exn).

Arguments Fulfilled {A} a.
Arguments Rejected {A} reason.

(** The outcome of [p] on a network that answers request [rq] by [net rq],
    and the requests [p] sends on the way. *)
Fixpoint settle {A : Type} (net : request -> answer) (p : async A) : outcome A :=
  match p with
  | Return a => Fulfilled a
  | Throw e => Rejected e
  | Fetch rq k => settle net (k (net rq))
  end.

Fixpoint requests {A : Type} (net : request -> answer) (p : async A) : list request :=
  match p with
  | Return _ | Throw _ => []
  | Fetch rq k => rq :: requests net (k (net rq))
  end.

(** * The page *)

(** One entry of the market list, with the fields the program reads; a
    field the entry lacks reads as [undefined]. *)
Module Coin.
Record t : Type := {
  id : value;
  symbol : value;
  name : value;
  current_price : value;
  price_change_percentage_24h : value
}.
End Coin.

Inductive direction : Type := bullish | bearish.

Definition direction_text (d : direction) : string :=
  match d with bullish => "bullish" | bearish => "bearish" end.

(** The object [analyzeCandidate] returns for a valid setup. *)
Module Trade.
Record t : Type := {
  name : value;
  symbol : string;
  entry : string;
  sl : string;
  tp : string;
  lotSize : string;
  rr : Num.number;
  notes : value;
  direction : string
}.
End Trade.

(** The values of the input elements when the handler runs. *)
Record inputs : Type := {
  geminiKey : string;
  riskAmount : string;
  rrRatio : string;
  coinCount : string;
  momentumThreshold : string
}.

Definition COINGECKO_BASE_URL : string := "https://api.coingecko.com/api/v3".

Definition nl : string := String (ascii_of_N 10) "".
Definition dq : string := String (ascii_of_N 34) "".

(** [/```json\s*(\{[\s\S]*?\})\s*```/]: after the opening brace, the lazy
    body ends at the first closing brace that white space and a fence
    follow.  The text from there on, closing brace included. *)
Fixpoint close_block (s : string) : option string :=
  match s with
  | "" => None
  | String c r =>
      if (Str.code c =? 125)%N then
        match Str.strip_prefix "```" (Str.skip_white r) with
        | Some _ => Some "}"
        | None => option_map (String c) (close_block r)
        end
      else option_map (String c) (close_block r)
  end.

(** The capture group of a match that starts at the head of [s]. *)
Definition open_block (s : string) : option string :=
  match Str.strip_prefix "```json" s with
  | Some r =>
      match Str.skip_white r with
      | String c r' =>
          if (Str.code c =? 123)%N then option_map (String c) (close_block r')
          else None
      | "" => None
      end
  | None => None
  end.

(** [text.match(...)]: the capture group of the leftmost match. *)
Fixpoint match_block (s : string) : option string :=
  match open_block s with
  | Some b => Some b
  | None => match s with "" => None | String _ r => match_block r end
  end.

(** The template literal of the prompt, with its six interpolations. *)
Definition prompt_text (direction symbol price momentum closes structure : string)
  : string :=
  String.concat "" [
    "You are an expert Inner Circle Trader (ICT) analyst. Your ";
    "task is to identify a high-probability "; direction; " setup for ";
    symbol; " based on the provided price data and strict ICT principles.";
    nl; nl; "Current Price: $"; price; nl; "24h Momentum: "; momentum; "%";
    nl; nl; "Recent 24h Price Data (closes): ["; closes; "]"; nl; nl;
    "**Analysis Rules for a Valid Setup:**"; nl;
    "1.  **Market Structure Shift (MSS):** Confirm a recent break ";
    "of structure that aligns with the desired direction ("; structure; ").";
    nl; "2.  **Liquidity Displacement:** The move causing the MSS must ";
    "be energetic, creating a Fair Value Gap (FVG) or imbalance."; nl;
    "3.  **Optimal Trade Entry (OTE):** Price must be trading back ";
    "into a discount (for longs) or premium (for shorts) area of ";
    "the displacement leg. This area must contain a clear Point of ";
    "Interest (POI)."; nl;
    "4.  **Point of Interest (POI):** The POI must be a clear FVG ";
    "or an Order Block (OB) that initiated the displacement. This ";
    "is the entry zone."; nl; nl; "**Your Task:**"; nl;
    "If a valid setup exists that meets ALL the above criteria, ";
    "provide a trade plan. The entry should be at the POI, not the ";
    "current price. If price is already past the POI, the setup is ";
    "invalid."; nl; nl;
    "Respond ONLY with a JSON object in a markdown code block."; nl; nl;
    "**Valid Setup JSON format:**"; nl; "```json"; nl; "{"; nl; "  "; dq;
    "isValid"; dq; ": true,"; nl; "  "; dq; "entry"; dq;
    ": <number, price at the FVG/OB>,"; nl; "  "; dq; "stopLoss"; dq;
    ": <number, placed just below the low for longs, or above the ";
    "high for shorts, of the displacement leg>,"; nl; "  "; dq; "rationale";
    dq; ": "; dq;
    "Clear MSS on the 5min chart. Price is retracing into a FVG at ";
    "[price range] which aligns with the 0.618 fib level. This ";
    "provides a high-probability entry."; dq; nl; "}"; nl; "```"; nl; nl;
    "**Invalid Setup JSON format:**"; nl; "```json"; nl; "{"; nl; "  "; dq;
    "isValid"; dq; ": false,"; nl; "  "; dq; "entry"; dq; ": null,"; nl;
    "  "; dq; "stopLoss"; dq; ": null,"; nl; "  "; dq; "rationale"; dq; ": ";
    dq; "No clear Market Structure Shift found. Price is consolidating ";
    "without a clear displacement move."; dq; nl; "}"; nl; "```"; nl
  ].


(** * Trade cards: lines 60 to 79 *)

(** [String.prototype.toLowerCase] on the letters A to Z; the characters
    outside ASCII are kept.  The program applies it to the direction of a
    trade plan, which is [Long] or [Short]. *)
Fixpoint toLowerCase (s : string) : string :=
  match s with
  | "" => ""
  | String c r =>
      let n := Str.code c in
      String (if ((65 <=? n) && (n <=? 90))%N then ascii_of_N (n + 32) else c)
             (toLowerCase r)
  end.

(** The element [createTradeCard] returns. *)
Record card : Type := {
  className : string;
  innerHTML : string
}.

(** The template literal of lines 64 to 77 converts the name and the notes
    of the plan to strings, in that order, and throws when one of them has
    no string; the other interpolations are strings and a Number. *)
Definition createTradeCard (trade : Trade.t) : exn + card :=
  let directionClass := toLowerCase (Trade.direction trade) in
  let symbol := Trade.symbol trade in
  let direction := Trade.direction trade in
  let entry := Trade.entry trade in
  let sl := Trade.sl trade in
  let tp := Trade.tp trade in
  let lotSize := Trade.lotSize trade in
  let rr := NumText.Number_toString (Trade.rr trade) in
  match Js.ToString (Trade.name trade) with
  | inl e => inl e
  | inr name =>
      match Js.ToString (Trade.notes trade) with
      | inl e => inl e
      | inr notes =>
          inr {| className := "trade-card " ++ directionClass;
                 innerHTML := String.concat "" [
        nl; "            <div class="; dq; "card-header "; directionClass; dq;
        ">"; nl; "                <h3 class="; dq; "card-title"; dq; ">"; name;
        " ("; symbol; ")</h3>"; nl; "                <span class="; dq;
        "card-direction"; dq; ">"; direction; "</span>"; nl;
        "            </div>"; nl; "            <div class="; dq; "card-body";
        dq; ">"; nl; "                <p><strong>Entry:</strong> $"; entry;
        "</p>"; nl; "                <p><strong>Stop Loss:</strong> $"; sl;
        "</p>"; nl; "                <p><strong>Take Profit:</strong> $"; tp;
        "</p>"; nl; "                <p><strong>Lot Size:</strong> "; lotSize;
        " "; symbol; "</p>"; nl;
        "                <p><strong>R:R Ratio:</strong> "; rr; ":1</p>"; nl;
        "                <p class="; dq; "notes"; dq;
        "><strong>AI Rationale:</strong> "; notes; "</p>"; nl;
        "            </div>"; nl; "        "
                 ] |}
      end
  end.

(** [trades.forEach(trade => container.appendChild(createTradeCard(trade)))]:
    the cards of the container, or the error of the first card that cannot
    be made. *)
Fixpoint cards_of (trades : list Trade.t) : exn + list card :=
  match trades with
  | [] => inr []
  | t :: rest =>
      match createTradeCard t with
      | inl e => inl e
      | inr c =>
          match cards_of rest with
          | inl e => inl e
          | inr cs => inr (c :: cs)
          end
      end
  end.

Section Pipeline.

(** [JSON.parse], the engine's: the value of a text, or the SyntaxError. *)
Variable JSON_parse : string -> exn + value.

(** [String.prototype.toUpperCase], the engine's, with the case mappings
    of Unicode. *)
Variable toUpperCase : string -> string.

(** The input elements of the page. *)
Variable page : inputs.

(** [data.candidates?.[0]?.content?.parts?.[0]?.text] *)
Definition response_text (data : value) : exn + value :=
  match Js.field data "candidates" with
  | inl e => inl e
  | inr candidates =>
      if Js.nullish candidates then inr VUndefined else
      match Js.item candidates 0 with
      | inl e => inl e
      | inr first =>
          if Js.nullish first then inr VUndefined else
          match Js.field first "content" with
          | inl e => inl e
          | inr content =>
              if Js.nullish content then inr VUndefined else
              match Js.field content "parts" with
              | inl e => inl e
              | inr parts =>
                  if Js.nullish parts then inr VUndefined else
                  match Js.item parts 0 with
                  | inl e => inl e
                  | inr part =>
                      if Js.nullish part then inr VUndefined
                      else Js.field part "text"
                  end
              end
          end
      end
  end.

(** The request of [callGemini]: [url] and [body], the latter before
    [JSON.stringify]. *)
Definition gemini_request (prompt apiKey : string) : request :=
  let url := "https://generativelanguage.googleapis.com/v1beta/models/gemini-2.5-flash:generateContent" in
  let body :=
    VObj [("contents", VArr [VObj [("parts", VArr [VObj [("text", VStr prompt)]])]])] in
  POST (url ++ "?key=" ++ apiKey) body.

Definition callGemini (prompt apiKey : string) : async value :=
  response <- fetch (gemini_request prompt apiKey) ;;
  if negb (ok response) then
    errorText <- attempt (text response) ;;
    Throw (Error ("Gemini API error ("
                  ++ NumText.Number_toString (Num.of_Z (status response))
                  ++ "): " ++ errorText))
  else
    data <- attempt (json response) ;;
    text <- attempt (response_text data) ;;
    if negb (Js.truthy text) then Throw (Error "No response text from Gemini.")
    else
      match text with
      | VStr text =>
          match match_block text with
          | None =>
              Throw (Error "Gemini response did not contain a valid JSON code block.")
          | Some block =>
              match JSON_parse block with
              | inr analysis => Return analysis
              | inl e =>
                  Throw (Error ("Failed to parse JSON from Gemini: " ++ message e))
              end
          end
      | _ => Throw (TypeError "text.match is not a function")
      end.

(** [chartData.prices.map(p => p[1])] *)
Fixpoint second_of_each (prices : list value) : exn + list value :=
  match prices with
  | [] => inr []
  | p :: rest =>
      match Js.item p 1 with
      | inl e => inl e
      | inr c =>
          match second_of_each rest with
          | inl e => inl e
          | inr cs => inr (c :: cs)
          end
      end
  end.

Definition closes_of (chartData : value) : exn + list value :=
  match Js.field chartData "prices" with
  | inl e => inl e
  | inr (VArr prices) => second_of_each prices
  | inr VUndefined =>
      inl (TypeError "Cannot read properties of undefined (reading 'map')")
  | inr VNull =>
      inl (TypeError "Cannot read properties of null (reading 'map')")
  | inr _ => inl (TypeError "chartData.prices.map is not a function")
  end.

(** [closes.slice(-100)]: the last 100 elements, all when there are fewer. *)
Definition slice_last (n : nat) {A : Type} (l : list A) : list A :=
  skipn (List.length l - n) l.

(** [v.toUpperCase()] and [v.toFixed(f)] on a field [v] of the coin. *)
Definition call_toUpperCase (v : value) : exn + string :=
  match v with
  | VStr s => inr (toUpperCase s)
  | VUndefined | VNull =>
      inl (TypeError ("Cannot read properties of " ++ Js.nullish_text v
                      ++ " (reading 'toUpperCase')"))
  | _ => inl (TypeError "coin.symbol.toUpperCase is not a function")
  end.

Definition call_toFixed (what : string) (v : value) (f : nat) : exn + string :=
  match v with
  | VNum x => inr (NumText.toFixed x f)
  | VUndefined | VNull =>
      inl (TypeError ("Cannot read properties of " ++ Js.nullish_text v
                      ++ " (reading 'toFixed')"))
  | _ => inl (TypeError (what ++ ".toFixed is not a function"))
  end.

(** The template literal of lines 226 to 263: its interpolations are
    evaluated in the order of the text, and the first that throws ends
    it. *)
Definition prompt_for (coin : Coin.t) (d : direction) (closes : list value)
  : exn + string :=
  match call_toUpperCase (Coin.symbol coin) with
  | inl e => inl e
  | inr symbol =>
      match call_toFixed "coin.current_price" (Coin.current_price coin) 5 with
      | inl e => inl e
      | inr price =>
          match call_toFixed "coin.price_change_percentage_24h"
                  (Coin.price_change_percentage_24h coin) 2 with
          | inl e => inl e
          | inr momentum =>
              match Js.Array_join ", " (slice_last 100 closes) with
              | inl e => inl e
              | inr joined =>
                  inr (prompt_text (direction_text d) symbol price momentum
                         joined
                         (match d with
                          | bullish => "higher-highs"
                          | bearish => "lower-lows"
                          end))
              end
          end
      end
  end.

(** Lines 273 to 289: the trade plan of a verdict whose entry and stop
    loss parsed to [entry] and [sl]. *)
Definition tradePlan (coin : Coin.t) (symbol : string) (d : direction)
  (riskAmount rrRatio entry sl : Num.number) (rationale : value) : Trade.t :=
  let slDistance := Num.abs (Num.sub entry sl) in
  let tp :=
    match d with
    | bullish => Num.add entry (Num.mul slDistance rrRatio)
    | bearish => Num.sub entry (Num.mul slDistance rrRatio)
    end in
  let riskPct := Num.div slDistance entry in
  let positionUSD := Num.div riskAmount riskPct in
  let lotSize := NumText.toFixed (Num.div positionUSD entry) 4 in
  {| Trade.name := Coin.name coin;
     Trade.symbol := symbol;
     Trade.entry := NumText.toFixed entry 5;
     Trade.sl := NumText.toFixed sl 5;
     Trade.tp := NumText.toFixed tp 5;
     Trade.lotSize := lotSize;
     Trade.rr := rrRatio;
     Trade.notes := rationale;
     Trade.direction := match d with bullish => "Long" | bearish => "Short" end
  |}.

(** Lines 266 to 291: what [analyzeCandidate] returns for the verdict
    [analysis], [None] for [null].  [parseFloat] is called on the entry,
    then on the stop loss, once the three tests of line 266 have passed. *)
Definition plan (coin : Coin.t) (d : direction) (analysis : value)
  : exn + option Trade.t :=
  let riskAmount := TextNum.parseFloat_string (riskAmount page) in
  let rrRatio := TextNum.parseFloat_string (rrRatio page) in
  match Js.field analysis "isValid", Js.field analysis "entry",
        Js.field analysis "stopLoss", Js.field analysis "rationale" with
  | inr isValid, inr a_entry, inr a_stopLoss, inr rationale =>
      if Js.truthy (Js.and_ (Js.and_ isValid a_entry) a_stopLoss) then
        match Js.parseFloat a_entry with
        | inl e => inl e
        | inr entry =>
            match Js.parseFloat a_stopLoss with
            | inl e => inl e
            | inr sl =>
                if Num.isNaN entry || Num.isNaN sl
                   || Num.eqb entry (Num.of_Z 0) || Num.eqb sl (Num.of_Z 0)
                then inr None
                else
                  match call_toUpperCase (Coin.symbol coin) with
                  | inl e => inl e
                  | inr symbol =>
                      inr (Some (tradePlan coin symbol d riskAmount rrRatio
                                   entry sl rationale))
                  end
            end
        end
      else inr None
  | inl e, _, _, _ | _, inl e, _, _ | _, _, inl e, _ | _, _, _, inl e => inl e
  end.

(** The address of the last 24 hours of prices of [coin]: [now1] and
    [now2] are what [Date.now()] gave at line 215 and at line 216, and the
    template literal converts the id of the coin to a string. *)
Definition chartUrl (now1 now2 : Num.number) (coin : Coin.t) : exn + string :=
  let from1d :=
    Js.floor (Num.sub (Num.div now1 (Num.of_Z 1000)) (Num.of_Z 86400)) in
  let toNow := Js.floor (Num.div now2 (Num.of_Z 1000)) in
  match Js.ToString (Coin.id coin) with
  | inl e => inl e
  | inr id =>
      inr (COINGECKO_BASE_URL ++ "/coins/" ++ id
           ++ "/market_chart/range?vs_currency=usd&from="
           ++ NumText.Number_toString from1d ++ "&to="
           ++ NumText.Number_toString toNow)
  end.

Definition analyzeCandidate (now1 now2 : Num.number) (coin : Coin.t)
  (d : direction) (apiKey : string) : async (option Trade.t) :=
  chartUrl <- attempt (chartUrl now1 now2 coin) ;;
  chartRes <- fetch (GET chartUrl) ;;
  if negb (ok chartRes) then Return None
  else
    chartData <- attempt (json chartRes) ;;
    closes <- attempt (closes_of chartData) ;;
    if (List.length closes <? 50)%nat then Return None
    else
      prompt <- attempt (prompt_for coin d closes) ;;
      analysis <- callGemini prompt apiKey ;;
      attempt (plan coin d analysis).

(** ** The click handler of [runAnalysisBtn]

    What it leaves in [outputDiv]; the saved settings are left out. *)

Inductive node : Type :=
| log_message (text : string)
| error_message (text : string)
| summary_header (text : string)
| trades_container (cards : list card).

Definition candidate : Type := Coin.t * direction.

(** An entry of the market list, with the fields the program reads of it
    later on. *)
Definition coin_of (c : value) : Coin.t :=
  let get k := match Js.field c k with inr v => v | inl _ => VUndefined end in
  {| Coin.id := get "id"; Coin.symbol := get "symbol";
     Coin.name := get "name"; Coin.current_price := get "current_price";
     Coin.price_change_percentage_24h := get "price_change_percentage_24h" |}.

(** [topCryptos.filter(c => test(c.price_change_percentage_24h))]: the
    entries are taken in order, the field of each is read and tested, and
    the first error ends the filter. *)
Fixpoint filter_by (test : value -> exn + bool) (entries : list value)
  : exn + list Coin.t :=
  match entries with
  | [] => inr []
  | c :: rest =>
      match Js.field c "price_change_percentage_24h" with
      | inl e => inl e
      | inr change =>
          match test change with
          | inl e => inl e
          | inr keep =>
              match filter_by test rest with
              | inl e => inl e
              | inr kept => inr (if keep then coin_of c :: kept else kept)
              end
          end
      end
  end.

(** Step 2 of the handler, on the entries of the market list: the filter
    of line 133, then that of line 134. *)
Definition allCandidates (topCryptos : list value) (threshold : Num.number)
  : exn + list candidate :=
  match filter_by (fun change => Js.gt change threshold) topCryptos with
  | inl e => inl e
  | inr bullishCandidates =>
      match filter_by (fun change => Js.lt change (Num.neg threshold))
              topCryptos with
      | inl e => inl e
      | inr bearishCandidates =>
          inr (map (fun c => (c, bullish)) bullishCandidates
               ++ map (fun c => (c, bearish)) bearishCandidates)%list
      end
  end.

(** The array [filter] is called on: the parsed market list, if it is
    one. *)
Definition market_list (topCryptos : value) : exn + list value :=
  match topCryptos with
  | VArr entries => inr entries
  | VUndefined | VNull =>
      inl (TypeError ("Cannot read properties of " ++ Js.nullish_text topCryptos
                      ++ " (reading 'filter')"))
  | _ => inl (TypeError "topCryptos.filter is not a function")
  end.

(** [s.trim()] at the end of [s], then at its head. *)
Fixpoint trim_end (s : string) : string :=
  match s with
  | "" => ""
  | String c r =>
      match Str.skip_white s with "" => "" | _ => String c (trim_end r) end
  end.

Definition trim (s : string) : string := trim_end (Str.skip_white s).

Definition GEMINI_API_KEY : string := trim (geminiKey page).

(** The address of the market list. *)
Definition marketsUrl : string :=
  COINGECKO_BASE_URL
  ++ "/coins/markets?vs_currency=usd&order=market_cap_desc&per_page="
  ++ coinCount page ++ "&page=1&sparkline=false&price_change_percentage=24h".

(** Steps 1 and 2: the candidates, unless something throws first. *)
Definition select : async (list candidate) :=
  marketsRes <- fetch (GET marketsUrl) ;;
  if negb (ok marketsRes) then
    Throw (Error ("CoinGecko API error ("
                  ++ NumText.Number_toString (Num.of_Z (status marketsRes)) ++ ")"))
  else
    topCryptos <- attempt (json marketsRes) ;;
    let threshold := TextNum.parseFloat_string (momentumThreshold page) in
    entries <- attempt (market_list topCryptos) ;;
    attempt (allCandidates entries threshold).

(** [Date.now()] during step 3: its readings, in order. *)
Variable Date_now : nat -> Num.number.

(** Step 3: one promise per candidate, all made before any is awaited.
    Each call of [analyzeCandidate] reads the clock twice before its first
    [await], so candidate [k] gets the readings [2k] and [2k+1]. *)
Fixpoint promises_from (k : nat) (candidates : list candidate)
  : list (async (option Trade.t)) :=
  match candidates with
  | [] => []
  | c :: rest =>
      analyzeCandidate (Date_now (2 * k)) (Date_now (2 * k + 1)) (fst c) (snd c)
        GEMINI_API_KEY
      :: promises_from (S k) rest
  end.

Definition analysisPromises (candidates : list candidate)
  : list (async (option Trade.t)) :=
  promises_from 0 candidates.

Definition target : string :=
  String (ascii_of_N 240) (String (ascii_of_N 159)
    (String (ascii_of_N 142) (String (ascii_of_N 175) ""))).

Definition count_text {A : Type} (l : list A) : string :=
  NumText.Number_toString (Num.of_Z (Z.of_nat (List.length l))).

(** Step 4, on the results of [Promise.allSettled]. *)
Definition validTrades (results : list (outcome (option Trade.t)))
  : list Trade.t :=
  flat_map (fun r => match r with Fulfilled (Some t) => [t] | _ => [] end) results.

Definition rejections (results : list (outcome (option Trade.t))) : list node :=
  flat_map (fun r => match r with
                     | Rejected reason => [error_message (message reason)]
                     | _ => []
                     end) results.

(** Lines 171 to 180 and 182 to 191: the header is appended first, the
    container once all its cards are made.  What was appended, and the
    error thrown on the way, if any. *)
Definition setups (title : string) (trades : list Trade.t)
  : list node * option exn :=
  match trades with
  | [] => ([], None)
  | _ =>
      let header :=
        summary_header (target ++ title ++ count_text trades ++ ")") in
      match cards_of trades with
      | inl e => ([header], Some e)
      | inr cards => ([header; trades_container cards], None)
      end
  end.

(** Lines 163 to 200: what step 4 appends to the emptied [outputDiv], and
    the error that ended it, if one was thrown. *)
Definition display (results : list (outcome (option Trade.t)))
  : list node * option exn :=
  let longTrades :=
    filter (fun t => String.eqb (Trade.direction t) "Long") (validTrades results) in
  let shortTrades :=
    filter (fun t => String.eqb (Trade.direction t) "Short") (validTrades results) in
  match setups " Valid Long Setups (" longTrades with
  | (long, Some e) => (long, Some e)
  | (long, None) =>
      match setups " Valid Short Setups (" shortTrades with
      | (short, Some e) => ((long ++ short)%list, Some e)
      | (short, None) =>
          ((long ++ short
            ++ (match validTrades results with
                | [] => [log_message "Analysis complete. No high-confluence ICT setups found based on the current rules."]
                | _ => []
                end)
            ++ rejections results)%list, None)
      end
  end.

End Pipeline.

(** * Promises in flight

    The promises of step 3 run interleaved: whenever an answer arrives, the
    function that waits for it resumes, up to its next [await] or its end.
    [nets i] answers the requests of promise [i]. *)

(** [showLoading(message)]: the markup it gives the button. *)
Definition showLoading (message : string) : string :=
  "<div class=" ++ dq ++ "spinner" ++ dq ++ "></div><span>" ++ message
  ++ "</span>".

(** The message of lines 147 and 155. *)
Definition progress (analyzedCount candidates : nat) : string :=
  "Analyzing " ++ NumText.Number_toString (Num.of_Z (Z.of_nat analyzedCount))
  ++ " / " ++ NumText.Number_toString (Num.of_Z (Z.of_nat candidates))
  ++ " coins...".

Section Flight.

Context {A : Type}.

Variable nets : nat -> request -> answer.

Fixpoint resume (i : nat) (r : async A) (tasks : list (async A)) : list (async A) :=
  match tasks, i with
  | [], _ => []
  | _ :: rest, O => r :: rest
  | t :: rest, S i' => t :: resume i' r rest
  end.

(** A promise that has settled, and how. *)
Definition settled (p : async A) : option (outcome A) :=
  match p with
  | Return a => Some (Fulfilled a)
  | Throw e => Some (Rejected e)
  | Fetch _ _ => None
  end.

(** [await Promise.allSettled(tasks)] resumes once every promise has
    settled, with all the outcomes in the order of the promises. *)
Fixpoint allSettled (tasks : list (async A)) : option (list (outcome A)) :=
  match tasks with
  | [] => Some []
  | t :: rest =>
      match settled t, allSettled rest with
      | Some o, Some os => Some (o :: os)
      | _, _ => None
      end
  end.

(** The promises with a result already. *)
Definition fulfilled (tasks : list (async A)) : nat :=
  List.length (filter (fun t => match t with Return _ => true | _ => false end)
                 tasks).

(** Step 3 while the handler waits at line 160: the counter of line 150,
    the markup of the button, and the analyses, each followed by the
    [then] of lines 153 to 157. *)
Record flight : Type := {
  analyzedCount : nat;
  button : string;
  promises : list (async A)
}.

(** The handler reaches line 160 with the message of line 147 on the
    button; the [then] of an analysis that has its result already runs
    before any answer arrives. *)
Definition launch (tasks : list (async A)) : flight :=
  {| analyzedCount := fulfilled tasks;
     button := showLoading (progress (fulfilled tasks) (List.length tasks));
     promises := tasks |}.

(** Promise [i] has resumed and is now [r].  When it has returned, its
    [then] counts it and updates the button before handing the result on;
    when it has thrown, its [then] hands the rejection on, and nothing is
    counted. *)
Definition delivered (i : nat) (r : async A) (f : flight) : flight :=
  match r with
  | Return _ =>
      {| analyzedCount := S (analyzedCount f);
         button :=
           showLoading (progress (S (analyzedCount f))
                          (List.length (promises f)));
         promises := resume i r (promises f) |}
  | _ =>
      {| analyzedCount := analyzedCount f;
         button := button f;
         promises := resume i r (promises f) |}
  end.

Inductive step : flight -> flight -> Prop :=
| step_answer (i : nat) (rq : request) (k : answer -> async A) (f : flight) :
    nth_error (promises f) i = Some (Fetch rq k) ->
    step f (delivered i (k (nets i rq)) f).

(** [steps n f1 f2]: [n] answers, in any order, lead from [f1] to [f2]. *)
Inductive steps : nat -> flight -> flight -> Prop :=
| steps_refl (f : flight) : steps 0 f f
| steps_step (n : nat) (f1 f2 f3 : flight) :
    step f1 f2 -> steps n f2 f3 -> steps (S n) f1 f3.

(** The outcomes of the promises, each on its own network. *)
Fixpoint outcomes (i : nat) (tasks : list (async A)) : list (outcome A) :=
  match tasks with
  | [] => []
  | t :: rest => settle (nets i) t :: outcomes (S i) rest
  end.

(** The counter and the button go together with the promises: the counter
    is the number of promises with a result, and the button shows it. *)
Definition in_step (f : flight) : Prop :=
  analyzedCount f = fulfilled (promises f)
  /\ button f
     = showLoading (progress (analyzedCount f) (List.length (promises f))).

End Flight.

Arguments flight : clear implicits.

Section Handler.

Variable JSON_parse : string -> exn + value.
Variable toUpperCase : string -> string.
Variable page : inputs.
Variable Date_now : nat -> Num.number.

(** What [alert] showed and what [outputDiv] holds when the handler ends. *)
Record shown : Type := {
  alerts : list string;
  outputDiv : list node
}.

(** Lines 202 to 204: what [outputDiv] holds once the [try] has ended,
    with the nodes [appended] and, when it ended by an error, the line of
    the [catch]. *)
Definition caught (ended : list node * option exn) : list node :=
  match ended with
  | (appended, Some error) =>
      appended ++ [error_message ("A global error occurred: " ++ message error)]
  | (appended, None) => appended
  end.

(** The handler: [before] is what [outputDiv] held, [net] answers the
    request for the market list, [nets i] those of the analysis of
    candidate [i]. *)
Definition run (before : list node) (net : request -> answer)
  (nets : nat -> request -> answer) : shown :=
  if String.eqb (GEMINI_API_KEY page) "" then
    {| alerts := ["Please enter your Gemini API key!"]; outputDiv := before |}
  else
    match settle net (select page) with
    | Rejected error => {| alerts := []; outputDiv := caught ([], Some error) |}
    | Fulfilled [] =>
        {| alerts := [];
           outputDiv :=
             [error_message "No coins found matching the momentum threshold. Try widening your criteria."] |}
    | Fulfilled candidates =>
        {| alerts := [];
           outputDiv :=
             caught (display
                       (outcomes nets 0
                          (analysisPromises JSON_parse toUpperCase page Date_now
                             candidates))) |}
    end.

End Handler.

(** * Notions the properties are stated with *)

Section Notions.

Variable JSON_parse : string -> exn + value.
Variable toUpperCase : string -> string.
Variable page : inputs.

(** On the network [net], the analysis of a candidate gets a verdict from
    the reasoning service: the address of the price history was built,
    the history came with at least 50 closes, the prompt was built, and
    [callGemini] returned [analysis]. *)
Definition verdict (now1 now2 : Num.number) (net : request -> answer)
  (coin : Coin.t) (d : direction) (apiKey : string) (analysis : value) : Prop :=
  exists url chartRes chartData closes prompt,
    chartUrl now1 now2 coin = inr url
    /\ net (GET url) = inr chartRes
    /\ ok chartRes = true
    /\ json chartRes = inr chartData
    /\ closes_of chartData = inr closes
    /\ (50 <= List.length closes)%nat
    /\ prompt_for toUpperCase coin d closes = inr prompt
    /\ settle net (callGemini JSON_parse prompt apiKey) = Fulfilled analysis.

(** The structured payload in a response of the reasoning service: the
    value of the first fenced block of its text, when there is one that
    parses. *)
Definition structured_payload (response : response) : option value :=
  match json response with
  | inr data =>
      match response_text data with
      | inr (VStr text) =>
          match match_block text with
          | Some block =>
              match JSON_parse block with
              | inr analysis => Some analysis
              | inl _ => None
              end
          | None => None
          end
      | _ => None
      end
  | inl _ => None
  end.

End Notions.

(** [l1] is [l2] with some elements left out, the order kept. *)
Inductive subseq {A : Type} : list A -> list A -> Prop :=
| subseq_nil : subseq [] []
| subseq_skip (x : A) (l1 l2 : list A) : subseq l1 l2 -> subseq l1 (x :: l2)
| subseq_keep (x : A) (l1 l2 : list A) : subseq l1 l2 -> subseq (x :: l1) (x :: l2).

(** A text with exactly [f] characters after its decimal point. *)
Definition decimals (f : nat) (s : string) : Prop :=
  exists whole frac, s = whole ++ "." ++ frac /\ String.length frac = f.

(** The Number a field of a trade plan reads as. *)
Definition amount (s : string) : Num.number := TextNum.parseFloat_string s.

(** [0 < x] *)
Definition positive_amount (x : Num.number) : bool := Num.ltb (Num.of_Z 0) x.

(** A threshold that is not below zero (NaN is not). *)
Definition not_negative (threshold : Num.number) : Prop :=
  Num.ltb threshold (Num.of_Z 0) = false.

(** A finite Number of magnitude below [10^21], where [toFixed] writes
    plain digits. *)
Definition below_1e21 (x : Num.number) : bool :=
  match x with
  | S754_zero _ => true
  | S754_finite _ m e =>
      let '(a, b) := Num.fraction m e in negb (10 ^ 21 * b <=? a)
  | _ => false
  end.

(** The requests still to be answered before all of [tasks] have settled,
    promise [i] and the following on [nets i], [nets (i+1)], ... *)
Fixpoint pending {A : Type} (nets : nat -> request -> answer) (i : nat)
  (tasks : list (async A)) : nat :=
  match tasks with
  | [] => 0
  | t :: rest => List.length (requests (nets i) t) + pending nets (S i) rest
  end.

(** The cards in [outputDiv], in the order of the document. *)
Definition cards_in (out : list node) : list card :=
  flat_map (fun n => match n with trades_container cards => cards | _ => [] end)
    out.

(** The tests of [Str.skip_white] on the first one, two and three bytes. *)
Definition white1 (c : ascii) : bool :=
  let n := Str.code c in ((9 <=? n) && (n <=? 13) || (n =? 32))%N.

Definition white2 (c c1 : ascii) : bool :=
  ((Str.code c =? 194) && (Str.code c1 =? 160))%N.

Definition white3 (c c1 c2 : ascii) : bool :=
  let n := Str.code c in
  let n1 := Str.code c1 in
  let n2 := Str.code c2 in
  ((n =? 225) && (n1 =? 154) && (n2 =? 128)
   || (n =? 226) && (n1 =? 128)
      && ((128 <=? n2) && (n2 <=? 138) || (n2 =? 168)
          || (n2 =? 169) || (n2 =? 175))
   || (n =? 226) && (n1 =? 129) && (n2 =? 159)
   || (n =? 227) && (n1 =? 128) && (n2 =? 128)
   || (n =? 239) && (n1 =? 187) && (n2 =? 191))%N.

(** A text of white space only, what [\s*] can match in full. *)
Definition blank (s : string) : Prop := Str.skip_white s = "".

(** A Number that line 270 lets through: not NaN and not zero. *)
Definition usable (x : Num.number) : bool :=
  negb (Num.isNaN x || Num.eqb x (Num.of_Z 0)).

(** A value that has a string: ToString does not throw on it. *)
Definition convertible (v : value) : Prop :=
  exists s, Js.ToString v = inr s.

(** An entry of the market list that the filters of lines 133 and 134 get
    past: its 24h change can be read and compared. *)
Definition comparable (c : value) : Prop :=
  exists change x,
    Js.field c "price_change_percentage_24h" = inr change
    /\ Js.ToNumber change = inr x.

(** An entry passes the test of a filter; not when reading or testing its
    change throws. *)
Definition passes (test : value -> exn + bool) (c : value) : bool :=
  match Js.field c "price_change_percentage_24h" with
  | inr change => match test change with inr keep => keep | inl _ => false end
  | inl _ => false
  end.

(** * Concrete runs *)

Module Scenario.

Definition num (z : Z) : value := VNum (Num.of_Z z).

(** The engine's [toUpperCase] on texts of ASCII characters, where it
    changes the letters a to z only; the symbols of these runs are such
    texts. *)
Fixpoint upper (s : string) : string :=
  match s with
  | "" => ""
  | String c r =>
      let n := Str.code c in
      String (if ((97 <=? n) && (n <=? 122))%N then ascii_of_N (n - 32) else c)
             (upper r)
  end.

(** An object that has no primitive value: what [JSON.parse] makes of
    [{"toString": 1}]. *)
Definition opaque : value := VObj [("toString", num 1)].

(** The market entry of end-to-end scenario A, and two more. *)
Definition coin_of_change (sym : string) (change : value) : Coin.t :=
  {| Coin.id := VStr sym; Coin.symbol := VStr sym; Coin.name := VStr sym;
     Coin.current_price := num 101;
     Coin.price_change_percentage_24h := change |}.

Definition x : Coin.t := coin_of_change "x" (num 5).
Definition y : Coin.t := coin_of_change "y" (num (-5)).
Definition flat : Coin.t := coin_of_change "flat" (num 0).
Definition edge : Coin.t := coin_of_change "edge" (num 3).
Definition quiet : Coin.t := coin_of_change "quiet" VUndefined.

Definition entry_of (c : Coin.t) : value :=
  VObj [("id", Coin.id c); ("symbol", Coin.symbol c); ("name", Coin.name c);
        ("current_price", Coin.current_price c);
        ("price_change_percentage_24h", Coin.price_change_percentage_24h c)].

(** A price history of [k] points, all closing at 100. *)
Definition chart (k : nat) : value :=
  VObj [("prices", VArr (repeat (VArr [num 1700000000000; num 100]) k))].

Definition valid (entry stopLoss : value) : value :=
  VObj [("isValid", VBool true); ("entry", entry); ("stopLoss", stopLoss);
        ("rationale", VStr "Clear MSS on the 5min chart.")].


Definition invalid : value :=
  VObj [("isValid", VBool false); ("entry", VNull); ("stopLoss", VNull);
        ("rationale", VStr "No clear Market Structure Shift found.")].

(** An answer of the reasoning service whose text is [reply]. *)
Definition generated (reply : string) : value :=
  VObj [("candidates",
         VArr [VObj [("content", VObj [("parts", VArr [VObj [("text", VStr reply)]])])]])].

Definition fenced (block : string) : string :=
  "Here is the plan:" ++ nl ++ "```json" ++ nl ++ block ++ nl ++ "```" ++ nl.

Definition respond (body : value) : response :=
  {| ok := true; status := 200; text := inl (TypeError "body stream already read");
     json := inr body |}.

Definition refuse (code : Z) (body : string) : response :=
  {| ok := false; status := code; text := inr body;
     json := inl (SyntaxError "Unexpected token") |}.

Definition success (body : value) : answer := inr (respond body).
Definition failure (code : Z) (body : string) : answer := inr (refuse code body).

(** Networks: the price history has [k] points, the reasoning service
    answers [service]. *)
Definition network (k : nat) (service : answer) (rq : request) : answer :=
  match rq with
  | GET _ => success (chart k)
  | POST _ _ => service
  end.

Definition answering (k : nat) : request -> answer :=
  network k (success (generated (fenced "{ verdict }"))).

(** A network whose price history fails. *)
Definition no_history (rq : request) : answer :=
  match rq with
  | GET _ => failure 429 "Too Many Requests"
  | POST _ _ => success (generated (fenced "{ verdict }"))
  end.

(** The closes of [chart k], and the prompt made of them. *)
Definition closes (k : nat) : list value := repeat (num 100) k.

Definition prompt (c : Coin.t) (d : direction) (k : nat) : string :=
  match prompt_for upper c d (closes k) with inr p => p | inl _ => "" end.

(** Two analyses in flight: the price history of the first is refused,
    the reasoning service fails on the second. *)
Definition mixed (i : nat) : request -> answer :=
  match i with
  | O => no_history
  | S _ => network 50 (failure 500 "Internal error")
  end.

(** A parser that reads every block as the verdict [v], and one that
    reads none. *)
Definition reads (v : value) (block : string) : exn + value := inr v.
Definition reads_nothing (block : string) : exn + value :=
  inl (SyntaxError "Unexpected token v in JSON at position 2").

Definition clock : Num.number := Num.of_Z 1700000000999.

(** A clock that gives the same reading every time, and one that moves on
    by half a second from one reading to the next. *)
Definition still (k : nat) : Num.number := clock.
Definition ticking (k : nat) : Num.number :=
  Num.of_Z (1700000000999 + 500 * Z.of_nat k).

(** The address of the price history of [c] at that clock. *)
Definition history (c : Coin.t) : string :=
  match chartUrl clock clock c with inr url => url | inl _ => "" end.

(** The page with its default settings, and with a negative threshold. *)
Definition defaults : inputs :=
  {| geminiKey := "key"; riskAmount := "10"; rrRatio := "3"; coinCount := "50";
     momentumThreshold := "3" |}.

Definition negative : inputs :=
  {| geminiKey := "key"; riskAmount := "10"; rrRatio := "3"; coinCount := "50";
     momentumThreshold := "-3" |}.

Definition markets (coins : list Coin.t) (rq : request) : answer :=
  success (VArr (map entry_of coins)).

(** A market list given by its entries. *)
Definition listing (entries : list value) (rq : request) : answer :=
  success (VArr entries).


(** The trade plan of scenario A. *)
Definition planA : Trade.t :=
  {| Trade.name := VStr "x"; Trade.symbol := "X";
     Trade.entry := "100.00000"; Trade.sl := "95.00000";
     Trade.tp := "115.00000"; Trade.lotSize := "2.0000";
     Trade.rr := Num.of_Z 3;
     Trade.notes := VStr "Clear MSS on the 5min chart.";
     Trade.direction := "Long" |}.

End Scenario.


(** * Settings and theme: lines 16 to 40 *)


(** [localStorage]: the text stored under a key, [None] where [getItem]
    gives [null].  The store takes what is written to it. *)
Definition storage : Type := string -> option string.

Definition getItem (store : storage) (key : string) : option string :=
  store key.

Definition setItem (key value : string) (store : storage) : storage :=
  fun k => if String.eqb k key then Some value else store k.

(** [stored || fallback]: [null] and the empty text are falsy. *)
Definition or_else (stored : option string) (fallback : string) : string :=
  match stored with
  | Some s => if String.eqb s "" then fallback else s
  | None => fallback
  end.

(** The toggle of the theme and the [data-theme] of the document. *)
Record theme : Type := {
  checked : bool;
  data_theme : string
}.

(** What [loadSettings] assigns to the [value] of the input elements, to
    the toggle and to the document. *)
Definition loadSettings (store : storage) : inputs * theme :=
  let isDarkMode :=
    match getItem store "darkMode" with
    | Some s => String.eqb s "true"
    | None => false
    end in
  ({| geminiKey := or_else (getItem store "geminiApiKey") "";
      riskAmount := or_else (getItem store "riskAmount") "10";
      rrRatio := or_else (getItem store "rrRatio") "3";
      coinCount := or_else (getItem store "coinCount") "50";
      momentumThreshold := or_else (getItem store "momentumThreshold") "3" |},
   {| checked := isDarkMode;
      data_theme := if isDarkMode then "dark" else "light" |}).

Definition saveSettings (page : inputs) (store : storage) : storage :=
  setItem "momentumThreshold" (momentumThreshold page)
    (setItem "coinCount" (coinCount page)
       (setItem "rrRatio" (rrRatio page)
          (setItem "riskAmount" (riskAmount page)
             (setItem "geminiApiKey" (geminiKey page) store)))).

(** The [change] handler of the toggle, when the toggle is at [isDarkMode]:
    the [data-theme] it sets, and the store it leaves; [setItem] stores the
    boolean as its text. *)
Definition themeChanged (isDarkMode : bool) (store : storage)
  : string * storage :=
  (if isDarkMode then "dark" else "light",
   setItem "darkMode" (if isDarkMode then "true" else "false") store).

(** * More concrete runs *)

Module Cases.

Import Scenario.

(** The page with the risk amount and the threshold emptied, and a word
    for the ratio. *)
Definition unset : inputs :=
  {| geminiKey := "key"; riskAmount := ""; rrRatio := "three";
     coinCount := "50"; momentumThreshold := "" |}.

(** A network that is down. *)
Definition offline (rq : request) : answer := inl (TypeError "Failed to fetch").

(** An entry whose 24h change has no primitive value, and one whose id has
    none. *)
Definition odd : value :=
  VObj [("id", VStr "odd"); ("symbol", VStr "odd"); ("name", VStr "odd");
        ("current_price", num 101); ("price_change_percentage_24h", opaque)].

(** An entry without a 24h change, and the coin it is; a coin whose 24h
    change is [null]. *)
Definition unlisted : value :=
  VObj [("id", VStr "quiet"); ("symbol", VStr "quiet"); ("name", VStr "quiet");
        ("current_price", num 101)].

Definition idle : Coin.t := coin_of_change "idle" VNull.

Definition nameless : Coin.t :=
  {| Coin.id := opaque; Coin.symbol := VStr "n"; Coin.name := VStr "n";
     Coin.current_price := num 101;
     Coin.price_change_percentage_24h := num 5 |}.

(** The text of a reply, in the pieces of the pattern of line 102. *)
Definition reply : string :=
  "Here is the plan:" ++ "```json" ++ nl ++ "{" ++ " verdict " ++ "}" ++ nl
  ++ "```" ++ " Good luck.".

(** A price history of 50 points, the first of which closes at a value
    without a primitive value. *)
Definition odd_chart : value :=
  VObj [("prices",
         VArr (VArr [num 1700000000000; opaque]
               :: repeat (VArr [num 1700000000000; num 100]) 49))].

Definition odd_history (rq : request) : answer :=
  match rq with
  | GET _ => success odd_chart
  | POST _ _ => success (generated (fenced "{ verdict }"))
  end.


End Cases.

(** * Proof steps *)

(** Proves [exists t, run = Fulfilled (Some t) /\ ...] for a concrete run:
    evaluates the run, and then what is said of its trade plan. *)
Ltac evaluate_run :=
  lazymatch goal with
  | |- exists t, ?run = Fulfilled (Some t) /\ _ =>
      let r := eval vm_compute in run in
      lazymatch r with
      | Fulfilled (Some ?t) =>
          exists t; split; [vm_compute; reflexivity | vm_compute; auto 10]
      end
  end.

(** The pieces of a template before and after the piece [x]. *)
Ltac pieces_around x l :=
  lazymatch l with
  | x :: ?after => constr:((@nil string, after))
  | ?piece :: ?rest =>
      let p := pieces_around x rest in
      lazymatch p with (?before, ?after) => constr:((piece :: before, after)) end
  end.

(** * The runtime on known values *)

Section Runtime.

Import Num NumText TextNum.

Example sum_of_tenths :
  Number_toString (add (parseFloat_string "0.1") (parseFloat_string "0.2"))
  = "0.30000000000000004".
Proof. vm_compute. reflexivity. Qed.

Example exponent_from_1e21 :
  Number_toString (parseFloat_string "1000000000000000000000") = "1e+21"
  /\ Number_toString (parseFloat_string "100000000000000000000")
     = "100000000000000000000"
  /\ Number_toString (parseFloat_string "0.0000001") = "1e-7".
Proof. repeat split; vm_compute; reflexivity. Qed.

(** 1.255 is a binary fraction below 1.255, 2.5 is halfway, and a negative
    Number keeps its sign. *)
Example toFixed_rounds :
  toFixed (parseFloat_string "1.255") 2 = "1.25"
  /\ toFixed (parseFloat_string "2.5") 0 = "3"
  /\ toFixed (parseFloat_string "-0.000001") 5 = "-0.00000"
  /\ toFixed (parseFloat_string "1e21") 5 = "1e+21"
  /\ toFixed (div (of_Z 1) (of_Z 0)) 4 = "Infinity".
Proof. repeat split; vm_compute; reflexivity. Qed.

Example parseFloat_reads_a_prefix :
  parseFloat_string "  12.5e3 USD" = of_Z 12500
  /\ parseFloat_string "0x1F" = of_Z 0
  /\ StringToNumber "0x1F" = of_Z 31
  /\ StringToNumber "12.5e3 USD" = NaN
  /\ parseFloat_string "abc" = NaN
  /\ Js.parseFloat (VArr [VNum (of_Z 100); VNull]) = inr (of_Z 100)
  /\ Js.parseFloat VNull = inr NaN.
Proof. repeat split; vm_compute; reflexivity. Qed.

(** An object with a [toString] of its own has no primitive value, alone
    or in an array; one with a [valueOf] of its own has its inherited
    string. *)
Example no_primitive_value :
  Js.ToString (VObj [("toString", VNum (of_Z 1))]) = inl Js.unconvertible
  /\ Js.ToString (VObj [("valueOf", VNum (of_Z 1))]) = inr "[object Object]"
  /\ Js.ToString (VArr [VNull; VArr [VNum (of_Z 1); VNum (of_Z 2)]; VStr "a"])
     = inr ",1,2,a"
  /\ Js.parseFloat (VArr [VNum (of_Z 100); VObj [("toString", VNum (of_Z 1))]])
     = inl Js.unconvertible
  /\ Js.gt (VObj [("toString", VNum (of_Z 1))]) (of_Z 3) = inl Js.unconvertible
  /\ Js.gt (VObj []) (of_Z 3) = inr false
  /\ Js.lt (VStr " 2 ") (of_Z 3) = inr true.
Proof. repeat split; vm_compute; reflexivity. Qed.

(** The lazy body of the pattern ends at the first brace that a fence
    follows, not at the first brace. *)
Example match_block_is_lazy :
  match_block ("Plan: ```json" ++ nl ++ "{ {a} }" ++ nl ++ "``` and ```json {b} ```")
  = Some "{ {a} }"
  /\ match_block "```json [1, 2] ```" = None
  /\ match_block "``` {a} ```" = None.
Proof. repeat split; vm_compute; reflexivity. Qed.

End Runtime.

(** * Numbers: order and equality *)

Section NumberFacts.

Import Num.

Lemma compare_cont_Eq_sym (m1 m2 : positive) :
  Pos.compare_cont Eq m1 m2 = Eq -> Pos.compare_cont Eq m2 m1 = Eq.
Proof.
  intros H. apply Pos.compare_eq in H. subst. apply Pos.compare_refl.
Qed.

(** Equal numbers are not ordered, either way. *)
Lemma eqb_not_ltb (x y : number) :
  eqb x y = true -> ltb x y = false /\ ltb y x = false.
Proof.
  unfold eqb, ltb, SFeqb, SFltb.
  destruct (SFcompare x y) as [[]|] eqn:E; try discriminate. intros _.
  split; [reflexivity|].
  destruct x as [[] | [] | | [] mx ex], y as [[] | [] | | [] my ey];
    simpl in *; try discriminate; try reflexivity.
  - destruct (Z.compare ex ey) eqn:Ze; try discriminate.
    apply Z.compare_eq in Ze. subst. rewrite Z.compare_refl.
    destruct (Pos.compare_cont Eq mx my) eqn:Pe; try discriminate.
    rewrite (compare_cont_Eq_sym _ _ Pe). reflexivity.
  - destruct (Z.compare ex ey) eqn:Ze; try discriminate.
    apply Z.compare_eq in Ze. subst. rewrite Z.compare_refl.
    destruct (Pos.compare_cont Eq mx my) eqn:Pe; try discriminate.
    rewrite (compare_cont_Eq_sym _ _ Pe). reflexivity.
Qed.

(** A comparison with NaN is false. *)
Lemma ltb_NaN_l (x y : number) : isNaN x = true -> ltb x y = false.
Proof. destruct x; try discriminate. reflexivity. Qed.

Lemma ltb_NaN_r (x y : number) : isNaN y = true -> ltb x y = false.
Proof. destruct y; try discriminate. destruct x; reflexivity. Qed.

(** A number equal to a threshold that is not negative is not below the
    opposite of the threshold. *)
Lemma at_threshold_not_below (x t : number) :
  ltb t (of_Z 0) = false -> eqb x t = true -> ltb x (neg t) = false.
Proof.
  unfold eqb, ltb, SFeqb, SFltb, neg.
  destruct x as [[] | [] | | [] mx ex], t as [[] | [] | | [] mt et];
    simpl; intros; try discriminate; reflexivity.
Qed.

(** A number equal to the opposite of such a threshold is not above it. *)
Lemma at_opposite_not_above (x t : number) :
  ltb t (of_Z 0) = false -> eqb x (neg t) = true -> ltb t x = false.
Proof.
  unfold eqb, ltb, SFeqb, SFltb, neg.
  destruct x as [[] | [] | | [] mx ex], t as [[] | [] | | [] mt et];
    simpl; intros; try discriminate; reflexivity.
Qed.

(** Above a threshold that is not negative, a number is not below its
    opposite. *)
Lemma above_not_below (x t : number) :
  ltb t (of_Z 0) = false -> ltb t x = true -> ltb x (neg t) = false.
Proof.
  unfold ltb, SFltb, neg.
  destruct x as [[] | [] | | [] mx ex], t as [[] | [] | | [] mt et];
    simpl; intros; try discriminate; reflexivity.
Qed.

End NumberFacts.

(** * Step 2: the candidates *)

Section Selection.

Lemma subseq_filter {A : Type} (f : A -> bool) (l : list A) :
  subseq (filter f l) l.
Proof.
  induction l as [| a l IH]; simpl.
  - constructor.
  - destruct (f a); constructor; exact IH.
Qed.

Lemma subseq_map {A B : Type} (f : A -> B) (l1 l2 : list A) :
  subseq l1 l2 -> subseq (map f l1) (map f l2).
Proof. induction 1; simpl; constructor; assumption. Qed.

Lemma subseq_In {A : Type} (l1 l2 : list A) (x : A) :
  subseq l1 l2 -> In x l1 -> In x l2.
Proof.
  induction 1 as [| y l1 l2 _ IH | y l1 l2 _ IH]; intros H.
  - exact H.
  - right. apply IH, H.
  - destruct H as [H | H]; [left; exact H | right; apply IH, H].
Qed.

Lemma subseq_NoDup {A : Type} (l1 l2 : list A) :
  subseq l1 l2 -> NoDup l2 -> NoDup l1.
Proof.
  induction 1 as [| y l1 l2 S IH | y l1 l2 S IH]; intros H.
  - exact H.
  - inversion H; subst. apply IH. assumption.
  - inversion H as [| ? ? Hn Hd]; subst. constructor.
    + intros Hin. apply Hn. exact (subseq_In _ _ _ S Hin).
    + apply IH, Hd.
Qed.

(** The change the program reads of an entry is that of its coin. *)
Lemma change_of_coin (c change : value) :
  Js.field c "price_change_percentage_24h" = inr change ->
  Coin.price_change_percentage_24h (coin_of c) = change.
Proof. intros H. unfold coin_of. cbn [Coin.price_change_percentage_24h]. rewrite H. reflexivity. Qed.

(** A filter that does not throw keeps the entries that pass its test. *)
Lemma filter_by_kept (test : value -> exn + bool) (entries : list value)
  (kept : list Coin.t) :
  filter_by test entries = inr kept ->
  kept = map coin_of (filter (passes test) entries).
Proof.
  revert kept. induction entries as [| c rest IH]; intros kept H.
  - injection H as <-. reflexivity.
  - cbn [filter_by] in H. cbn [filter]. unfold passes at 1.
    destruct (Js.field c "price_change_percentage_24h") as [e | change];
      [discriminate |].
    destruct (test change) as [e | keep]; [discriminate |].
    destruct (filter_by test rest) as [e | kept']; [discriminate |].
    injection H as <-. rewrite (IH kept' eq_refl).
    destruct keep; reflexivity.
Qed.

Lemma passes_test (test : value -> exn + bool) (c : value) :
  passes test c = true
  <-> Js.nullish c = false
      /\ test (Coin.price_change_percentage_24h (coin_of c)) = inr true.
Proof.
  unfold passes.
  destruct (Js.field c "price_change_percentage_24h") as [e | change] eqn:F.
  - split; [discriminate |]. intros [N _].
    destruct c; try discriminate.
  - rewrite (change_of_coin _ _ F).
    assert (N : Js.nullish c = false) by (destruct c; try discriminate; reflexivity).
    destruct (test change) as [e | []]; split; try discriminate; auto;
      intros [_ H]; discriminate.
Qed.

Lemma filter_by_In (test : value -> exn + bool) (entries : list value)
  (kept : list Coin.t) (coin : Coin.t) :
  filter_by test entries = inr kept ->
  (In coin kept
   <-> exists c,
         In c entries /\ coin = coin_of c
         /\ test (Coin.price_change_percentage_24h coin) = inr true).
Proof.
  intros H. rewrite (filter_by_kept _ _ _ H), in_map_iff. split.
  - intros (c & <- & Hin). apply filter_In in Hin. destruct Hin as [Hin P].
    exists c. split; [exact Hin |]. split; [reflexivity |].
    apply passes_test, P.
  - intros (c & Hin & -> & T). exists c. split; [reflexivity |].
    apply filter_In. split; [exact Hin |]. apply passes_test.
    split; [| exact T].
    clear T. revert kept H. induction entries as [| c0 rest IH]; intros kept H;
      [destruct Hin |].
    cbn [filter_by] in H.
    destruct (Js.field c0 "price_change_percentage_24h") as [e | change] eqn:F;
      [discriminate |].
    destruct (test change) as [e | keep]; [discriminate |].
    destruct (filter_by test rest) as [e | kept']; [discriminate |].
    destruct Hin as [<- | Hin].
    + destruct c0; try discriminate; reflexivity.
    + exact (IH Hin kept' eq_refl).
Qed.

(** The two filters of the selection, when it does not throw. *)
Lemma allCandidates_filters (entries : list value) (threshold : Num.number)
  (candidates : list candidate) :
  allCandidates entries threshold = inr candidates ->
  exists bulls bears,
    filter_by (fun change => Js.gt change threshold) entries = inr bulls
    /\ filter_by (fun change => Js.lt change (Num.neg threshold)) entries
       = inr bears
    /\ candidates
       = (map (fun c => (c, bullish)) bulls
          ++ map (fun c => (c, bearish)) bears)%list.
Proof.
  unfold allCandidates. intros H.
  destruct (filter_by _ entries) as [e | bulls]; [discriminate |].
  destruct (filter_by _ entries) as [e | bears]; [discriminate |].
  injection H as <-. exists bulls, bears. repeat split.
Qed.

Lemma In_bullish (entries : list value) (threshold : Num.number)
  (candidates : list candidate) (coin : Coin.t) :
  allCandidates entries threshold = inr candidates ->
  (In (coin, bullish) candidates
   <-> exists c,
         In c entries /\ coin = coin_of c
         /\ Js.gt (Coin.price_change_percentage_24h coin) threshold = inr true).
Proof.
  intros H. destruct (allCandidates_filters _ _ _ H) as (bulls & bears & B & _ & ->).
  rewrite <- (filter_by_In _ _ _ coin B), in_app_iff, !in_map_iff. split.
  - intros [(c & E & Hin) | (c & E & _)]; [| discriminate].
    injection E as <-. exact Hin.
  - intros Hin. left. exists coin. auto.
Qed.

Lemma In_bearish (entries : list value) (threshold : Num.number)
  (candidates : list candidate) (coin : Coin.t) :
  allCandidates entries threshold = inr candidates ->
  (In (coin, bearish) candidates
   <-> exists c,
         In c entries /\ coin = coin_of c
         /\ Js.lt (Coin.price_change_percentage_24h coin) (Num.neg threshold)
            = inr true).
Proof.
  intros H. destruct (allCandidates_filters _ _ _ H) as (bulls & bears & _ & B & ->).
  rewrite <- (filter_by_In _ _ _ coin B), in_app_iff, !in_map_iff. split.
  - intros [(c & E & _) | (c & E & Hin)]; [discriminate |].
    injection E as <-. exact Hin.
  - intros Hin. right. exists coin. auto.
Qed.

(** A comparison that does not throw compares the Number of the change. *)
Lemma gt_cases (change : value) (threshold : Num.number) (keep : bool) :
  Js.gt change threshold = inr keep
  <-> exists x, Js.ToNumber change = inr x /\ keep = Num.ltb threshold x.
Proof.
  unfold Js.gt. destruct (Js.ToNumber change) as [e | x]; split.
  - discriminate.
  - intros (x & H & _). discriminate.
  - intros H. injection H as <-. exists x. auto.
  - intros (x' & H & ->). injection H as <-. reflexivity.
Qed.

Lemma lt_cases (change : value) (threshold : Num.number) (keep : bool) :
  Js.lt change threshold = inr keep
  <-> exists x, Js.ToNumber change = inr x /\ keep = Num.ltb x threshold.
Proof.
  unfold Js.lt. destruct (Js.ToNumber change) as [e | x]; split.
  - discriminate.
  - intros (x & H & _). discriminate.
  - intros H. injection H as <-. exists x. auto.
  - intros (x' & H & ->). injection H as <-. reflexivity.
Qed.

(** C3, as the code has it.  Whenever the selection returns a list: for
    every threshold, a coin is a bullish candidate exactly when it is the
    coin of an entry whose 24h change is above the threshold, and a
    bearish one exactly when that change is below the opposite of the
    threshold; and when the threshold is not negative, a coin whose
    change equals the threshold or its opposite passes neither comparison
    and is no candidate. *)
Theorem threshold_is_exclusive (entries : list value) (threshold : Num.number)
  (candidates : list candidate) :
  allCandidates entries threshold = inr candidates ->
  (forall coin,
      In (coin, bullish) candidates
      <-> exists c,
            In c entries /\ coin = coin_of c
            /\ Js.gt (Coin.price_change_percentage_24h coin) threshold
               = inr true)
  /\ (forall coin,
         In (coin, bearish) candidates
         <-> exists c,
               In c entries /\ coin = coin_of c
               /\ Js.lt (Coin.price_change_percentage_24h coin)
                    (Num.neg threshold) = inr true)
  /\ (not_negative threshold ->
      forall coin x,
        Js.ToNumber (Coin.price_change_percentage_24h coin) = inr x ->
        Num.eqb x threshold = true \/ Num.eqb x (Num.neg threshold) = true ->
        Js.gt (Coin.price_change_percentage_24h coin) threshold = inr false
        /\ Js.lt (Coin.price_change_percentage_24h coin) (Num.neg threshold)
           = inr false
        /\ forall d, ~ In (coin, d) candidates).
Proof.
  intros H.
  split; [intros coin; apply In_bullish, H |].
  split; [intros coin; apply In_bearish, H |].
  intros Hpos coin x Hx Hat.
  assert (Hgt : Js.gt (Coin.price_change_percentage_24h coin) threshold
                = inr false).
  { apply gt_cases. exists x. split; [exact Hx |]. symmetry.
    destruct Hat as [E | E].
    - apply (eqb_not_ltb _ _ E).
    - apply at_opposite_not_above; assumption. }
  assert (Hlt : Js.lt (Coin.price_change_percentage_24h coin) (Num.neg threshold)
                = inr false).
  { apply lt_cases. exists x. split; [exact Hx |]. symmetry.
    destruct Hat as [E | E].
    - apply at_threshold_not_below; assumption.
    - apply (eqb_not_ltb _ _ E). }
  split; [exact Hgt |]. split; [exact Hlt |].
  intros [|] Hin.
  - apply (In_bullish _ _ _ _ H) in Hin. destruct Hin as (_ & _ & _ & T).
    congruence.
  - apply (In_bearish _ _ _ _ H) in Hin. destruct Hin as (_ & _ & _ & T).
    congruence.
Qed.

(** C10, as the code has it.  Whenever the selection returns a list: a
    coin whose 24h change is absent ([undefined]), or converts to NaN,
    passes neither comparison, whatever the threshold, and is no
    candidate; a coin whose change is [null] is compared as 0, and is no
    candidate when the threshold is not negative. *)
Theorem no_change_no_candidate (entries : list value) (threshold : Num.number)
  (candidates : list candidate) :
  allCandidates entries threshold = inr candidates ->
  forall coin,
    (Coin.price_change_percentage_24h coin = VUndefined
     \/ (exists x,
            Js.ToNumber (Coin.price_change_percentage_24h coin) = inr x
            /\ Num.isNaN x = true) ->
     Js.gt (Coin.price_change_percentage_24h coin) threshold = inr false
     /\ Js.lt (Coin.price_change_percentage_24h coin) (Num.neg threshold)
        = inr false
     /\ forall d, ~ In (coin, d) candidates)
    /\ (Coin.price_change_percentage_24h coin = VNull ->
        not_negative threshold ->
        Js.gt (Coin.price_change_percentage_24h coin) threshold = inr false
        /\ Js.lt (Coin.price_change_percentage_24h coin) (Num.neg threshold)
           = inr false
        /\ forall d, ~ In (coin, d) candidates).
Proof.
  intros H coin.
  assert (none : Js.gt (Coin.price_change_percentage_24h coin) threshold
                 = inr false ->
                 Js.lt (Coin.price_change_percentage_24h coin)
                   (Num.neg threshold) = inr false ->
                 forall d, ~ In (coin, d) candidates).
  { intros Hgt Hlt [|] Hin.
    - apply (In_bullish _ _ _ _ H) in Hin. destruct Hin as (_ & _ & _ & T).
      congruence.
    - apply (In_bearish _ _ _ _ H) in Hin. destruct Hin as (_ & _ & _ & T).
      congruence. }
  split.
  - intros Habs.
    assert (HN : exists x,
               Js.ToNumber (Coin.price_change_percentage_24h coin) = inr x
               /\ Num.isNaN x = true).
    { destruct Habs as [-> | Habs]; [exists Num.NaN; split; reflexivity | exact Habs]. }
    destruct HN as (x & Hx & HN).
    assert (Hgt : Js.gt (Coin.price_change_percentage_24h coin) threshold
                  = inr false).
    { apply gt_cases. exists x. split; [exact Hx |]. symmetry.
      apply ltb_NaN_r, HN. }
    assert (Hlt : Js.lt (Coin.price_change_percentage_24h coin)
                    (Num.neg threshold) = inr false).
    { apply lt_cases. exists x. split; [exact Hx |]. symmetry.
      apply ltb_NaN_l, HN. }
    split; [exact Hgt |]. split; [exact Hlt | exact (none Hgt Hlt)].
  - intros Hnull Hpos.
    assert (Hgt : Js.gt VNull threshold = inr false).
    { unfold Js.gt. cbn [Js.ToNumber]. f_equal.
      unfold not_negative in Hpos. unfold Num.ltb, SFltb in *.
      destruct threshold as [[] | [] | | [] m e]; try discriminate; reflexivity. }
    assert (Hlt : Js.lt VNull (Num.neg threshold) = inr false).
    { unfold Js.lt. cbn [Js.ToNumber]. f_equal.
      unfold not_negative in Hpos. unfold Num.ltb, SFltb, Num.neg in *.
      destruct threshold as [[] | [] | | [] m e]; try discriminate; reflexivity. }
    rewrite Hnull. split; [exact Hgt |]. split; [exact Hlt |].
    apply none; rewrite Hnull; assumption.
Qed.

(** C4, as the code has it.  The list the selection returns is the
    bullish candidates, in the order of the market list, followed by the
    bearish ones, in that order too; when the threshold is not negative
    no coin of the list comes twice. *)
Theorem candidates_in_order (entries : list value) (threshold : Num.number)
  (candidates : list candidate) :
  allCandidates entries threshold = inr candidates ->
  exists bulls bears,
    candidates
    = (map (fun c => (c, bullish)) bulls
       ++ map (fun c => (c, bearish)) bears)%list
    /\ subseq bulls (map coin_of entries)
    /\ subseq bears (map coin_of entries)
    /\ (forall coin,
           In coin bulls
           <-> exists c,
                 In c entries /\ coin = coin_of c
                 /\ Js.gt (Coin.price_change_percentage_24h coin) threshold
                    = inr true)
    /\ (forall coin,
           In coin bears
           <-> exists c,
                 In c entries /\ coin = coin_of c
                 /\ Js.lt (Coin.price_change_percentage_24h coin)
                      (Num.neg threshold) = inr true)
    /\ (not_negative threshold -> NoDup (map coin_of entries) ->
        NoDup (map fst candidates)).
Proof.
  intros H.
  destruct (allCandidates_filters _ _ _ H) as (bulls & bears & B & R & ->).
  exists bulls, bears.
  assert (Sb : subseq bulls (map coin_of entries)).
  { rewrite (filter_by_kept _ _ _ B). apply subseq_map, subseq_filter. }
  assert (Sr : subseq bears (map coin_of entries)).
  { rewrite (filter_by_kept _ _ _ R). apply subseq_map, subseq_filter. }
  split; [reflexivity |].
  split; [exact Sb |]. split; [exact Sr |].
  split; [intros coin; exact (filter_by_In _ _ _ coin B) |].
  split; [intros coin; exact (filter_by_In _ _ _ coin R) |].
  intros Hpos Hnd.
  rewrite map_app, !map_map. cbn [fst]. rewrite !map_id.
  apply NoDup_app.
  - exact (subseq_NoDup _ _ Sb Hnd).
  - exact (subseq_NoDup _ _ Sr Hnd).
  - intros coin Hb Hr.
    apply (filter_by_In _ _ _ coin B) in Hb.
    apply (filter_by_In _ _ _ coin R) in Hr.
    destruct Hb as (_ & _ & _ & Hb), Hr as (_ & _ & _ & Hr).
    apply gt_cases in Hb. apply lt_cases in Hr.
    destruct Hb as (x & Hx & Hb), Hr as (x' & Hx' & Hr).
    rewrite Hx in Hx'. injection Hx' as <-.
    rewrite (above_not_below _ _ Hpos (eq_sym Hb)) in Hr. discriminate.
Qed.

End Selection.

(** * Asynchronous functions: outcomes and requests *)

Section Settling.

Context {A B : Type}.
Variable net : request -> answer.

Lemma settle_bind (m : async A) (f : A -> async B) :
  settle net (bind m f)
  = match settle net m with
    | Fulfilled a => settle net (f a)
    | Rejected e => Rejected e
    end.
Proof.
  induction m as [a | e | rq k IH]; simpl; auto.
Qed.

Lemma requests_bind (m : async A) (f : A -> async B) :
  requests net (bind m f)
  = (requests net m
     ++ match settle net m with
        | Fulfilled a => requests net (f a)
        | Rejected _ => []
        end)%list.
Proof.
  induction m as [a | e | rq k IH]; simpl; auto.
  rewrite IH. reflexivity.
Qed.

Lemma settle_attempt (r : exn + A) :
  settle net (attempt r)
  = match r with inl e => Rejected e | inr a => Fulfilled a end.
Proof. destruct r; reflexivity. Qed.

Lemma requests_attempt (r : exn + A) : requests net (attempt r) = [].
Proof. destruct r; reflexivity. Qed.

End Settling.

Lemma settle_fetch (net : request -> answer) (rq : request) :
  settle net (fetch rq)
  = match net rq with inl e => Rejected e | inr rs => Fulfilled rs end.
Proof. simpl. destruct (net rq); reflexivity. Qed.

Lemma requests_fetch (net : request -> answer) (rq : request) :
  requests net (fetch rq) = [rq].
Proof. simpl. destruct (net rq); reflexivity. Qed.

(** * [callGemini] and [analyzeCandidate], stage by stage *)

(** * [callGemini] and [analyzeCandidate], stage by stage *)

Section Stages.

Variable JSON_parse : string -> exn + value.
Variable toUpperCase : string -> string.
Variable page : inputs.
Variables now1 now2 : Num.number.
Variable net : request -> answer.

Lemma callGemini_requests (prompt apiKey : string) :
  requests net (callGemini JSON_parse prompt apiKey)
  = [gemini_request prompt apiKey].
Proof.
  unfold callGemini. rewrite requests_bind, requests_fetch, settle_fetch.
  destruct (net _) as [e | rs]; [reflexivity|]. simpl.
  destruct (ok rs); simpl.
  - rewrite requests_bind, requests_attempt, settle_attempt.
    destruct (json rs); [reflexivity|].
    rewrite requests_bind, requests_attempt, settle_attempt.
    destruct (response_text v) as [e | t]; [reflexivity|].
    destruct (Js.truthy t); simpl; [| reflexivity].
    destruct t; try reflexivity.
    destruct (match_block s); [| reflexivity].
    destruct (JSON_parse s0); reflexivity.
  - rewrite requests_bind, requests_attempt, settle_attempt.
    destruct (text rs); reflexivity.
Qed.

(** The outcome of [callGemini] on an answer of the service. *)
Lemma callGemini_outcome (prompt apiKey : string) :
  settle net (callGemini JSON_parse prompt apiKey)
  = match net (gemini_request prompt apiKey) with
    | inl e => Rejected e
    | inr response =>
        if ok response then
          match json response with
          | inl e => Rejected e
          | inr data =>
              match response_text data with
              | inl e => Rejected e
              | inr text =>
                  if Js.truthy text then
                    match text with
                    | VStr text =>
                        match match_block text with
                        | None =>
                            Rejected (Error "Gemini response did not contain a valid JSON code block.")
                        | Some block =>
                            match JSON_parse block with
                            | inr analysis => Fulfilled analysis
                            | inl e =>
                                Rejected (Error ("Failed to parse JSON from Gemini: " ++ message e))
                            end
                        end
                    | _ => Rejected (TypeError "text.match is not a function")
                    end
                  else Rejected (Error "No response text from Gemini.")
              end
          end
        else
          match text response with
          | inl e => Rejected e
          | inr errorText =>
              Rejected (Error ("Gemini API error ("
                               ++ NumText.Number_toString (Num.of_Z (status response))
                               ++ "): " ++ errorText))
          end
    end.
Proof.
  unfold callGemini. rewrite settle_bind, settle_fetch.
  destruct (net _) as [e | rs]; [reflexivity|].
  destruct (ok rs); simpl.
  - rewrite settle_bind, settle_attempt.
    destruct (json rs); [reflexivity|].
    rewrite settle_bind, settle_attempt.
    destruct (response_text v) as [e | t]; [reflexivity|].
    destruct (Js.truthy t); simpl; [| reflexivity].
    destruct t; try reflexivity.
    destruct (match_block s); [| reflexivity].
    destruct (JSON_parse s0); reflexivity.
  - rewrite settle_bind, settle_attempt.
    destruct (text rs); reflexivity.
Qed.

Variable coin : Coin.t.
Variable d : direction.
Variable apiKey : string.

(** The outcome of [analyzeCandidate], stage by stage. *)
Lemma analyzeCandidate_outcome :
  settle net (analyzeCandidate JSON_parse toUpperCase page now1 now2 coin d apiKey)
  = match chartUrl now1 now2 coin with
    | inl e => Rejected e
    | inr url =>
        match net (GET url) with
        | inl e => Rejected e
        | inr chartRes =>
            if ok chartRes then
              match json chartRes with
              | inl e => Rejected e
              | inr chartData =>
                  match closes_of chartData with
                  | inl e => Rejected e
                  | inr closes =>
                      if (List.length closes <? 50)%nat then Fulfilled None
                      else
                        match prompt_for toUpperCase coin d closes with
                        | inl e => Rejected e
                        | inr prompt =>
                            match settle net (callGemini JSON_parse prompt apiKey) with
                            | Rejected e => Rejected e
                            | Fulfilled analysis =>
                                match plan toUpperCase page coin d analysis with
                                | inl e => Rejected e
                                | inr r => Fulfilled r
                                end
                            end
                        end
                  end
              end
            else Fulfilled None
        end
    end.
Proof.
  unfold analyzeCandidate. rewrite settle_bind, settle_attempt.
  destruct (chartUrl now1 now2 coin) as [e | url]; [reflexivity|].
  rewrite settle_bind, settle_fetch.
  destruct (net _) as [e | rs]; [reflexivity|].
  destruct (ok rs); cbn [negb]; [| reflexivity].
  rewrite settle_bind, settle_attempt.
  destruct (json rs) as [e | chartData]; [reflexivity|].
  rewrite settle_bind, settle_attempt.
  destruct (closes_of chartData) as [e | closes]; [reflexivity|].
  destruct (List.length closes <? 50)%nat; [reflexivity|].
  rewrite settle_bind, settle_attempt.
  destruct (prompt_for toUpperCase coin d closes) as [e | prompt]; [reflexivity|].
  rewrite settle_bind.
  destruct (settle net (callGemini JSON_parse prompt apiKey)); [| reflexivity].
  apply settle_attempt.
Qed.

(** The requests of [analyzeCandidate]: the price history, then, when it
    has 50 closes and the prompt is built, the reasoning service. *)
Lemma analyzeCandidate_requests :
  requests net (analyzeCandidate JSON_parse toUpperCase page now1 now2 coin d apiKey)
  = match chartUrl now1 now2 coin with
    | inl _ => []
    | inr url =>
        GET url
        :: match net (GET url) with
             | inl _ => []
             | inr chartRes =>
                 if ok chartRes then
                   match json chartRes with
                   | inl _ => []
                   | inr chartData =>
                       match closes_of chartData with
                       | inl _ => []
                       | inr closes =>
                           if (List.length closes <? 50)%nat then []
                           else
                             match prompt_for toUpperCase coin d closes with
                             | inl _ => []
                             | inr prompt => [gemini_request prompt apiKey]
                             end
                       end
                   end
                 else []
             end
    end.
Proof.
  unfold analyzeCandidate. rewrite requests_bind, requests_attempt, settle_attempt.
  cbn [app].
  destruct (chartUrl now1 now2 coin) as [e | url]; [reflexivity|].
  rewrite requests_bind, requests_fetch, settle_fetch.
  cbn [app]. f_equal.
  destruct (net _) as [e | rs]; [reflexivity|].
  destruct (ok rs); cbn [negb]; [| reflexivity].
  rewrite requests_bind, requests_attempt, settle_attempt.
  destruct (json rs) as [e | chartData]; [reflexivity|].
  rewrite requests_bind, requests_attempt, settle_attempt.
  destruct (closes_of chartData) as [e | closes]; [reflexivity|].
  destruct (List.length closes <? 50)%nat; [reflexivity|].
  rewrite requests_bind, requests_attempt, settle_attempt.
  destruct (prompt_for toUpperCase coin d closes) as [e | prompt]; [reflexivity|].
  rewrite requests_bind, callGemini_requests.
  destruct (settle net _); [rewrite requests_attempt|]; reflexivity.
Qed.

(** With a verdict, the outcome is what lines 266 to 291 make of it. *)
Lemma verdict_outcome (analysis : value) :
  verdict JSON_parse toUpperCase now1 now2 net coin d apiKey analysis ->
  settle net (analyzeCandidate JSON_parse toUpperCase page now1 now2 coin d apiKey)
  = match plan toUpperCase page coin d analysis with
    | inl e => Rejected e
    | inr r => Fulfilled r
    end.
Proof.
  intros (url & chartRes & chartData & closes & prompt & Hu & Hn & Hok & Hj & Hc
           & Hl & Hp & Hg).
  rewrite analyzeCandidate_outcome, Hu, Hn, Hok, Hj, Hc, Hp, Hg.
  apply Nat.ltb_ge in Hl. rewrite Hl. reflexivity.
Qed.

(** A trade plan comes from a verdict. *)
Lemma emitted_from_verdict (t : Trade.t) :
  settle net (analyzeCandidate JSON_parse toUpperCase page now1 now2 coin d apiKey)
  = Fulfilled (Some t) ->
  exists analysis,
    verdict JSON_parse toUpperCase now1 now2 net coin d apiKey analysis
    /\ plan toUpperCase page coin d analysis = inr (Some t).
Proof.
  rewrite analyzeCandidate_outcome.
  destruct (chartUrl now1 now2 coin) as [e | url] eqn:Hu; [discriminate|].
  destruct (net _) as [e | chartRes] eqn:Hn; [discriminate|].
  destruct (ok chartRes) eqn:Hok; [| discriminate].
  destruct (json chartRes) as [e | chartData] eqn:Hj; [discriminate|].
  destruct (closes_of chartData) as [e | closes] eqn:Hc; [discriminate|].
  destruct (List.length closes <? 50)%nat eqn:Hl; [discriminate|].
  destruct (prompt_for toUpperCase coin d closes) as [e | prompt] eqn:Hp; [discriminate|].
  destruct (settle net _) as [analysis | e] eqn:Hg; [| discriminate].
  destruct (plan toUpperCase page coin d analysis) as [e | r] eqn:Hplan; [discriminate|].
  intros H. inversion H; subst. exists analysis. split; [| exact Hplan].
  exists url, chartRes, chartData, closes, prompt.
  apply Nat.ltb_ge in Hl. auto 12.
Qed.

End Stages.


(** * Text *)

Section TextFacts.

Lemma append_assoc (a b c : string) : (a ++ b) ++ c = a ++ b ++ c.
Proof. induction a as [| ch a IH]; simpl; [reflexivity | now rewrite IH]. Qed.

Lemma length_append (a b : string) :
  String.length (a ++ b) = (String.length a + String.length b)%nat.
Proof. induction a as [| ch a IH]; simpl; [reflexivity | now rewrite IH]. Qed.

Lemma length_zeros (n : nat) : String.length (Str.zeros n) = n.
Proof. induction n as [| n IH]; simpl; [reflexivity | now rewrite IH]. Qed.

Lemma length_drop (n : nat) (s : string) :
  String.length (Str.drop n s) = (String.length s - n)%nat.
Proof.
  revert s. induction n as [| n IH]; intros [| ch s]; simpl; auto.
Qed.

(** [fixed] writes as many digits after the point as it is asked to. *)
Lemma fixed_decimals (n : Z) (f : nat) : decimals (S f) (NumText.fixed n (S f)).
Proof.
  unfold decimals, NumText.fixed.
  set (m := (Str.zeros (S (S f) - String.length (Str.digits n)) ++ Str.digits n)).
  exists (Str.take (String.length m - S f) m),
         (Str.drop (String.length m - S f) m).
  split; [reflexivity|].
  rewrite length_drop.
  assert (S (S f) <= String.length m)%nat.
  { unfold m. rewrite length_append, length_zeros. lia. }
  lia.
Qed.

(** So does [toFixed], on the Numbers it does not hand to [toString]. *)
Lemma toFixed_decimals (x : Num.number) (f : nat) :
  below_1e21 x = true -> decimals (S f) (NumText.toFixed x (S f)).
Proof.
  destruct x as [s | s | | s m e]; try discriminate; intros H.
  - apply fixed_decimals.
  - unfold NumText.toFixed. unfold below_1e21 in H.
    destruct (Num.fraction m e) as [a b].
    destruct (10 ^ 21 * b <=? a); [discriminate|].
    destruct (fixed_decimals ((2 * a * 10 ^ Z.of_nat (S f) + b) / (2 * b)) f)
      as (whole & frac & E & L).
    exists ((if s then "-" else "") ++ whole), frac.
    rewrite E, append_assoc. auto.
Qed.

Lemma fraction_pos (m : positive) (e a b : Z) :
  Num.fraction m e = (a, b) -> 0 < a /\ 0 < b.
Proof.
  unfold Num.fraction. destruct (0 <=? e) eqn:E; intros H.
  - apply Z.leb_le in E.
    assert (P : 0 < 2 ^ e) by (apply Z.pow_pos_nonneg; lia).
    assert (a = Z.pos m * 2 ^ e /\ b = 1) as [-> ->] by (split; congruence).
    split; [apply Z.mul_pos_pos; lia | lia].
  - apply Z.leb_gt in E.
    assert (P : 0 < 2 ^ (- e)) by (apply Z.pow_pos_nonneg; lia).
    assert (a = Z.pos m /\ b = 2 ^ (- e)) as [-> ->] by (split; congruence).
    split; [lia | exact P].
Qed.

(** The digits [toFixed] writes for a finite [a/b] below [10^21] are those
    of the integer [n] nearest to [a/b * 10^f], the larger of two:
    [n - 1/2 <= a/b * 10^f < n + 1/2]. *)
Lemma toFixed_nearest (s : bool) (m : positive) (e a b : Z) (f : nat) :
  Num.fraction m e = (a, b) ->
  a < 10 ^ 21 * b ->
  exists n,
    NumText.toFixed (S754_finite s m e) f
    = (if s then "-" else "") ++ NumText.fixed n f
    /\ (2 * n - 1) * b <= 2 * a * 10 ^ Z.of_nat f < (2 * n + 1) * b.
Proof.
  intros F H. destruct (fraction_pos _ _ _ _ F) as [Ha Hb].
  unfold NumText.toFixed. rewrite F.
  destruct (10 ^ 21 * b <=? a) eqn:L; [apply Z.leb_le in L; lia|].
  exists ((2 * a * 10 ^ Z.of_nat f + b) / (2 * b)). split; [reflexivity|].
  set (x := 2 * a * 10 ^ Z.of_nat f + b).
  assert (D := Z.div_mod x (2 * b) ltac:(lia)).
  assert (M := Z.mod_pos_bound x (2 * b) ltac:(lia)).
  nia.
Qed.

End TextFacts.

(** * Lines 266 to 291: the verdict *)

Section Verdicts.

Variable toUpperCase : string -> string.
Variable page : inputs.
Variable coin : Coin.t.
Variable d : direction.

Lemma truthy_and3 (a b c : value) :
  Js.truthy (Js.and_ (Js.and_ a b) c)
  = Js.truthy a && Js.truthy b && Js.truthy c.
Proof.
  unfold Js.and_.
  destruct (Js.truthy a) eqn:Ha; simpl.
  - destruct (Js.truthy b) eqn:Hb; simpl; [reflexivity | exact Hb].
  - rewrite Ha. simpl. exact Ha.
Qed.

(** What tests false has a string, and does not parse to a number other
    than zero. *)
Lemma falsy_parse (v : value) :
  Js.truthy v = false ->
  exists x,
    Js.parseFloat v = inr x
    /\ Num.isNaN x || Num.eqb x (Num.of_Z 0) = true.
Proof.
  destruct v as [ | | b | x | s | items | fields ]; unfold Js.truthy; intros H.
  - eexists. split; vm_compute; reflexivity.
  - eexists. split; vm_compute; reflexivity.
  - destruct b; [discriminate | eexists; split; vm_compute; reflexivity].
  - destruct x as [sg | sg | | sg m e];
      cbn [negb orb Num.is_zero Num.isNaN] in H; try discriminate.
    + destruct sg; eexists; split; vm_compute; reflexivity.
    + eexists. split; vm_compute; reflexivity.
  - destruct s; [eexists; split; vm_compute; reflexivity | discriminate].
  - discriminate.
  - discriminate.
Qed.

(** The four properties of a verdict are read or none is. *)
Lemma fields_of (analysis : value) (k : string) (v : value) :
  Js.field analysis k = inr v ->
  forall k', exists v', Js.field analysis k' = inr v'.
Proof.
  destruct analysis; simpl; try discriminate; intros _ k'; eauto.
Qed.

(** Lines 266 to 291 on a verdict whose properties read as [isValid],
    [a_entry], [a_stopLoss] and [rationale]. *)
Lemma plan_cases (analysis isValid a_entry a_stopLoss rationale : value) :
  Js.field analysis "isValid" = inr isValid ->
  Js.field analysis "entry" = inr a_entry ->
  Js.field analysis "stopLoss" = inr a_stopLoss ->
  Js.field analysis "rationale" = inr rationale ->
  plan toUpperCase page coin d analysis
  = if Js.truthy isValid && Js.truthy a_entry && Js.truthy a_stopLoss then
      match Js.parseFloat a_entry with
      | inl e => inl e
      | inr entry =>
          match Js.parseFloat a_stopLoss with
          | inl e => inl e
          | inr sl =>
              if Num.isNaN entry || Num.isNaN sl
                 || Num.eqb entry (Num.of_Z 0) || Num.eqb sl (Num.of_Z 0)
              then inr None
              else
                match call_toUpperCase toUpperCase (Coin.symbol coin) with
                | inl e => inl e
                | inr symbol =>
                    inr (Some (tradePlan coin symbol d
                                 (TextNum.parseFloat_string (riskAmount page))
                                 (TextNum.parseFloat_string (rrRatio page))
                                 entry sl rationale))
                end
          end
      end
    else inr None.
Proof.
  intros Hv He Hs Hr. unfold plan. rewrite Hv, He, Hs, Hr, truthy_and3.
  reflexivity.
Qed.

(** A trade plan comes from a verdict judged valid whose entry and stop
    loss parse to numbers other than zero. *)
Lemma plan_emitted (analysis : value) (t : Trade.t) :
  plan toUpperCase page coin d analysis = inr (Some t) ->
  exists isValid a_entry a_stopLoss rationale symbol entry sl,
    Js.field analysis "isValid" = inr isValid
    /\ Js.field analysis "entry" = inr a_entry
    /\ Js.field analysis "stopLoss" = inr a_stopLoss
    /\ Js.field analysis "rationale" = inr rationale
    /\ call_toUpperCase toUpperCase (Coin.symbol coin) = inr symbol
    /\ Js.parseFloat a_entry = inr entry
    /\ Js.parseFloat a_stopLoss = inr sl
    /\ Js.truthy isValid = true
    /\ Num.isNaN entry = false
    /\ Num.isNaN sl = false
    /\ Num.eqb entry (Num.of_Z 0) = false
    /\ Num.eqb sl (Num.of_Z 0) = false
    /\ t = tradePlan coin symbol d
             (TextNum.parseFloat_string (riskAmount page))
             (TextNum.parseFloat_string (rrRatio page))
             entry sl rationale.
Proof.
  intros H.
  destruct (Js.field analysis "isValid") as [e | isValid] eqn:Hv.
  { unfold plan in H. rewrite Hv in H. discriminate. }
  destruct (fields_of _ _ _ Hv "entry") as [a_entry He].
  destruct (fields_of _ _ _ Hv "stopLoss") as [a_stopLoss Hs].
  destruct (fields_of _ _ _ Hv "rationale") as [rationale Hr].
  rewrite (plan_cases _ _ _ _ _ Hv He Hs Hr) in H.
  destruct (Js.truthy isValid) eqn:Tv; [| discriminate].
  destruct (Js.truthy a_entry); [| discriminate].
  destruct (Js.truthy a_stopLoss); [| discriminate].
  cbn [andb] in H.
  destruct (Js.parseFloat a_entry) as [e | entry] eqn:Pe; [discriminate |].
  destruct (Js.parseFloat a_stopLoss) as [e | sl] eqn:Ps; [discriminate |].
  destruct (Num.isNaN entry) eqn:N1; [discriminate|].
  destruct (Num.isNaN sl) eqn:N2; [discriminate|].
  destruct (Num.eqb entry (Num.of_Z 0)) eqn:Z1; [discriminate|].
  destruct (Num.eqb sl (Num.of_Z 0)) eqn:Z2; [discriminate|].
  cbn [orb] in H.
  destruct (call_toUpperCase toUpperCase (Coin.symbol coin)) as [e | symbol] eqn:Hu;
    [discriminate|].
  inversion H; subst.
  exists isValid, a_entry, a_stopLoss, rationale, symbol, entry, sl. auto 15.
Qed.

Lemma prompt_symbol (closes : list value) (prompt : string) :
  prompt_for toUpperCase coin d closes = inr prompt ->
  exists symbol, call_toUpperCase toUpperCase (Coin.symbol coin) = inr symbol.
Proof.
  unfold prompt_for.
  destruct (call_toUpperCase toUpperCase (Coin.symbol coin)) as [e | symbol];
    [discriminate | eauto].
Qed.

End Verdicts.

(** * The concrete runs, computed *)

Section Runs.

Import Scenario.

(** The reasoning service of the scenarios returns what the parser reads. *)
Lemma scenario_callGemini (k : nat) (v : value) (prompt apiKey : string) :
  settle (answering k) (callGemini (reads v) prompt apiKey) = Fulfilled v.
Proof. rewrite callGemini_outcome. vm_compute. reflexivity. Qed.

(** With 50 points of history, the analysis of a coin of the scenarios
    gets the verdict the parser reads. *)
Lemma scenario_verdict (sym : string) (change : Num.number) (d : direction)
  (v : value) :
  verdict (reads v) upper clock clock (answering 50)
    (coin_of_change sym (VNum change)) d "key" v.
Proof.
  exists (history (coin_of_change sym (VNum change))),
         (respond (chart 50)), (chart 50), (closes 50),
         (prompt (coin_of_change sym (VNum change)) d 50).
  split; [reflexivity|].
  split; [reflexivity|]. split; [reflexivity|]. split; [reflexivity|].
  split; [vm_compute; reflexivity|]. split; [vm_compute; lia|].
  split; [| apply scenario_callGemini].
  unfold prompt, prompt_for. cbn [call_toUpperCase coin_of_change Coin.symbol
    Coin.current_price Coin.price_change_percentage_24h call_toFixed num].
  destruct (Js.Array_join ", " (slice_last 100 (closes 50))) eqn:E;
    [vm_compute in E; discriminate | reflexivity].
Qed.

End Runs.

(** * The verdict and the trade plan *)

Section Plans.

Variable JSON_parse : string -> exn + value.
Variable toUpperCase : string -> string.
Variable page : inputs.
Variables now1 now2 : Num.number.
Variable net : request -> answer.
Variable coin : Coin.t.
Variable d : direction.
Variable apiKey : string.


(** What line 270 lets through passed the tests of line 266. *)
Lemma usable_truthy (v : value) (x : Num.number) :
  Js.parseFloat v = inr x -> usable x = true -> Js.truthy v = true.
Proof.
  unfold usable. intros P H. apply negb_true_iff in H.
  destruct (Js.truthy v) eqn:T; [reflexivity |].
  destruct (falsy_parse v T) as (x' & P' & U).
  rewrite P in P'. injection P' as <-. rewrite U in H. discriminate.
Qed.

Lemma usable_checks (entry sl : Num.number) :
  Num.isNaN entry || Num.isNaN sl
  || Num.eqb entry (Num.of_Z 0) || Num.eqb sl (Num.of_Z 0)
  = negb (usable entry && usable sl).
Proof.
  unfold usable.
  destruct (Num.isNaN entry), (Num.isNaN sl), (Num.eqb entry (Num.of_Z 0)),
    (Num.eqb sl (Num.of_Z 0)); reflexivity.
Qed.

(** The symbol of a coin with a verdict is a string. *)
Lemma verdict_symbol (analysis : value) :
  verdict JSON_parse toUpperCase now1 now2 net coin d apiKey analysis ->
  exists symbol, call_toUpperCase toUpperCase (Coin.symbol coin) = inr symbol.
Proof.
  intros (url & chartRes & chartData & closes & prompt & _ & _ & _ & _ & _ & _
          & Hp & _).
  exact (prompt_symbol _ _ _ _ _ Hp).
Qed.

(** Lines 266 to 291 on the verdict of an analysis. *)
Lemma outcome_of_verdict (analysis isValid a_entry a_stopLoss rationale : value) :
  verdict JSON_parse toUpperCase now1 now2 net coin d apiKey analysis ->
  Js.field analysis "isValid" = inr isValid ->
  Js.field analysis "entry" = inr a_entry ->
  Js.field analysis "stopLoss" = inr a_stopLoss ->
  Js.field analysis "rationale" = inr rationale ->
  exists symbol,
    call_toUpperCase toUpperCase (Coin.symbol coin) = inr symbol
    /\ settle net
         (analyzeCandidate JSON_parse toUpperCase page now1 now2 coin d apiKey)
       = if Js.truthy isValid && Js.truthy a_entry && Js.truthy a_stopLoss then
           match Js.parseFloat a_entry with
           | inl e => Rejected e
           | inr entry =>
               match Js.parseFloat a_stopLoss with
               | inl e => Rejected e
               | inr sl =>
                   Fulfilled
                     (if usable entry && usable sl then
                        Some (tradePlan coin symbol d
                                (TextNum.parseFloat_string (riskAmount page))
                                (TextNum.parseFloat_string (rrRatio page))
                                entry sl rationale)
                      else None)
               end
           end
         else Fulfilled None.
Proof.
  intros Hv Hi He Hs Hr.
  destruct (verdict_symbol _ Hv) as [symbol Hsym].
  exists symbol. split; [exact Hsym |].
  rewrite (verdict_outcome _ _ _ _ _ _ _ _ _ _ Hv).
  rewrite (plan_cases _ _ _ _ _ _ _ _ _ Hi He Hs Hr), Hsym.
  destruct (Js.truthy isValid && Js.truthy a_entry && Js.truthy a_stopLoss);
    [| reflexivity].
  destruct (Js.parseFloat a_entry) as [e | entry]; [reflexivity |].
  destruct (Js.parseFloat a_stopLoss) as [e | sl]; [reflexivity |].
  rewrite usable_checks.
  destruct (usable entry && usable sl); reflexivity.
Qed.


(** C9, as the code has it.  The entry and the stop loss of a trade plan
    are the Numbers the verdict's entry and stop loss parse to, neither
    of them NaN or zero, written by [toFixed(5)]; its take profit and its
    lot size are the Numbers of lines 273 to 277, computed from these two
    and from the settings, written by [toFixed(5)] and [toFixed(4)]: with
    5 and 4 decimals whenever the Number is finite and below 10^21.  No
    field is required to be positive. *)
Theorem emitted_fields (t : Trade.t) :
  settle net
    (analyzeCandidate JSON_parse toUpperCase page now1 now2 coin d apiKey)
  = Fulfilled (Some t) ->
  exists (analysis a_entry a_stopLoss : value) (entry sl tp lot : Num.number),
    verdict JSON_parse toUpperCase now1 now2 net coin d apiKey analysis
    /\ Js.field analysis "entry" = inr a_entry
    /\ Js.field analysis "stopLoss" = inr a_stopLoss
    /\ Js.parseFloat a_entry = inr entry
    /\ Js.parseFloat a_stopLoss = inr sl
    /\ Num.isNaN entry = false /\ Num.eqb entry (Num.of_Z 0) = false
    /\ Num.isNaN sl = false /\ Num.eqb sl (Num.of_Z 0) = false
    /\ tp = match d with
            | bullish =>
                Num.add entry
                  (Num.mul (Num.abs (Num.sub entry sl))
                     (TextNum.parseFloat_string (rrRatio page)))
            | bearish =>
                Num.sub entry
                  (Num.mul (Num.abs (Num.sub entry sl))
                     (TextNum.parseFloat_string (rrRatio page)))
            end
    /\ lot = Num.div
               (Num.div (TextNum.parseFloat_string (riskAmount page))
                  (Num.div (Num.abs (Num.sub entry sl)) entry))
               entry
    /\ Trade.entry t = NumText.toFixed entry 5
    /\ Trade.sl t = NumText.toFixed sl 5
    /\ Trade.tp t = NumText.toFixed tp 5
    /\ Trade.lotSize t = NumText.toFixed lot 4
    /\ (below_1e21 entry = true -> decimals 5 (Trade.entry t))
    /\ (below_1e21 sl = true -> decimals 5 (Trade.sl t))
    /\ (below_1e21 tp = true -> decimals 5 (Trade.tp t))
    /\ (below_1e21 lot = true -> decimals 4 (Trade.lotSize t)).
Proof.
  intros H. apply emitted_from_verdict in H. destruct H as (analysis & V & H).
  apply plan_emitted in H.
  destruct H as (isValid & a_entry & a_stopLoss & rationale & symbol & entry & sl
                 & _ & He & Hs & _ & _ & Pe & Ps & _ & N1 & N2 & Z1 & Z2 & ->).
  unfold tradePlan.
  cbn [Trade.entry Trade.sl Trade.tp Trade.lotSize].
  exists analysis, a_entry, a_stopLoss, entry, sl.
  do 2 eexists.
  repeat (split; [first [reflexivity | eassumption
                         | intros; apply toFixed_decimals; assumption]|]).
  intros; apply toFixed_decimals; assumption.
Qed.

(** X8.  Lines 266 to 291 in full, for a verdict at hand.  When the entry
    and the stop loss both parse, [analyzeCandidate] returns a trade plan
    exactly when [isValid] is truthy and both Numbers are neither NaN nor
    zero, the plan being the one of lines 273 to 289, and [null]
    otherwise: the tests of line 266 on the entry and the stop loss then
    add nothing to those of line 270.  When the three tests of line 266
    pass and the entry, or else the stop loss, has no string to parse,
    [analyzeCandidate] throws what [parseFloat] throws. *)
Theorem verdict_decides (analysis isValid a_entry a_stopLoss rationale : value) :
  verdict JSON_parse toUpperCase now1 now2 net coin d apiKey analysis ->
  Js.field analysis "isValid" = inr isValid ->
  Js.field analysis "entry" = inr a_entry ->
  Js.field analysis "stopLoss" = inr a_stopLoss ->
  Js.field analysis "rationale" = inr rationale ->
  exists symbol,
    call_toUpperCase toUpperCase (Coin.symbol coin) = inr symbol
    /\ (forall entry sl,
           Js.parseFloat a_entry = inr entry ->
           Js.parseFloat a_stopLoss = inr sl ->
           settle net
             (analyzeCandidate JSON_parse toUpperCase page now1 now2 coin d
                apiKey)
           = Fulfilled
               (if Js.truthy isValid && usable entry && usable sl
                then Some (tradePlan coin symbol d
                             (TextNum.parseFloat_string (riskAmount page))
                             (TextNum.parseFloat_string (rrRatio page))
                             entry sl rationale)
                else None))
    /\ (Js.truthy isValid && Js.truthy a_entry && Js.truthy a_stopLoss = true ->
        (forall e,
            Js.parseFloat a_entry = inl e ->
            settle net
              (analyzeCandidate JSON_parse toUpperCase page now1 now2 coin d
                 apiKey)
            = Rejected e)
        /\ (forall entry e,
               Js.parseFloat a_entry = inr entry ->
               Js.parseFloat a_stopLoss = inl e ->
               settle net
                 (analyzeCandidate JSON_parse toUpperCase page now1 now2 coin d
                    apiKey)
               = Rejected e)).
Proof.
  intros Hv Hi He Hs Hr.
  destruct (outcome_of_verdict _ _ _ _ _ Hv Hi He Hs Hr) as (symbol & Hsym & ->).
  exists symbol. split; [exact Hsym |]. split.
  - intros entry sl Pe Ps. rewrite Pe, Ps.
    pose proof (usable_truthy _ _ Pe) as Te.
    pose proof (usable_truthy _ _ Ps) as Ts.
    destruct (Js.truthy isValid); cbn [andb]; [| reflexivity].
    destruct (usable entry).
    + rewrite (Te eq_refl). cbn [andb].
      destruct (usable sl); [rewrite (Ts eq_refl); reflexivity |].
      destruct (Js.truthy a_stopLoss); reflexivity.
    + cbn [andb]. destruct (Js.truthy a_entry && Js.truthy a_stopLoss);
        reflexivity.
  - intros ->. split.
    + intros e ->. reflexivity.
    + intros entry e -> ->. reflexivity.
Qed.

Lemma isNaN_is (x : Num.number) : Num.isNaN x = true -> x = Num.NaN.
Proof. destruct x; intros H; try discriminate; reflexivity. Qed.

Lemma div_NaN_l (y : Num.number) : Num.div Num.NaN y = Num.NaN.
Proof. reflexivity. Qed.

Lemma mul_NaN_r (x : Num.number) : Num.mul x Num.NaN = Num.NaN.
Proof. destruct x; reflexivity. Qed.

Lemma add_NaN_r (x : Num.number) : Num.add x Num.NaN = Num.NaN.
Proof. destruct x; reflexivity. Qed.

Lemma sub_NaN_r (x : Num.number) : Num.sub x Num.NaN = Num.NaN.
Proof. destruct x; reflexivity. Qed.

Lemma toFixed_NaN (f : nat) : NumText.toFixed Num.NaN f = "NaN".
Proof. reflexivity. Qed.

(** X9.  The settings are read with [parseFloat] and not checked: with a
    risk amount that does not parse (an emptied field), every trade plan
    has the lot size [NaN], and with a ratio that does not parse, the
    take profit [NaN] and the ratio NaN. *)
Theorem unparsed_settings (t : Trade.t) :
  settle net
    (analyzeCandidate JSON_parse toUpperCase page now1 now2 coin d apiKey)
  = Fulfilled (Some t) ->
  (Num.isNaN (TextNum.parseFloat_string (riskAmount page)) = true ->
   Trade.lotSize t = "NaN")
  /\ (Num.isNaN (TextNum.parseFloat_string (rrRatio page)) = true ->
      Trade.tp t = "NaN" /\ Num.isNaN (Trade.rr t) = true).
Proof.
  intros H.
  destruct (emitted_from_verdict _ _ _ _ _ _ _ _ _ _ H) as (analysis & _ & Hp).
  destruct (plan_emitted _ _ _ _ _ _ Hp)
    as (isValid & a_entry & a_stopLoss & rationale & symbol & entry & sl
        & _ & _ & _ & _ & _ & _ & _ & _ & _ & _ & _ & _ & ->).
  unfold tradePlan. cbn [Trade.lotSize Trade.tp Trade.rr].
  split; intros HN; apply isNaN_is in HN; rewrite HN.
  - rewrite !div_NaN_l. apply toFixed_NaN.
  - rewrite mul_NaN_r. split; [| reflexivity].
    destruct d; [rewrite add_NaN_r | rewrite sub_NaN_r]; apply toFixed_NaN.
Qed.

Lemma sub_self (s : bool) (m : positive) (e : Z) :
  Num.sub (S754_finite s m e) (S754_finite s m e) = S754_zero false.
Proof. unfold Num.sub, SFsub. rewrite Z.sub_diag. reflexivity. Qed.

(** X10.  A stop loss at the entry: the distance is zero, the risked
    fraction is zero, and the division of line 276 leaves no number.
    When a verdict judged valid has an entry and a stop loss that parse
    to the same finite Number, not zero, a trade plan is returned whose
    lot size reads [Infinity], [-Infinity] or [NaN], and whose take
    profit is the entry, or [NaN]. *)
Theorem zero_distance_lot (analysis isValid a_entry a_stopLoss : value)
  (s : bool) (m : positive) (e : Z) :
  verdict JSON_parse toUpperCase now1 now2 net coin d apiKey analysis ->
  Js.field analysis "isValid" = inr isValid ->
  Js.field analysis "entry" = inr a_entry ->
  Js.field analysis "stopLoss" = inr a_stopLoss ->
  Js.truthy isValid = true ->
  Js.parseFloat a_entry = inr (S754_finite s m e) ->
  Js.parseFloat a_stopLoss = inr (S754_finite s m e) ->
  exists t,
    settle net
      (analyzeCandidate JSON_parse toUpperCase page now1 now2 coin d apiKey)
    = Fulfilled (Some t)
    /\ (Trade.lotSize t = "Infinity" \/ Trade.lotSize t = "-Infinity"
        \/ Trade.lotSize t = "NaN")
    /\ (Trade.tp t = Trade.entry t \/ Trade.tp t = "NaN").
Proof.
  intros Hv Hi He Hs Ht Pe Ps.
  destruct (fields_of _ _ _ He "rationale") as [rationale Hr].
  assert (U : usable (S754_finite s m e) = true) by (destruct s; reflexivity).
  destruct (outcome_of_verdict _ _ _ _ _ Hv Hi He Hs Hr) as (symbol & _ & ->).
  rewrite Ht, (usable_truthy _ _ Pe U), (usable_truthy _ _ Ps U), Pe, Ps, U.
  cbn [andb].
  eexists. split; [reflexivity |].
  unfold tradePlan. cbn [Trade.lotSize Trade.tp Trade.entry].
  rewrite sub_self.
  change (Num.abs (S754_zero false)) with (S754_zero false).
  change (Num.div (S754_zero false) (S754_finite s m e))
    with (S754_zero (xorb false s)).
  split.
  - destruct (TextNum.parseFloat_string (riskAmount page)) as [z | i | | rs rm re].
    + right. right. reflexivity.
    + destruct i, s; (left; reflexivity) || (right; left; reflexivity).
    + right. right. reflexivity.
    + destruct rs, s; (left; reflexivity) || (right; left; reflexivity).
  - destruct (TextNum.parseFloat_string (rrRatio page)) as [z | i | | rs rm re].
    + left. destruct d; reflexivity.
    + right. destruct d; reflexivity.
    + right. destruct d; reflexivity.
    + left. destruct d; reflexivity.
Qed.

End Plans.

(** * Concrete runs of the claims *)

Section Instances.

Import Scenario Cases.

(** C3: a threshold of 3, and an entry that moved by exactly 3. *)
Lemma threshold_is_exclusive_witness :
  allCandidates (map entry_of [x; edge; y]) (Num.of_Z 3)
  = inr [(x, bullish); (y, bearish)]
  /\ not_negative (Num.of_Z 3)
  /\ Js.ToNumber (Coin.price_change_percentage_24h edge) = inr (Num.of_Z 3)
  /\ Js.gt (Coin.price_change_percentage_24h edge) (Num.of_Z 3) = inr false
  /\ Js.lt (Coin.price_change_percentage_24h edge) (Num.neg (Num.of_Z 3))
     = inr false
  /\ (forall d, ~ In (edge, d) [(x, bullish); (y, bearish)]).
Proof.
  assert (H : allCandidates (map entry_of [x; edge; y]) (Num.of_Z 3)
              = inr [(x, bullish); (y, bearish)]) by (vm_compute; reflexivity).
  assert (P : not_negative (Num.of_Z 3)) by reflexivity.
  assert (E : Js.ToNumber (Coin.price_change_percentage_24h edge)
              = inr (Num.of_Z 3)) by reflexivity.
  destruct (threshold_is_exclusive _ _ _ H) as (_ & _ & B).
  split; [exact H |]. split; [exact P |]. split; [exact E |].
  exact (B P edge (Num.of_Z 3) E (or_introl eq_refl)).
Defined.

(** C3 fails below zero: with the threshold -3 typed in, an entry that
    moved by 3, the opposite of the threshold, is a bullish candidate. *)
Lemma negative_threshold_admits_boundary :
  TextNum.parseFloat_string (momentumThreshold negative) = Num.of_Z (-3)
  /\ Js.ToNumber (Coin.price_change_percentage_24h edge)
     = inr (Num.neg (Num.of_Z (-3)))
  /\ allCandidates [entry_of edge] (Num.of_Z (-3)) = inr [(edge, bullish)].
Proof. repeat split; vm_compute; reflexivity. Qed.

(** C10: an entry without a 24h change, at the threshold 3. *)
Lemma no_change_no_candidate_witness :
  allCandidates [entry_of x; unlisted; entry_of y] (Num.of_Z 3)
  = inr [(x, bullish); (y, bearish)]
  /\ coin_of unlisted = quiet
  /\ Coin.price_change_percentage_24h quiet = VUndefined
  /\ Js.gt (Coin.price_change_percentage_24h quiet) (Num.of_Z 3) = inr false
  /\ Js.lt (Coin.price_change_percentage_24h quiet) (Num.neg (Num.of_Z 3))
     = inr false
  /\ (forall d, ~ In (quiet, d) [(x, bullish); (y, bearish)]).
Proof.
  assert (H : allCandidates [entry_of x; unlisted; entry_of y] (Num.of_Z 3)
              = inr [(x, bullish); (y, bearish)]) by (vm_compute; reflexivity).
  assert (E : Coin.price_change_percentage_24h quiet = VUndefined) by reflexivity.
  split; [exact H |]. split; [reflexivity |]. split; [exact E |].
  exact (proj1 (no_change_no_candidate _ _ _ H quiet) (or_introl E)).
Defined.

(** C10 fails on [null], what the market list has for a change that is
    not known: at the threshold -3, a coin whose change is [null] is
    compared as 0 and is a candidate, twice. *)
Lemma null_change_is_compared_as_zero :
  TextNum.parseFloat_string (momentumThreshold negative) = Num.of_Z (-3)
  /\ Coin.price_change_percentage_24h idle = VNull
  /\ Js.gt VNull (Num.of_Z (-3)) = inr true
  /\ Js.lt VNull (Num.neg (Num.of_Z (-3))) = inr true
  /\ allCandidates [entry_of idle] (Num.of_Z (-3))
     = inr [(idle, bullish); (idle, bearish)].
Proof. repeat split; vm_compute; reflexivity. Qed.

(** C4: three entries at the threshold 3. *)
Lemma candidates_in_order_witness :
  allCandidates (map entry_of [y; edge; x]) (Num.of_Z 3)
  = inr [(x, bullish); (y, bearish)]
  /\ not_negative (Num.of_Z 3)
  /\ NoDup (map coin_of (map entry_of [y; edge; x]))
  /\ NoDup (map fst [(x, bullish); (y, bearish)]).
Proof.
  assert (H : allCandidates (map entry_of [y; edge; x]) (Num.of_Z 3)
              = inr [(x, bullish); (y, bearish)]) by (vm_compute; reflexivity).
  assert (P : not_negative (Num.of_Z 3)) by reflexivity.
  assert (D : NoDup (map coin_of (map entry_of [y; edge; x]))).
  { change (NoDup [y; edge; x]).
    repeat constructor; simpl; intuition discriminate. }
  destruct (candidates_in_order _ _ _ H)
    as (bulls & bears & _ & _ & _ & _ & _ & N).
  split; [exact H |]. split; [exact P |]. split; [exact D | exact (N P D)].
Defined.

(** C4 fails below zero: at the threshold -3, an entry that did not move
    is above the threshold and below its opposite, and comes twice. *)
Lemma negative_threshold_repeats_entry :
  NoDup (map coin_of [entry_of flat])
  /\ allCandidates [entry_of flat] (Num.of_Z (-3))
     = inr [(flat, bullish); (flat, bearish)]
  /\ map fst [(flat, bullish); (flat, bearish)] = [flat; flat].
Proof.
  split; [repeat constructor; simpl; tauto|].
  split; vm_compute; reflexivity.
Qed.



(** C1.  The code at a verdict judged valid with entry and stop loss both
    at 100: it is not skipped.  [analyzeCandidate] returns a trade plan
    with its stop loss at its entry, and a lot size that is no number of
    units. *)
Lemma equal_entry_and_stop_is_not_skipped :
  exists t,
    settle (answering 50)
      (analyzeCandidate (reads (valid (num 100) (num 100))) upper defaults clock
         clock x bullish "key")
    = Fulfilled (Some t)
    /\ Trade.entry t = "100.00000"
    /\ Trade.sl t = "100.00000"
    /\ Trade.tp t = "100.00000"
    /\ Trade.lotSize t = "Infinity".
Proof. evaluate_run. Qed.

(** C9: the run of scenario A. *)
Lemma emitted_fields_witness :
  settle (answering 50)
    (analyzeCandidate (reads (valid (num 100) (num 95))) upper defaults clock
       clock x bullish "key")
  = Fulfilled (Some planA)
  /\ exists (analysis a_entry a_stopLoss : value) (entry sl tp lot : Num.number),
       verdict (reads (valid (num 100) (num 95))) upper clock clock
         (answering 50) x bullish "key" analysis
       /\ Js.field analysis "entry" = inr a_entry
       /\ Js.field analysis "stopLoss" = inr a_stopLoss
       /\ Js.parseFloat a_entry = inr entry
       /\ Js.parseFloat a_stopLoss = inr sl
       /\ Num.isNaN entry = false /\ Num.eqb entry (Num.of_Z 0) = false
       /\ Num.isNaN sl = false /\ Num.eqb sl (Num.of_Z 0) = false
       /\ tp = Num.add entry
                 (Num.mul (Num.abs (Num.sub entry sl))
                    (TextNum.parseFloat_string (rrRatio defaults)))
       /\ lot = Num.div
                  (Num.div (TextNum.parseFloat_string (riskAmount defaults))
                     (Num.div (Num.abs (Num.sub entry sl)) entry))
                  entry
       /\ Trade.entry planA = NumText.toFixed entry 5
       /\ Trade.sl planA = NumText.toFixed sl 5
       /\ Trade.tp planA = NumText.toFixed tp 5
       /\ Trade.lotSize planA = NumText.toFixed lot 4
       /\ (below_1e21 entry = true -> decimals 5 (Trade.entry planA))
       /\ (below_1e21 sl = true -> decimals 5 (Trade.sl planA))
       /\ (below_1e21 tp = true -> decimals 5 (Trade.tp planA))
       /\ (below_1e21 lot = true -> decimals 4 (Trade.lotSize planA)).
Proof.
  assert (R : settle (answering 50)
                (analyzeCandidate (reads (valid (num 100) (num 95))) upper
                   defaults clock clock x bullish "key")
              = Fulfilled (Some planA)) by (vm_compute; reflexivity).
  split; [exact R|].
  exact (emitted_fields _ _ _ _ _ _ _ _ _ _ R).
Defined.

(** C9 fails: a short whose stop is half the entry above it, at the
    default reward ratio 3, has a take profit below zero. *)
Lemma short_with_negative_take_profit :
  exists t,
    settle (answering 50)
      (analyzeCandidate (reads (valid (num 100) (num 150))) upper defaults clock
         clock y bearish "key")
    = Fulfilled (Some t)
    /\ Trade.tp t = "-50.00000"
    /\ positive_amount (amount (Trade.tp t)) = false.
Proof. evaluate_run. Qed.

End Instances.

(** C2.  The take profit of a trade plan is the entry plus, for a bullish
    candidate, or minus, for a bearish one, the stop distance times the
    reward ratio, written with 5 decimals; its lot size is the risk amount
    divided by the stop distance over the entry, and divided by the entry,
    written with 4 decimals.  Entry 100, stop loss 95, ratio 3 and risk 10
    give the take profit 115.00000 and the lot size 2.0000. *)
Theorem trade_parameters :
  (forall JSON_parse toUpperCase page now1 now2 net coin d apiKey t,
      settle net
        (analyzeCandidate JSON_parse toUpperCase page now1 now2 coin d apiKey)
      = Fulfilled (Some t) ->
      exists analysis a_entry a_stopLoss e s,
        verdict JSON_parse toUpperCase now1 now2 net coin d apiKey analysis
        /\ Js.field analysis "entry" = inr a_entry
        /\ Js.field analysis "stopLoss" = inr a_stopLoss
        /\ Js.parseFloat a_entry = inr e
        /\ Js.parseFloat a_stopLoss = inr s
        /\ Trade.tp t
           = NumText.toFixed
               match d with
               | bullish =>
                   Num.add e (Num.mul (Num.abs (Num.sub e s))
                                (TextNum.parseFloat_string (rrRatio page)))
               | bearish =>
                   Num.sub e (Num.mul (Num.abs (Num.sub e s))
                                (TextNum.parseFloat_string (rrRatio page)))
               end 5
        /\ Trade.lotSize t
           = NumText.toFixed
               (Num.div
                  (Num.div (TextNum.parseFloat_string (riskAmount page))
                     (Num.div (Num.abs (Num.sub e s)) e))
                  e) 4
        /\ Trade.direction t
           = match d with bullish => "Long" | bearish => "Short" end)
  /\ settle (Scenario.answering 50)
       (analyzeCandidate
          (Scenario.reads (Scenario.valid (Scenario.num 100) (Scenario.num 95)))
          Scenario.upper Scenario.defaults Scenario.clock Scenario.clock
          Scenario.x bullish "key")
     = Fulfilled (Some Scenario.planA)
  /\ Trade.tp Scenario.planA = "115.00000"
  /\ Trade.lotSize Scenario.planA = "2.0000".
Proof.
  split; [| split; [vm_compute; reflexivity | split; reflexivity]].
  intros JSON_parse toUpperCase page now1 now2 net coin d apiKey t H.
  apply emitted_from_verdict in H. destruct H as (analysis & V & H).
  apply plan_emitted in H.
  destruct H as (isValid & a_entry & a_stopLoss & rationale & symbol & e & s
                 & _ & He & Hs & _ & _ & Pe & Ps & _ & _ & _ & _ & _ & ->).
  exists analysis, a_entry, a_stopLoss, e, s.
  unfold tradePlan. cbn [Trade.tp Trade.lotSize Trade.direction].
  repeat (split; [first [assumption | reflexivity]|]).
  reflexivity.
Qed.

(** C2 on the run of scenario A. *)
Lemma trade_parameters_witness :
  settle (Scenario.answering 50)
    (analyzeCandidate
       (Scenario.reads (Scenario.valid (Scenario.num 100) (Scenario.num 95)))
       Scenario.upper Scenario.defaults Scenario.clock Scenario.clock
       Scenario.x bullish "key")
  = Fulfilled (Some Scenario.planA)
  /\ exists analysis a_entry a_stopLoss e s,
       verdict
         (Scenario.reads (Scenario.valid (Scenario.num 100) (Scenario.num 95)))
         Scenario.upper Scenario.clock Scenario.clock (Scenario.answering 50)
         Scenario.x bullish "key" analysis
       /\ Js.field analysis "entry" = inr a_entry
       /\ Js.field analysis "stopLoss" = inr a_stopLoss
       /\ Js.parseFloat a_entry = inr e
       /\ Js.parseFloat a_stopLoss = inr s
       /\ Trade.tp Scenario.planA
          = NumText.toFixed
              (Num.add e (Num.mul (Num.abs (Num.sub e s))
                            (TextNum.parseFloat_string (rrRatio Scenario.defaults))))
              5
       /\ Trade.lotSize Scenario.planA
          = NumText.toFixed
              (Num.div
                 (Num.div (TextNum.parseFloat_string (riskAmount Scenario.defaults))
                    (Num.div (Num.abs (Num.sub e s)) e))
                 e) 4
       /\ Trade.direction Scenario.planA = "Long".
Proof.
  assert (R : settle (Scenario.answering 50)
                (analyzeCandidate
                   (Scenario.reads
                      (Scenario.valid (Scenario.num 100) (Scenario.num 95)))
                   Scenario.upper Scenario.defaults Scenario.clock
                   Scenario.clock Scenario.x bullish "key")
              = Fulfilled (Some Scenario.planA)) by (vm_compute; reflexivity).
  split; [exact R|].
  exact (proj1 trade_parameters _ _ _ _ _ _ _ _ _ _ R).
Defined.

(** * The price history and the prompt *)

Section Prompt.

Lemma append_empty_r (s : string) : s ++ "" = s.
Proof. induction s as [| c s IH]; simpl; [reflexivity | now rewrite IH]. Qed.

Lemma concat_cons (x : string) (l : list string) :
  String.concat "" (x :: l) = x ++ String.concat "" l.
Proof. destruct l; simpl; [now rewrite append_empty_r | reflexivity]. Qed.

Lemma concat_app (l1 l2 : list string) :
  String.concat "" (l1 ++ l2) = String.concat "" l1 ++ String.concat "" l2.
Proof.
  induction l1 as [| x l1 IH]; [reflexivity|].
  change ((x :: l1) ++ l2)%list with (x :: (l1 ++ l2))%list.
  rewrite !concat_cons, IH, append_assoc. reflexivity.
Qed.

(** The closes stand in the prompt between the brackets that follow their
    label. *)
Lemma prompt_text_closes (direction symbol price momentum closes structure : string) :
  exists before after,
    prompt_text direction symbol price momentum closes structure
    = before ++ "Recent 24h Price Data (closes): [" ++ closes ++ "]" ++ after.
Proof.
  unfold prompt_text.
  lazymatch goal with
  | |- exists _ _, String.concat "" ?l = _ =>
      let p := pieces_around closes l in
      lazymatch p with
      | (?before, ?after) =>
          lazymatch after with
          | "]" :: ?after' =>
              exists (String.concat "" (removelast before)),
                     (String.concat "" after');
              change l with (removelast before
                             ++ ["Recent 24h Price Data (closes): ["; closes; "]"]
                             ++ after')%list
          end
      end
  end.
  rewrite !concat_app, !concat_cons. simpl (String.concat "" []).
  rewrite append_empty_r, !append_assoc. reflexivity.
Qed.

Lemma slice_last_all {A : Type} (n : nat) (l : list A) :
  (List.length l <= n)%nat -> slice_last n l = l.
Proof.
  intros H. unfold slice_last.
  replace (List.length l - n)%nat with O by lia. reflexivity.
Qed.

Lemma slice_last_length {A : Type} (n : nat) (l : list A) :
  (n <= List.length l)%nat -> List.length (slice_last n l) = n.
Proof. intros H. unfold slice_last. rewrite length_skipn. lia. Qed.

Lemma slice_last_suffix {A : Type} (n : nat) (l : list A) :
  exists older, l = (older ++ slice_last n l)%list.
Proof.
  exists (firstn (List.length l - n) l). unfold slice_last.
  symmetry. apply firstn_skipn.
Qed.


Lemma texts_cons (text : value -> exn + string) (v : value)
  (rest : list value) :
  Js.texts text (v :: rest)
  = match (if Js.nullish v then inr "" else text v) with
    | inl e => inl e
    | inr s =>
        match Js.texts text rest with
        | inl e => inl e
        | inr ss => inr (s :: ss)
        end
    end.
Proof. reflexivity. Qed.

(** The text [join] makes of Numbers. *)
Lemma texts_of_numbers (xs : list Num.number) :
  Js.texts Js.ToString (map VNum xs)
  = inr (map NumText.Number_toString xs).
Proof.
  induction xs as [| x xs IH]; [reflexivity |].
  cbn [map]. rewrite texts_cons, IH. reflexivity.
Qed.

Lemma Array_join_numbers (sep : string) (xs : list Num.number) :
  Js.Array_join sep (map VNum xs)
  = inr (Str.join sep (map NumText.Number_toString xs)).
Proof. unfold Js.Array_join. rewrite texts_of_numbers. reflexivity. Qed.

(** The prompt holds what [join] makes of the last 100 closes. *)
Lemma prompt_closes (toUpperCase : string -> string) (coin : Coin.t)
  (d : direction) (closes : list value) (prompt : string) :
  prompt_for toUpperCase coin d closes = inr prompt ->
  exists joined before after,
    Js.Array_join ", " (slice_last 100 closes) = inr joined
    /\ prompt
       = before ++ "Recent 24h Price Data (closes): [" ++ joined ++ "]" ++ after.
Proof.
  unfold prompt_for. intros Hp.
  destruct (call_toUpperCase _ _); [discriminate|].
  destruct (call_toFixed _ _ 5); [discriminate|].
  destruct (call_toFixed _ _ 2); [discriminate|].
  destruct (Js.Array_join ", " (slice_last 100 closes)) as [e | joined];
    [discriminate|].
  injection Hp as <-. exists joined.
  destruct (prompt_text_closes (direction_text d) s s0 s1 joined
              (match d with bullish => "higher-highs" | bearish => "lower-lows" end))
    as (before & after & E).
  exists before, after. split; [reflexivity | exact E].
Qed.

Variable JSON_parse : string -> exn + value.
Variable toUpperCase : string -> string.
Variable page : inputs.
Variables now1 now2 : Num.number.
Variable net : request -> answer.
Variable coin : Coin.t.
Variable d : direction.
Variable apiKey : string.

(** C5.  When the price history comes with fewer than 50 closes,
    [analyzeCandidate] returns [null] and has sent nothing to the reasoning
    service.  With 50 closes or more it goes on to build the prompt, and
    sends it to the service when it is built; the prompt holds the last
    100 closes, all of them when there are not more, joined by a comma
    and a space, each Number as its string. *)
Theorem history_and_prompt (url : string) (chartRes : response)
  (chartData : value) (closes : list value) :
  chartUrl now1 now2 coin = inr url ->
  net (GET url) = inr chartRes ->
  ok chartRes = true ->
  json chartRes = inr chartData ->
  closes_of chartData = inr closes ->
  ((List.length closes < 50)%nat ->
   settle net
     (analyzeCandidate JSON_parse toUpperCase page now1 now2 coin d apiKey)
   = Fulfilled None
   /\ requests net
        (analyzeCandidate JSON_parse toUpperCase page now1 now2 coin d apiKey)
      = [GET url])
  /\ ((50 <= List.length closes)%nat ->
      settle net
        (analyzeCandidate JSON_parse toUpperCase page now1 now2 coin d apiKey)
      = match prompt_for toUpperCase coin d closes with
        | inl e => Rejected e
        | inr prompt =>
            match settle net (callGemini JSON_parse prompt apiKey) with
            | Rejected e => Rejected e
            | Fulfilled analysis =>
                match plan toUpperCase page coin d analysis with
                | inl e => Rejected e
                | inr r => Fulfilled r
                end
            end
        end
      /\ (forall e,
             prompt_for toUpperCase coin d closes = inl e ->
             requests net
               (analyzeCandidate JSON_parse toUpperCase page now1 now2 coin d
                  apiKey)
             = [GET url])
      /\ forall prompt,
           prompt_for toUpperCase coin d closes = inr prompt ->
           requests net
             (analyzeCandidate JSON_parse toUpperCase page now1 now2 coin d
                apiKey)
           = [GET url; gemini_request prompt apiKey]
           /\ exists joined before after,
                Js.Array_join ", " (slice_last 100 closes) = inr joined
                /\ prompt
                   = before ++ "Recent 24h Price Data (closes): ["
                     ++ joined ++ "]" ++ after)
  /\ (forall xs,
         slice_last 100 closes = map VNum xs ->
         Js.Array_join ", " (slice_last 100 closes)
         = inr (Str.join ", " (map NumText.Number_toString xs)))
  /\ ((List.length closes <= 100)%nat -> slice_last 100 closes = closes)
  /\ ((100 <= List.length closes)%nat ->
      List.length (slice_last 100 closes) = 100%nat)
  /\ exists older, closes = (older ++ slice_last 100 closes)%list.
Proof.
  intros Hu Hn Hok Hj Hc.
  rewrite analyzeCandidate_outcome, analyzeCandidate_requests, Hu, Hn, Hok, Hj, Hc.
  split; [| split; [| split; [| split; [| split]]]].
  - intros H. apply Nat.ltb_lt in H. rewrite H. split; reflexivity.
  - intros H. apply Nat.ltb_ge in H. rewrite H. split; [reflexivity|].
    split.
    + intros e ->. reflexivity.
    + intros prompt Hp. rewrite Hp. split; [reflexivity|].
      exact (prompt_closes _ _ _ _ _ Hp).
  - intros xs ->. apply Array_join_numbers.
  - apply slice_last_all.
  - apply slice_last_length.
  - apply slice_last_suffix.
Qed.

End Prompt.

(** C5 on a history of 49 closes and on one of 50. *)
Lemma history_and_prompt_witness :
  (chartUrl Scenario.clock Scenario.clock Scenario.x
   = inr (Scenario.history Scenario.x)
   /\ Scenario.answering 49 (GET (Scenario.history Scenario.x))
      = inr (Scenario.respond (Scenario.chart 49))
   /\ closes_of (Scenario.chart 49) = inr (Scenario.closes 49)
   /\ settle (Scenario.answering 49)
        (analyzeCandidate (Scenario.reads Scenario.invalid) Scenario.upper
           Scenario.defaults Scenario.clock Scenario.clock Scenario.x bullish
           "key")
      = Fulfilled None
   /\ requests (Scenario.answering 49)
        (analyzeCandidate (Scenario.reads Scenario.invalid) Scenario.upper
           Scenario.defaults Scenario.clock Scenario.clock Scenario.x bullish
           "key")
      = [GET (Scenario.history Scenario.x)])
  /\ (closes_of (Scenario.chart 50) = inr (Scenario.closes 50)
      /\ prompt_for Scenario.upper Scenario.x bullish (Scenario.closes 50)
         = inr (Scenario.prompt Scenario.x bullish 50)
      /\ requests (Scenario.answering 50)
           (analyzeCandidate (Scenario.reads Scenario.invalid) Scenario.upper
              Scenario.defaults Scenario.clock Scenario.clock Scenario.x
              bullish "key")
         = [GET (Scenario.history Scenario.x);
            gemini_request (Scenario.prompt Scenario.x bullish 50) "key"]
      /\ slice_last 100 (Scenario.closes 50) = Scenario.closes 50
      /\ Js.Array_join ", " (slice_last 100 (Scenario.closes 50))
         = inr (Str.join ", "
                  (map NumText.Number_toString (repeat (Num.of_Z 100) 50)))
      /\ Str.join ", " (map NumText.Number_toString (repeat (Num.of_Z 100) 3))
         = "100, 100, 100").
Proof.
  assert (U : chartUrl Scenario.clock Scenario.clock Scenario.x
              = inr (Scenario.history Scenario.x)) by reflexivity.
  assert (N49 : Scenario.answering 49 (GET (Scenario.history Scenario.x))
                = inr (Scenario.respond (Scenario.chart 49))) by reflexivity.
  assert (C49 : closes_of (Scenario.chart 49) = inr (Scenario.closes 49))
    by (vm_compute; reflexivity).
  assert (N50 : Scenario.answering 50 (GET (Scenario.history Scenario.x))
                = inr (Scenario.respond (Scenario.chart 50))) by reflexivity.
  assert (C50 : closes_of (Scenario.chart 50) = inr (Scenario.closes 50))
    by (vm_compute; reflexivity).
  assert (P50 : prompt_for Scenario.upper Scenario.x bullish (Scenario.closes 50)
                = inr (Scenario.prompt Scenario.x bullish 50))
    by (vm_compute; reflexivity).
  destruct (history_and_prompt (Scenario.reads Scenario.invalid) Scenario.upper
              Scenario.defaults Scenario.clock Scenario.clock _ Scenario.x
              bullish "key" _ _ _ _ U N49 eq_refl eq_refl C49) as (Few & _).
  destruct (history_and_prompt (Scenario.reads Scenario.invalid) Scenario.upper
              Scenario.defaults Scenario.clock Scenario.clock _ Scenario.x
              bullish "key" _ _ _ _ U N50 eq_refl eq_refl C50)
    as (_ & Enough & Text & All & _).
  assert (L49 : (List.length (Scenario.closes 49) < 50)%nat)
    by (vm_compute; lia).
  assert (L50 : (50 <= List.length (Scenario.closes 50))%nat)
    by (vm_compute; lia).
  assert (L100 : (List.length (Scenario.closes 50) <= 100)%nat)
    by (vm_compute; lia).
  destruct (Few L49) as (S49 & R49).
  destruct (Enough L50) as (_ & _ & Sent). destruct (Sent _ P50) as (R50 & _).
  split; [auto 6 |].
  split; [exact C50 |]. split; [exact P50 |]. split; [exact R50 |].
  split; [exact (All L100) |].
  split; [| vm_compute; reflexivity].
  apply Text. vm_compute. reflexivity.
Defined.


(** * The results on the page *)

Section Display.

Lemma outcomes_nth {A : Type} (nets : nat -> request -> answer) (k i : nat)
  (tasks : list (async A)) :
  nth_error (outcomes nets k tasks) i
  = option_map (settle (nets (k + i)%nat)) (nth_error tasks i).
Proof.
  revert k i. induction tasks as [| t tasks IH]; intros k [| i]; simpl;
    try reflexivity.
  - rewrite Nat.add_0_r. reflexivity.
  - rewrite IH. f_equal. f_equal. f_equal. lia.
Qed.

Lemma outcomes_length {A : Type} (nets : nat -> request -> answer) (k : nat)
  (tasks : list (async A)) :
  List.length (outcomes nets k tasks) = List.length tasks.
Proof.
  revert k. induction tasks as [| t tasks IH]; intros k; simpl; auto.
Qed.


Lemma rejections_nodes (results : list (outcome (option Trade.t))) (n : node) :
  In n (rejections results) -> exists text, n = error_message text.
Proof.
  unfold rejections. rewrite in_flat_map.
  intros ([a | reason] & _ & H); simpl in H; [contradiction|].
  destruct H as [<- | []]. eauto.
Qed.

Lemma In_validTrades (results : list (outcome (option Trade.t))) (t : Trade.t) :
  In t (validTrades results) <-> In (Fulfilled (Some t)) results.
Proof.
  unfold validTrades. rewrite in_flat_map. split.
  - intros ([[t' |] | reason] & Hin & H); simpl in H; try contradiction.
    destruct H as [-> | []]. exact Hin.
  - intros H. exists (Fulfilled (Some t)). simpl. auto.
Qed.

(** The cards of a container are the cards of its trades, one each and in
    their order. *)
Lemma cards_of_each (trades : list Trade.t) (cards : list card) :
  cards_of trades = inr cards
  <-> Forall2 (fun t c => createTradeCard t = inr c) trades cards.
Proof.
  revert cards. induction trades as [| t trades IH]; intros cards; simpl.
  - split.
    + intros H. inversion H. constructor.
    + intros H. inversion H. reflexivity.
  - destruct (createTradeCard t) as [e | c] eqn:Ec.
    + split; [discriminate|]. intros H. inversion H; subst. congruence.
    + destruct (cards_of trades) as [e | cs] eqn:Er.
      * split; [discriminate|]. intros H. inversion H; subst.
        match goal with F : Forall2 _ trades _ |- _ =>
          apply IH in F; discriminate end.
      * split.
        -- intros H. inversion H; subst. constructor; [exact Ec|].
           apply IH. reflexivity.
        -- intros H. inversion H; subst.
           match goal with F : Forall2 _ trades _ |- _ =>
             apply IH in F; inversion F; subst end.
           congruence.
Qed.


(** The cards can be made when each of them can, and only then. *)
Lemma cards_of_fails (trades : list Trade.t) (e : exn) :
  cards_of trades = inl e ->
  exists t, In t trades /\ createTradeCard t = inl e.
Proof.
  induction trades as [| t trades IH]; simpl; [discriminate|].
  destruct (createTradeCard t) as [e' | c] eqn:Ec.
  - intros H. inversion H; subst. exists t. auto.
  - destruct (cards_of trades) as [e' | cs]; [| discriminate].
    intros H. inversion H; subst.
    destruct (IH eq_refl) as (t' & Ht & Hc). exists t'. auto.
Qed.

(** What a group of setups appends: a header, and a container when all
    the cards were made; an error when one was not. *)
Lemma setups_cases (title : string) (trades : list Trade.t) :
  (trades = [] /\ setups title trades = ([], None))
  \/ (exists cards,
         trades <> [] /\ cards_of trades = inr cards
         /\ setups title trades
            = ([summary_header (target ++ title ++ count_text trades ++ ")");
                trades_container cards], None))
  \/ (exists e,
         trades <> [] /\ cards_of trades = inl e
         /\ setups title trades
            = ([summary_header (target ++ title ++ count_text trades ++ ")")],
               Some e)).
Proof.
  destruct trades as [| t trades]; [left; split; reflexivity|]. right.
  unfold setups. destruct (cards_of (t :: trades)) as [e | cards].
  - right. exists e. repeat split. discriminate.
  - left. exists cards. repeat split. discriminate.
Qed.


Lemma setups_logs (title : string) (trades : list Trade.t) (text : string) :
  ~ In (log_message text) (fst (setups title trades)).
Proof.
  destruct (setups_cases title trades)
    as [(_ & ->) | [(cards & _ & _ & ->) | (e & _ & _ & ->)]];
    simpl; intuition discriminate.
Qed.


(** Step 4 in its three cases: the long setups throw, the short setups
    throw, or neither does and everything is appended. *)
Lemma display_cases (results : list (outcome (option Trade.t))) :
  let longTrades :=
    filter (fun t => String.eqb (Trade.direction t) "Long") (validTrades results) in
  let shortTrades :=
    filter (fun t => String.eqb (Trade.direction t) "Short") (validTrades results) in
  (exists e,
      snd (setups " Valid Long Setups (" longTrades) = Some e
      /\ display results = (fst (setups " Valid Long Setups (" longTrades), Some e))
  \/ (exists e,
         snd (setups " Valid Long Setups (" longTrades) = None
         /\ snd (setups " Valid Short Setups (" shortTrades) = Some e
         /\ display results
            = ((fst (setups " Valid Long Setups (" longTrades)
                ++ fst (setups " Valid Short Setups (" shortTrades))%list,
               Some e))
  \/ (snd (setups " Valid Long Setups (" longTrades) = None
      /\ snd (setups " Valid Short Setups (" shortTrades) = None
      /\ display results
         = ((fst (setups " Valid Long Setups (" longTrades)
             ++ fst (setups " Valid Short Setups (" shortTrades)
             ++ (match validTrades results with
                 | [] => [log_message "Analysis complete. No high-confluence ICT setups found based on the current rules."]
                 | _ => []
                 end)
             ++ rejections results)%list, None)).
Proof.
  intros longTrades shortTrades. unfold display.
  fold longTrades. fold shortTrades.
  destruct (setups " Valid Long Setups (" longTrades) as [long [e |]].
  - left. exists e. split; reflexivity.
  - destruct (setups " Valid Short Setups (" shortTrades) as [short [e |]].
    + right. left. exists e. repeat split.
    + right. right. repeat split.
Qed.




(** Step 4 ends without an error when a card can be made of every trade
    plan. *)
Lemma display_ends (results : list (outcome (option Trade.t))) :
  (forall t, In (Fulfilled (Some t)) results ->
             exists c, createTradeCard t = inr c) ->
  snd (display results) = None.
Proof.
  intros Hall.
  assert (Made : forall title keep,
             snd (setups title (filter keep (validTrades results))) = None).
  { intros title keep.
    destruct (setups_cases title (filter keep (validTrades results)))
      as [(_ & ->) | [(cards & _ & _ & ->) | (e & _ & He & _)]];
      try reflexivity.
    apply cards_of_fails in He. destruct He as (t & Ht & He).
    apply filter_In in Ht. destruct Ht as [Ht _].
    apply In_validTrades in Ht. destruct (Hall t Ht) as [c Hc]. congruence. }
  destruct (display_cases results)
    as [(e & E1 & _) | [(e & _ & E2 & _) | (_ & _ & E)]].
  - rewrite Made in E1. discriminate.
  - rewrite Made in E2. discriminate.
  - rewrite E. reflexivity.
Qed.


(** What the page holds after the [try]: what was appended, and the line
    of the [catch]. *)
Lemma In_caught (ended : list node * option exn) (n : node) :
  In n (caught ended)
  <-> In n (fst ended)
      \/ exists error,
           snd ended = Some error
           /\ n = error_message ("A global error occurred: " ++ message error).
Proof.
  destruct ended as [appended [error |]]; cbn [caught fst snd].
  - rewrite in_app_iff. split.
    + intros [H | [<- | []]]; [left; exact H | right; eauto].
    + intros [H | (e & He & ->)]; [left; exact H |].
      inversion He; subst. right. left. reflexivity.
  - split; [auto |]. intros [H | (e & He & _)]; [exact H | discriminate].
Qed.

Variable JSON_parse : string -> exn + value.
Variable toUpperCase : string -> string.
Variable page : inputs.
Variable Date_now : nat -> Num.number.

(** With a key and candidates, the handler shows the results of the
    analyses. *)
Lemma run_display (before : list node) (net : request -> answer)
  (nets : nat -> request -> answer) (candidates : list candidate) :
  String.eqb (GEMINI_API_KEY page) "" = false ->
  settle net (select page) = Fulfilled candidates ->
  candidates <> [] ->
  outputDiv (run JSON_parse toUpperCase page Date_now before net nets)
  = caught (display
              (outcomes nets 0
                 (analysisPromises JSON_parse toUpperCase page Date_now
                    candidates))).
Proof.
  intros Hk Hs Hc. unfold run. rewrite Hk, Hs.
  destruct candidates; [contradiction | reflexivity].
Qed.

(** The promise of candidate [i], with its two readings of the clock. *)
Lemma promises_from_nth (k i : nat) (candidates : list candidate) :
  nth_error (promises_from JSON_parse toUpperCase page Date_now k candidates) i
  = option_map
      (fun c =>
         analyzeCandidate JSON_parse toUpperCase page
           (Date_now (2 * (k + i))) (Date_now (2 * (k + i) + 1)) (fst c) (snd c)
           (GEMINI_API_KEY page))
      (nth_error candidates i).
Proof.
  revert k i. induction candidates as [| c rest IH]; intros k [| i];
    cbn [promises_from nth_error option_map]; try reflexivity.
  - rewrite Nat.add_0_r. reflexivity.
  - rewrite IH. replace (S k + i)%nat with (k + S i)%nat by lia. reflexivity.
Qed.

Lemma promises_from_length (k : nat) (candidates : list candidate) :
  List.length (promises_from JSON_parse toUpperCase page Date_now k candidates)
  = List.length candidates.
Proof.
  revert k. induction candidates as [| c rest IH]; intros k; simpl; auto.
Qed.

(** The result of candidate [i] is the outcome of its analysis on its
    own network. *)
Lemma result_of_candidate (nets : nat -> request -> answer)
  (candidates : list candidate) (i : nat) (c : candidate) :
  nth_error candidates i = Some c ->
  nth_error
    (outcomes nets 0
       (analysisPromises JSON_parse toUpperCase page Date_now candidates)) i
  = Some (settle (nets i)
            (analyzeCandidate JSON_parse toUpperCase page
               (Date_now (2 * i)) (Date_now (2 * i + 1)) (fst c) (snd c)
               (GEMINI_API_KEY page))).
Proof.
  intros H. rewrite outcomes_nth. unfold analysisPromises.
  rewrite promises_from_nth, H. reflexivity.
Qed.

(** Every result is the outcome of the analysis of a candidate. *)
Lemma result_of_some (nets : nat -> request -> answer)
  (candidates : list candidate) (o : outcome (option Trade.t)) :
  In o (outcomes nets 0
          (analysisPromises JSON_parse toUpperCase page Date_now candidates)) ->
  exists j c,
    nth_error candidates j = Some c
    /\ settle (nets j)
         (analyzeCandidate JSON_parse toUpperCase page
            (Date_now (2 * j)) (Date_now (2 * j + 1)) (fst c) (snd c)
            (GEMINI_API_KEY page)) = o.
Proof.
  intros Hin. apply In_nth_error in Hin. destruct Hin as [j Hj].
  unfold candidate in *.
  destruct (nth_error candidates j) as [c |] eqn:Hc.
  - rewrite (result_of_candidate nets candidates j c Hc) in Hj.
    exists j, c. split; [exact Hc | congruence].
  - apply nth_error_None in Hc.
    assert (Hj' : nth_error
                    (outcomes nets 0
                       (analysisPromises JSON_parse toUpperCase page Date_now
                          candidates)) j
                  <> None) by congruence.
    apply nth_error_Some in Hj'. rewrite outcomes_length in Hj'.
    unfold analysisPromises in Hj'. rewrite promises_from_length in Hj'.
    unfold candidate in *. lia.
Qed.



End Display.



(** * The analyses in flight *)

Section InFlight.

Context {A : Type}.
Variable nets : nat -> request -> answer.

(** An answer changes no outcome: that of the promise it resumes is the
    outcome it was to have, the other promises are left as they are. *)
Lemma resume_outcomes (k i : nat) (rq : request) (kont : answer -> async A)
  (tasks : list (async A)) :
  nth_error tasks i = Some (Fetch rq kont) ->
  outcomes nets k (resume i (kont (nets (k + i)%nat rq)) tasks)
  = outcomes nets k tasks.
Proof.
  revert k i. induction tasks as [| t tasks IH]; intros k [| i] H;
    simpl in *; try discriminate.
  - inversion H; subst. rewrite Nat.add_0_r. reflexivity.
  - f_equal. replace (k + S i)%nat with (S k + i)%nat by lia.
    apply IH. exact H.
Qed.

(** An answer leaves one request less to wait for. *)
Lemma resume_pending (k i : nat) (rq : request) (kont : answer -> async A)
  (tasks : list (async A)) :
  nth_error tasks i = Some (Fetch rq kont) ->
  S (pending nets k (resume i (kont (nets (k + i)%nat rq)) tasks))
  = pending nets k tasks.
Proof.
  revert k i. induction tasks as [| t tasks IH]; intros k [| i] H;
    simpl in *; try discriminate.
  - inversion H; subst. rewrite Nat.add_0_r. reflexivity.
  - replace (k + S i)%nat with (S k + i)%nat by lia.
    rewrite <- (IH (S k) i H). lia.
Qed.

Lemma resume_length (i : nat) (r : async A) (tasks : list (async A)) :
  List.length (resume i r tasks) = List.length tasks.
Proof.
  revert i. induction tasks as [| t rest IH]; intros i; [destruct i; reflexivity |].
  destruct i; simpl; [reflexivity | rewrite IH; reflexivity].
Qed.

Lemma fulfilled_cons (t : async A) (tasks : list (async A)) :
  fulfilled (t :: tasks)
  = ((match t with Return _ => 1 | _ => 0 end) + fulfilled tasks)%nat.
Proof. unfold fulfilled. destruct t; reflexivity. Qed.

Lemma fulfilled_le (tasks : list (async A)) :
  (fulfilled tasks <= List.length tasks)%nat.
Proof.
  induction tasks as [| t tasks IH]; [apply Nat.le_refl |].
  rewrite fulfilled_cons. destruct t; simpl; lia.
Qed.

(** The promise that resumes is one more with a result when it returns. *)
Lemma resume_fulfilled (i : nat) (rq : request) (k : answer -> async A)
  (r : async A) (tasks : list (async A)) :
  nth_error tasks i = Some (Fetch rq k) ->
  fulfilled (resume i r tasks)
  = ((match r with Return _ => 1 | _ => 0 end) + fulfilled tasks)%nat.
Proof.
  revert i. induction tasks as [| t rest IH]; intros i H.
  - destruct i; discriminate.
  - destruct i as [| i].
    + injection H as ->. cbn [resume]. rewrite !fulfilled_cons. reflexivity.
    + cbn [resume]. rewrite !fulfilled_cons, (IH i H). lia.
Qed.

Lemma promises_delivered (i : nat) (r : async A) (f : flight A) :
  promises (delivered i r f) = resume i r (promises f).
Proof. destruct r; reflexivity. Qed.

Lemma analyzedCount_delivered (i : nat) (r : async A) (f : flight A) :
  analyzedCount (delivered i r f)
  = ((match r with Return _ => 1 | _ => 0 end) + analyzedCount f)%nat.
Proof. destruct r; reflexivity. Qed.

Lemma step_outcomes (f1 f2 : flight A) :
  step nets f1 f2 ->
  outcomes nets 0 (promises f2) = outcomes nets 0 (promises f1).
Proof.
  intros [i rq kont f H]. rewrite promises_delivered.
  apply (resume_outcomes 0 i). exact H.
Qed.

Lemma step_pending (f1 f2 : flight A) :
  step nets f1 f2 ->
  S (pending nets 0 (promises f2)) = pending nets 0 (promises f1).
Proof.
  intros [i rq kont f H]. rewrite promises_delivered.
  apply (resume_pending 0 i). exact H.
Qed.

Lemma step_length (f1 f2 : flight A) :
  step nets f1 f2 ->
  List.length (promises f2) = List.length (promises f1).
Proof.
  intros [i rq kont f H]. rewrite promises_delivered. apply resume_length.
Qed.



Lemma steps_length (n : nat) (f1 f2 : flight A) :
  steps nets n f1 f2 ->
  List.length (promises f2) = List.length (promises f1).
Proof.
  induction 1 as [| n f1 f2 f3 H _ IH]; [reflexivity|].
  rewrite IH. apply step_length. exact H.
Qed.

(** What [Promise.allSettled] resolves with: the outcomes, no request
    being waited for any more. *)
Lemma allSettled_outcomes (k : nat) (tasks : list (async A))
  (results : list (outcome A)) :
  allSettled tasks = Some results ->
  results = outcomes nets k tasks /\ pending nets k tasks = O.
Proof.
  revert k results. induction tasks as [| t tasks IH]; intros k results H;
    simpl in *.
  - inversion H. auto.
  - destruct t as [a | e | rq kont]; simpl in H; try discriminate;
      destruct (allSettled tasks) as [os |]; try discriminate;
      inversion H; subst; destruct (IH (S k) os eq_refl) as [-> ->]; auto.
Qed.


Lemma settled_when_none_pending (k : nat) (tasks : list (async A)) :
  pending nets k tasks = O -> exists results, allSettled tasks = Some results.
Proof.
  revert k. induction tasks as [| t tasks IH]; intros k H; simpl in *.
  - eauto.
  - destruct t as [a | e | rq kont]; simpl in H; try discriminate;
      destruct (IH (S k) H) as [os ->]; simpl; eauto.
Qed.

(** While a promise has not settled, an answer can arrive: the promises
    that have failed hold nothing back. *)
Lemma step_when_unsettled (f : flight A) :
  allSettled (promises f) = None -> exists f', step nets f f'.
Proof.
  intros H.
  assert (E : exists i rq kont, nth_error (promises f) i = Some (Fetch rq kont)).
  { induction (promises f) as [| t tasks IH]; [discriminate|].
    destruct t as [a | e | rq kont].
    - simpl in H. destruct (allSettled tasks); [discriminate|].
      destruct (IH eq_refl) as (i & rq & kont & E). exists (S i). eauto.
    - simpl in H. destruct (allSettled tasks); [discriminate|].
      destruct (IH eq_refl) as (i & rq & kont & E). exists (S i). eauto.
    - exists O. simpl. eauto. }
  destruct E as (i & rq & kont & E). eexists. apply (step_answer nets i rq kont).
  exact E.
Qed.

(** Once all have settled, the promises with a result are the fulfilled
    ones. *)
Lemma fulfilled_settled (tasks : list (async A)) (results : list (outcome A)) :
  allSettled tasks = Some results ->
  fulfilled tasks
  = List.length (filter (fun o => match o with
                                  | Fulfilled _ => true
                                  | Rejected _ => false
                                  end) results).
Proof.
  unfold fulfilled. revert results.
  induction tasks as [| t tasks IH]; intros results E; simpl in E.
  - inversion E. reflexivity.
  - destruct t as [a | e | rq kont]; simpl in E; try discriminate;
      destruct (allSettled tasks) as [os |]; try discriminate;
      inversion E; subst; simpl; rewrite (IH os eq_refl); reflexivity.
Qed.

(** Answered in some order, the requests lead to all promises settled. *)
Lemma completes (n : nat) (f : flight A) :
  pending nets 0 (promises f) = n ->
  exists f',
    steps nets n f f'
    /\ allSettled (promises f') = Some (outcomes nets 0 (promises f)).
Proof.
  revert f. induction n as [| n IH]; intros f H.
  - exists f. split; [constructor|].
    destruct (settled_when_none_pending 0 _ H) as [os E].
    rewrite E. f_equal. apply (allSettled_outcomes 0 _ _ E).
  - destruct (allSettled (promises f)) as [os |] eqn:E.
    + apply (allSettled_outcomes 0) in E. destruct E as [_ E]. congruence.
    + destruct (step_when_unsettled f E) as [f2 Hs].
      assert (P : pending nets 0 (promises f2) = n).
      { apply step_pending in Hs. congruence. }
      destruct (IH f2 P) as (f3 & Hss & Hall).
      exists f3. split; [econstructor; eassumption|].
      rewrite Hall. f_equal. apply step_outcomes. exact Hs.
Qed.

Lemma launch_in_step (tasks : list (async A)) : in_step (launch tasks).
Proof. split; reflexivity. Qed.

Lemma step_in_step (f1 f2 : flight A) :
  step nets f1 f2 -> in_step f1 -> in_step f2.
Proof.
  intros [i rq k f H] [C B]. split.
  - rewrite analyzedCount_delivered, promises_delivered,
      (resume_fulfilled _ _ _ _ _ H), C. reflexivity.
  - rewrite promises_delivered, resume_length.
    destruct (k (nets i rq)); cbn [delivered button analyzedCount];
      [reflexivity | exact B | exact B].
Qed.

Lemma steps_in_step (n : nat) (f1 f2 : flight A) :
  steps nets n f1 f2 -> in_step f1 -> in_step f2.
Proof.
  induction 1 as [| n f1 f2 f3 H _ IH]; [auto|].
  intros I. apply IH. exact (step_in_step _ _ H I).
Qed.

(** An answer moves the counter by one at most. *)
Lemma step_count (f1 f2 : flight A) :
  step nets f1 f2 ->
  analyzedCount f2 = analyzedCount f1
  \/ (analyzedCount f2 = S (analyzedCount f1)
      /\ button f2
         = showLoading (progress (S (analyzedCount f1))
                          (List.length (promises f1)))).
Proof.
  intros [i rq k f H]. destruct (k (nets i rq)); cbn [delivered analyzedCount button];
    auto.
Qed.

Lemma steps_count (n : nat) (f1 f2 : flight A) :
  steps nets n f1 f2 ->
  (analyzedCount f1 <= analyzedCount f2 <= analyzedCount f1 + n)%nat.
Proof.
  induction 1 as [| n f1 f2 f3 H _ IH]; [lia|].
  destruct (step_count _ _ H) as [E | [E _]]; lia.
Qed.

End InFlight.

Section Parallel.

Variable JSON_parse : string -> exn + value.
Variable toUpperCase : string -> string.
Variable page : inputs.
Variable Date_now : nat -> Num.number.

(** An analysis starts by its request for the price history, or ends at
    once when the address of the history cannot be built. *)
Lemma analyzeCandidate_starts (now1 now2 : Num.number) (coin : Coin.t)
  (d : direction) (apiKey : string) :
  match chartUrl now1 now2 coin with
  | inr url =>
      exists kont,
        analyzeCandidate JSON_parse toUpperCase page now1 now2 coin d apiKey
        = Fetch (GET url) kont
  | inl e =>
      analyzeCandidate JSON_parse toUpperCase page now1 now2 coin d apiKey
      = Throw e
  end.
Proof.
  unfold analyzeCandidate. destruct (chartUrl now1 now2 coin) as [e | url].
  - reflexivity.
  - eexists. reflexivity.
Qed.

(** None of the promises of step 3 has a result before an answer. *)
Lemma none_fulfilled_at_launch (k : nat) (candidates : list candidate) :
  fulfilled (promises_from JSON_parse toUpperCase page Date_now k candidates)
  = 0%nat.
Proof.
  revert k. induction candidates as [| c rest IH]; intros k; [reflexivity |].
  cbn [promises_from]. rewrite fulfilled_cons, IH.
  pose proof (analyzeCandidate_starts (Date_now (2 * k)) (Date_now (2 * k + 1))
                (fst c) (snd c) (GEMINI_API_KEY page)) as S.
  destruct (chartUrl _ _ _); [rewrite S | destruct S as [kont ->]]; reflexivity.
Qed.


(** X22.  The counter of lines 150 to 158 and the button, while the
    analyses of the candidates are in flight.  The counter starts at 0
    with [Analyzing 0 / n coins...] on the button.  After any answers it
    is the number of analyses that have returned, the button shows it
    with the number of candidates, and it is within the number of answers
    and the number of candidates.  One more answer leaves it as it is, or
    moves it up by one and the button with it.  Once all analyses have
    settled it is the number of the fulfilled ones. *)
Theorem progress_moves_forward (nets : nat -> request -> answer)
  (candidates : list candidate) (n : nat) (f : flight (option Trade.t)) :
  steps nets n
    (launch (analysisPromises JSON_parse toUpperCase page Date_now candidates))
    f ->
  analyzedCount
    (launch (analysisPromises JSON_parse toUpperCase page Date_now candidates))
  = 0%nat
  /\ button
       (launch (analysisPromises JSON_parse toUpperCase page Date_now candidates))
     = showLoading (progress 0 (List.length candidates))
  /\ analyzedCount f = fulfilled (promises f)
  /\ button f
     = showLoading (progress (analyzedCount f) (List.length candidates))
  /\ (analyzedCount f <= n)%nat
  /\ (analyzedCount f <= List.length candidates)%nat
  /\ (forall f',
         step nets f f' ->
         (analyzedCount f' = analyzedCount f /\ button f' = button f)
         \/ (analyzedCount f' = S (analyzedCount f)
             /\ button f'
                = showLoading (progress (S (analyzedCount f))
                                 (List.length candidates))))
  /\ (forall results,
         allSettled (promises f) = Some results ->
         analyzedCount f
         = List.length (filter (fun o => match o with
                                         | Fulfilled _ => true
                                         | Rejected _ => false
                                         end) results)).
Proof.
  intros H.
  assert (Z0 : analyzedCount
                 (launch
                    (analysisPromises JSON_parse toUpperCase page Date_now
                       candidates)) = 0%nat).
  { cbn [launch analyzedCount]. apply none_fulfilled_at_launch. }
  assert (L : List.length (promises f) = List.length candidates).
  { rewrite (steps_length nets n _ _ H). cbn [launch promises].
    apply promises_from_length. }
  destruct (steps_in_step nets n _ _ H (launch_in_step _)) as [C B].
  pose proof (steps_count nets n _ _ H) as N. rewrite Z0 in N.
  split; [exact Z0 |].
  split.
  { cbn [launch button]. unfold analysisPromises.
    rewrite none_fulfilled_at_launch, promises_from_length. reflexivity. }
  split; [exact C |].
  split; [rewrite <- L; exact B |].
  split; [lia |].
  split; [rewrite C, <- L; apply fulfilled_le |].
  split.
  - intros f' Hs. inversion Hs as [i rq k f0 Hi E1 E2]; subst. rewrite <- L.
    destruct (k (nets i rq)); cbn [delivered analyzedCount button]; auto.
  - intros results E. rewrite C. apply fulfilled_settled. exact E.
Qed.

End Parallel.

(** * White space and the fenced block of line 102 *)

Section Fences.

Lemma skip_white_cons (c : ascii) (r : string) :
  Str.skip_white (String c r)
  = if white1 c then Str.skip_white r
    else
      match r with
      | String c1 r1 =>
          if white2 c c1 then Str.skip_white r1
          else
            match r1 with
            | String c2 r2 =>
                if white3 c c1 c2 then Str.skip_white r2 else String c r
            | "" => String c r
            end
      | "" => String c r
      end.
Proof. destruct r as [| c1 [| c2 r2]]; reflexivity. Qed.

(** Induction on the length of a text. *)
Lemma by_length (P : string -> Prop) :
  (forall s, (forall r, (String.length r < String.length s)%nat -> P r) -> P s) ->
  forall s, P s.
Proof.
  intros step s.
  assert (H : forall n r, (String.length r < n)%nat -> P r).
  { induction n as [| n IH]; intros r Hr; [lia |].
    apply step. intros r' Hr'. apply IH. lia. }
  apply (H (S (String.length s))). lia.
Qed.

(** What [skip_white] takes off is white space, and what it leaves has
    none at its head. *)
Lemma skip_white_split (s : string) :
  exists ws, s = ws ++ Str.skip_white s /\ blank ws
             /\ Str.skip_white (Str.skip_white s) = Str.skip_white s.
Proof.
  induction s as [s IH] using by_length.
  destruct s as [| c r]; [exists ""; repeat split |].
  rewrite skip_white_cons.
  destruct (white1 c) eqn:W1.
  { destruct (IH r) as (ws & E & B & I); [simpl; lia |].
    exists (String c ws). split; [simpl; congruence |].
    split; [| exact I].
    unfold blank. rewrite skip_white_cons, W1. exact B. }
  destruct r as [| c1 r1].
  { exists "". repeat split. rewrite skip_white_cons, W1. reflexivity. }
  destruct (white2 c c1) eqn:W2.
  { destruct (IH r1) as (ws & E & B & I); [simpl; lia |].
    exists (String c (String c1 ws)). split; [simpl; congruence |].
    split; [| exact I].
    unfold blank. rewrite skip_white_cons, W1, W2. exact B. }
  destruct r1 as [| c2 r2].
  { exists "". repeat split. rewrite skip_white_cons, W1, W2. reflexivity. }
  destruct (white3 c c1 c2) eqn:W3.
  { destruct (IH r2) as (ws & E & B & I); [simpl; lia |].
    exists (String c (String c1 (String c2 ws))). split; [simpl; congruence |].
    split; [| exact I].
    unfold blank. rewrite skip_white_cons, W1, W2, W3. exact B. }
  exists "". repeat split. rewrite skip_white_cons, W1, W2, W3. reflexivity.
Qed.

(** White space before a text is skipped with that of the text. *)
Lemma skip_white_blank (ws r : string) :
  blank ws -> Str.skip_white (ws ++ r) = Str.skip_white r.
Proof.
  revert r. induction ws as [ws IH] using by_length. intros r B.
  destruct ws as [| c w]; [reflexivity |].
  unfold blank in B. rewrite skip_white_cons in B.
  change (String c w ++ r) with (String c (w ++ r)).
  rewrite skip_white_cons.
  destruct (white1 c) eqn:W1; [apply IH; [simpl; lia | exact B] |].
  destruct w as [| c1 w1]; [discriminate |].
  change (String c1 w1 ++ r) with (String c1 (w1 ++ r)). cbn iota.
  destruct (white2 c c1) eqn:W2; [apply IH; [simpl; lia | exact B] |].
  destruct w1 as [| c2 w2]; [discriminate |].
  change (String c2 w2 ++ r) with (String c2 (w2 ++ r)). cbn iota.
  destruct (white3 c c1 c2) eqn:W3; [apply IH; [simpl; lia | exact B] |].
  discriminate.
Qed.

Lemma strip_prefix_some (p s r : string) :
  Str.strip_prefix p s = Some r -> s = p ++ r.
Proof.
  revert s. induction p as [| a p IH]; intros s H.
  - destruct s; simpl in H; injection H as <-; reflexivity.
  - destruct s as [| b s]; [discriminate |]. simpl in H.
    destruct (Ascii.eqb a b) eqn:E; [| discriminate].
    apply Ascii.eqb_eq in E. subst b. simpl. f_equal. apply IH, H.
Qed.

Lemma strip_prefix_append (p r : string) : Str.strip_prefix p (p ++ r) = Some r.
Proof.
  induction p as [| a p IH]; [destruct r; reflexivity |].
  simpl. rewrite Ascii.eqb_refl. exact IH.
Qed.

Lemma code_is (c : ascii) (n : N) :
  (Str.code c =? n)%N = true -> c = ascii_of_N n.
Proof.
  intros H. apply N.eqb_eq in H. rewrite <- H. unfold Str.code.
  symmetry. apply ascii_N_embedding.
Qed.

(** A fence has no white space at its head. *)
Lemma fence_not_white (r : string) :
  Str.skip_white ("```" ++ r) = "```" ++ r.
Proof. reflexivity. Qed.

Lemma close_block_sound (s block : string) :
  close_block s = Some block ->
  exists body ws rest,
    s = body ++ "}" ++ ws ++ "```" ++ rest
    /\ block = body ++ "}" /\ blank ws.
Proof.
  revert block. induction s as [| c r IH]; intros block H; [discriminate |].
  assert (Hrec : option_map (String c) (close_block r) = Some block ->
                 exists body ws rest,
                   String c r = body ++ "}" ++ ws ++ "```" ++ rest
                   /\ block = body ++ "}" /\ blank ws).
  { intros Hm. destruct (close_block r) as [b |] eqn:Hb; [| discriminate].
    injection Hm as <-.
    destruct (IH b eq_refl) as (body & ws & rest & E & Eb & B).
    exists (String c body), ws, rest. rewrite E, Eb.
    repeat split. exact B. }
  cbn [close_block] in H.
  destruct (Str.code c =? 125)%N eqn:Hc; [| exact (Hrec H)].
  destruct (Str.strip_prefix "```" (Str.skip_white r)) as [rest |] eqn:Hp;
    [| exact (Hrec H)].
  injection H as <-.
  apply code_is in Hc. subst c.
  destruct (skip_white_split r) as (ws & E & B & _).
  apply strip_prefix_some in Hp.
  rewrite Hp in E.
  exists "", ws, rest. rewrite E. repeat split. exact B.
Qed.

Lemma close_block_complete (body ws rest : string) :
  blank ws ->
  exists block, close_block (body ++ "}" ++ ws ++ "```" ++ rest) = Some block.
Proof.
  intros B. induction body as [| c body IH].
  - exists "}". change ("" ++ "}" ++ ws ++ "```" ++ rest)
      with (String "}" (ws ++ "```" ++ rest)).
    cbn [close_block].
    change (Str.code "}" =? 125)%N with true. cbn iota.
    rewrite (skip_white_blank _ _ B), fence_not_white, strip_prefix_append.
    reflexivity.
  - destruct IH as [block IH].
    change (String c body ++ "}" ++ ws ++ "```" ++ rest)
      with (String c (body ++ "}" ++ ws ++ "```" ++ rest)).
    cbn [close_block]. rewrite IH. cbn [option_map].
    destruct (Str.code c =? 125)%N; [| eauto].
    destruct (Str.strip_prefix "```" _); eauto.
Qed.

Lemma open_block_sound (s block : string) :
  open_block s = Some block ->
  exists ws1 body ws2 rest,
    s = "```json" ++ ws1 ++ block ++ ws2 ++ "```" ++ rest
    /\ block = "{" ++ body ++ "}" /\ blank ws1 /\ blank ws2.
Proof.
  unfold open_block. intros H.
  destruct (Str.strip_prefix "```json" s) as [r |] eqn:Hp; [| discriminate].
  apply strip_prefix_some in Hp.
  destruct (skip_white_split r) as (ws1 & E1 & B1 & _).
  destruct (Str.skip_white r) as [| c r']; [discriminate |].
  destruct (Str.code c =? 123)%N eqn:Hc; [| discriminate].
  apply code_is in Hc. subst c.
  destruct (close_block r') as [b |] eqn:Hb; [| discriminate].
  injection H as <-.
  destruct (close_block_sound _ _ Hb) as (body & ws2 & rest & E & Eb & B2).
  exists ws1, body, ws2, rest. subst s r.
  split; [| repeat split; [rewrite Eb; reflexivity | exact B1 | exact B2]].
  rewrite Eb, E. f_equal. f_equal.
  change (String (ascii_of_N 123) (body ++ "}" ++ ws2 ++ "```" ++ rest)
          = String (ascii_of_N 123) ((body ++ "}") ++ ws2 ++ "```" ++ rest)).
  rewrite append_assoc. reflexivity.
Qed.

Lemma brace_not_white (r : string) : Str.skip_white ("{" ++ r) = "{" ++ r.
Proof. destruct r as [| c1 [| c2 r2]]; reflexivity. Qed.

Lemma open_block_complete (ws1 body ws2 rest : string) :
  blank ws1 -> blank ws2 ->
  exists block,
    open_block ("```json" ++ ws1 ++ "{" ++ body ++ "}" ++ ws2 ++ "```" ++ rest)
    = Some block.
Proof.
  intros B1 B2. unfold open_block.
  rewrite strip_prefix_append, (skip_white_blank _ _ B1), brace_not_white.
  destruct (close_block_complete body ws2 rest B2) as [block Hb].
  exists (String "{" block).
  change ("{" ++ body ++ "}" ++ ws2 ++ "```" ++ rest)
    with (String "{" (body ++ "}" ++ ws2 ++ "```" ++ rest)).
  cbn iota. change (Str.code "{" =? 123)%N with true. cbn iota.
  rewrite Hb. reflexivity.
Qed.

Lemma match_block_cons (c : ascii) (r : string) :
  match_block (String c r)
  = match open_block (String c r) with
    | Some b => Some b
    | None => match_block r
    end.
Proof. reflexivity. Qed.

(** X1.  The pattern of line 102.  When [match_block] finds a block in a
    text, the text holds, somewhere, the fence [```json], white space,
    the block, white space and a closing fence, and the block starts with
    an opening and ends with a closing brace. *)
Theorem match_block_sound (text block : string) :
  match_block text = Some block ->
  exists before ws1 body ws2 after,
    text = before ++ "```json" ++ ws1 ++ block ++ ws2 ++ "```" ++ after
    /\ block = "{" ++ body ++ "}"
    /\ blank ws1 /\ blank ws2.
Proof.
  induction text as [| c r IH]; intros H.
  - discriminate.
  - rewrite match_block_cons in H.
    destruct (open_block (String c r)) as [b |] eqn:Ho.
    + injection H as ->.
      destruct (open_block_sound _ _ Ho) as (ws1 & body & ws2 & rest & E & R).
      exists "", ws1, body, ws2, rest. split; [exact E | exact R].
    + destruct (IH H) as (before & ws1 & body & ws2 & rest & E & R).
      exists (String c before), ws1, body, ws2, rest.
      split; [rewrite E; reflexivity | exact R].
Qed.

(** X2.  A text that holds a fenced block of that shape, anywhere, has a
    match: the error of line 103 is for the texts without one. *)
Theorem match_block_complete (before ws1 body ws2 after : string) :
  blank ws1 -> blank ws2 ->
  exists block,
    match_block (before ++ "```json" ++ ws1 ++ "{" ++ body ++ "}" ++ ws2
                 ++ "```" ++ after) = Some block.
Proof.
  intros B1 B2.
  destruct (open_block_complete ws1 body ws2 after B1 B2) as [b Hb].
  induction before as [| c before IH].
  - exists b. change ("" ++ ?x) with x.
    change ("```json" ++ ws1 ++ "{" ++ body ++ "}" ++ ws2 ++ "```" ++ after)
      with (String "`" ("``json" ++ ws1 ++ "{" ++ body ++ "}" ++ ws2 ++ "```" ++ after)) in *.
    rewrite match_block_cons, Hb. reflexivity.
  - destruct IH as [block IH].
    change (String c before ++ ?x) with (String c (before ++ x)).
    rewrite match_block_cons.
    destruct (open_block (String c _)) as [b' |];
      [exists b'; reflexivity | exists block; exact IH].
Qed.

Lemma trim_end_empty (s : string) :
  trim_end s = "" <-> s = "" \/ Str.skip_white s = "".
Proof.
  destruct s as [| c r]; [split; auto |].
  cbn [trim_end].
  destruct (Str.skip_white (String c r)) as [| c' r'].
  - split; auto.
  - split; [discriminate | intros [H | H]; discriminate].
Qed.

Lemma trim_empty (s : string) : trim s = "" <-> blank s.
Proof.
  unfold trim, blank. rewrite trim_end_empty.
  destruct (skip_white_split s) as (_ & _ & _ & I). rewrite I. tauto.
Qed.

End Fences.

(** * [callGemini]: when it returns *)

Section Service.

Variable JSON_parse : string -> exn + value.
Variable net : request -> answer.

Lemma field_of_value (v : value) (k : string) :
  Js.nullish v = false -> exists w, Js.field v k = inr w.
Proof. destruct v; intros H; try discriminate; eexists; reflexivity. Qed.

Lemma item_of_value (v : value) (i : nat) :
  Js.nullish v = false -> exists w, Js.item v i = inr w.
Proof. destruct v; intros H; try discriminate; eexists; reflexivity. Qed.

(** X3.  Line 98, the chain of optional lookups: on a body that is not
    [null] it never throws, whatever the shape of the body, and on [null]
    (and [undefined]) it throws the TypeError of the first lookup, which
    is not optional. *)
Theorem response_text_reads (data : value) :
  (Js.nullish data = false -> exists text, response_text data = inr text)
  /\ (Js.nullish data = true ->
      response_text data
      = inl (TypeError ("Cannot read properties of " ++ Js.nullish_text data
                        ++ " (reading 'candidates')"))).
Proof.
  split; intros H.
  - unfold response_text.
    destruct (field_of_value data "candidates" H) as [candidates ->].
    destruct (Js.nullish candidates) eqn:N1; [eauto |].
    destruct (item_of_value candidates 0 N1) as [first ->].
    destruct (Js.nullish first) eqn:N2; [eauto |].
    destruct (field_of_value first "content" N2) as [content ->].
    destruct (Js.nullish content) eqn:N3; [eauto |].
    destruct (field_of_value content "parts" N3) as [parts ->].
    destruct (Js.nullish parts) eqn:N4; [eauto |].
    destruct (item_of_value parts 0 N4) as [part ->].
    destruct (Js.nullish part) eqn:N5; [eauto |].
    apply field_of_value, N5.
  - destruct data; try discriminate; reflexivity.
Qed.

(** X4.  [callGemini] sends one request, whatever the answer, and returns
    a value exactly when the answer is ok and the first fenced block of
    its text parses: the value is then what the block parses to. *)
Theorem callGemini_returns (prompt apiKey : string) (analysis : value) :
  requests net (callGemini JSON_parse prompt apiKey)
  = [gemini_request prompt apiKey]
  /\ (settle net (callGemini JSON_parse prompt apiKey) = Fulfilled analysis
      <-> exists response,
            net (gemini_request prompt apiKey) = inr response
            /\ ok response = true
            /\ structured_payload JSON_parse response = Some analysis).
Proof.
  split; [apply callGemini_requests |].
  rewrite callGemini_outcome. unfold structured_payload.
  destruct (net (gemini_request prompt apiKey)) as [e | response].
  { split; [discriminate | intros (r & H & _); discriminate]. }
  transitivity (ok response = true
                /\ match json response with
                   | inr data =>
                       match response_text data with
                       | inr (VStr text) =>
                           match match_block text with
                           | Some block =>
                               match JSON_parse block with
                               | inr a => Some a
                               | inl _ => None
                               end
                           | None => None
                           end
                       | _ => None
                       end
                   | inl _ => None
                   end = Some analysis).
  2: { split.
       - intros [Hok Hp]. exists response. auto.
       - intros (r & Hr & Hok & Hp). injection Hr as <-. auto. }
  destruct (ok response).
  2: { split; [| intros [H _]; discriminate].
       destruct (text response); discriminate. }
  destruct (json response) as [e | data].
  { split; [discriminate | intros [_ H]; discriminate]. }
  destruct (response_text data) as [e | text].
  { split; [discriminate | intros [_ H]; discriminate]. }
  destruct text as [| | b | x | text | items | fields];
    try (split; [destruct (Js.truthy _); discriminate
                | intros [_ H]; discriminate]).
  destruct (Js.truthy (VStr text)) eqn:T.
  - destruct (match_block text) as [block |].
    + destruct (JSON_parse block) as [e | a].
      * split; [discriminate | intros [_ H]; discriminate].
      * split; [intros H; injection H as ->; auto
               | intros [_ H]; injection H as ->; reflexivity].
    + split; [discriminate | intros [_ H]; discriminate].
  - split; [discriminate |].
    intros [_ H]. exfalso.
    unfold Js.truthy in T. apply negb_false_iff, String.eqb_eq in T. subst text.
    discriminate.
Qed.

End Service.

(** * [analyzeCandidate]: the price history and the prompt *)

Section Analysis.

Variable JSON_parse : string -> exn + value.
Variable toUpperCase : string -> string.
Variable page : inputs.
Variables now1 now2 : Num.number.
Variable net : request -> answer.
Variable coin : Coin.t.
Variable d : direction.
Variable apiKey : string.

(** X5.  A price history that cannot be asked for or read is an error of
    the analysis, not a silent skip as a refused one is.  When the id of
    the coin has no text, the address cannot be built and
    [analyzeCandidate] throws before any request.  With the address built
    from the two readings of the clock: when the request fails, when the
    body of an ok response is not JSON, or when its closes cannot be
    taken, [analyzeCandidate] throws that very error, after the one
    request for the history. *)
Theorem unreadable_history_is_thrown (e : exn) :
  (chartUrl now1 now2 coin = inl e <-> Js.ToString (Coin.id coin) = inl e)
  /\ (chartUrl now1 now2 coin = inl e ->
      settle net
        (analyzeCandidate JSON_parse toUpperCase page now1 now2 coin d apiKey)
      = Rejected e
      /\ requests net
           (analyzeCandidate JSON_parse toUpperCase page now1 now2 coin d apiKey)
         = [])
  /\ (forall url,
         chartUrl now1 now2 coin = inr url ->
         net (GET url) = inl e
         \/ (exists chartRes,
                net (GET url) = inr chartRes
                /\ ok chartRes = true
                /\ (json chartRes = inl e
                    \/ exists chartData,
                         json chartRes = inr chartData
                         /\ closes_of chartData = inl e)) ->
         settle net
           (analyzeCandidate JSON_parse toUpperCase page now1 now2 coin d apiKey)
         = Rejected e
         /\ requests net
              (analyzeCandidate JSON_parse toUpperCase page now1 now2 coin d
                 apiKey)
            = [GET url]).
Proof.
  rewrite analyzeCandidate_outcome, analyzeCandidate_requests.
  split; [| split].
  - unfold chartUrl. destruct (Js.ToString (Coin.id coin)) as [e' | id].
    + reflexivity.
    + split; discriminate.
  - intros ->. split; reflexivity.
  - intros url ->.
    intros [-> | (chartRes & -> & -> & [-> | (chartData & -> & ->)])];
      split; reflexivity.
Qed.

Lemma second_of_each_length (prices closes : list value) :
  second_of_each prices = inr closes ->
  List.length closes = List.length prices
  /\ Forall (fun p => Js.nullish p = false) prices.
Proof.
  revert closes. induction prices as [| p rest IH]; intros closes H.
  - injection H as <-. split; [reflexivity | constructor].
  - cbn [second_of_each] in H.
    destruct (Js.item p 1) as [e | c] eqn:Hp; [discriminate |].
    destruct (second_of_each rest) as [e | cs]; [discriminate |].
    injection H as <-. destruct (IH cs eq_refl) as [L F].
    split; [simpl; congruence |].
    constructor; [| exact F]. destruct p; try reflexivity; discriminate.
Qed.

Lemma second_of_each_reads (prices : list value) :
  Forall (fun p => Js.nullish p = false) prices ->
  exists closes, second_of_each prices = inr closes.
Proof.
  induction 1 as [| p rest Hp _ [cs IH]]; [exists []; reflexivity |].
  destruct (item_of_value p 1 Hp) as [c Hc].
  exists (c :: cs). cbn [second_of_each]. rewrite Hc, IH. reflexivity.
Qed.

(** X6.  Line 221.  The closes are taken, one for each point, exactly
    when the body has an array [prices] without a [null] in it; a point
    of any other shape counts, with the close [undefined].  So the 50 of
    line 223 counts the points of the history. *)
Theorem closes_of_points (chartData : value) :
  (forall closes,
      closes_of chartData = inr closes ->
      exists prices,
        Js.field chartData "prices" = inr (VArr prices)
        /\ List.length closes = List.length prices
        /\ Forall (fun p => Js.nullish p = false) prices)
  /\ (forall prices,
         Js.field chartData "prices" = inr (VArr prices) ->
         Forall (fun p => Js.nullish p = false) prices ->
         exists closes,
           closes_of chartData = inr closes
           /\ List.length closes = List.length prices).
Proof.
  unfold closes_of. split.
  - intros closes H.
    destruct (Js.field chartData "prices") as [e | v]; [discriminate |].
    destruct v as [| | b | x | s | prices | fields]; try discriminate.
    exists prices. split; [reflexivity |]. apply second_of_each_length, H.
  - intros prices -> F.
    destruct (second_of_each_reads prices F) as [closes Hc].
    exists closes. split; [exact Hc |]. apply (second_of_each_length _ _ Hc).
Qed.

(** The elements of an array can be joined when each of them is
    [undefined], [null] or has a text. *)
Lemma Array_join_made (sep : string) (items : list value) :
  (exists joined, Js.Array_join sep items = inr joined)
  <-> Forall (fun v => Js.nullish v = true \/ convertible v) items.
Proof.
  unfold Js.Array_join. split.
  - intros [joined H]. induction items as [| v rest IH] in joined, H |- *;
      [constructor |].
    rewrite texts_cons in H.
    destruct (Js.nullish v) eqn:N.
    + destruct (Js.texts Js.ToString rest) as [e | ss] eqn:R; [discriminate |].
      constructor; [left; exact N |]. eapply IH. reflexivity.
    + destruct (Js.ToString v) as [e | s] eqn:T; [discriminate |].
      destruct (Js.texts Js.ToString rest) as [e | ss] eqn:R; [discriminate |].
      constructor; [right; exists s; exact T |]. eapply IH. reflexivity.
  - induction 1 as [| v rest Hv _ IH]; [eexists; reflexivity |].
    rewrite texts_cons.
    destruct (Js.texts Js.ToString rest) as [e | ss];
      [destruct IH; discriminate |].
    destruct (Js.nullish v) eqn:N; [eexists; reflexivity |].
    destruct Hv as [Hv | [s Hs]]; [discriminate |].
    rewrite Hs. eexists. reflexivity.
Qed.

(** X7.  Lines 226 to 231.  The prompt can be built exactly when the
    symbol of the coin is a string, its price and its 24h change are
    Numbers, and each of the last 100 closes is [undefined], [null] or has
    a text; a coin that passed the filter with its change given as the
    text of a number has no prompt.  The reasoning service is asked only
    about coins of that kind. *)
Theorem prompt_needs_typed_fields (closes : list value) :
  ((exists prompt, prompt_for toUpperCase coin d closes = inr prompt)
   <-> (exists s x y,
           Coin.symbol coin = VStr s
           /\ Coin.current_price coin = VNum x
           /\ Coin.price_change_percentage_24h coin = VNum y)
       /\ Forall (fun v => Js.nullish v = true \/ convertible v)
            (slice_last 100 closes))
  /\ (forall url body,
         In (POST url body)
           (requests net
              (analyzeCandidate JSON_parse toUpperCase page now1 now2 coin d
                 apiKey)) ->
         exists s x y,
           Coin.symbol coin = VStr s
           /\ Coin.current_price coin = VNum x
           /\ Coin.price_change_percentage_24h coin = VNum y).
Proof.
  assert (typed : forall closes prompt,
             prompt_for toUpperCase coin d closes = inr prompt ->
             (exists s x y,
                 Coin.symbol coin = VStr s
                 /\ Coin.current_price coin = VNum x
                 /\ Coin.price_change_percentage_24h coin = VNum y)
             /\ exists joined,
                  Js.Array_join ", " (slice_last 100 closes) = inr joined).
  { clear closes. intros closes prompt H. unfold prompt_for in H.
    destruct (Coin.symbol coin) as [| | b | x | s | l | l]; try discriminate.
    destruct (Coin.current_price coin) as [| | b | x | s' | l | l];
      try discriminate.
    destruct (Coin.price_change_percentage_24h coin)
      as [| | b | y | s' | l | l]; try discriminate.
    cbn [call_toUpperCase call_toFixed] in H.
    destruct (Js.Array_join ", " (slice_last 100 closes)) as [e | joined];
      [discriminate |].
    split; [exists s, x, y; repeat split | exists joined; reflexivity]. }
  split; [split |].
  - intros [prompt H]. destruct (typed _ _ H) as [T J].
    split; [exact T | apply (Array_join_made ", "), J].
  - intros [(s & x & y & Hs & Hx & Hy) J].
    apply (Array_join_made ", ") in J. destruct J as [joined J].
    unfold prompt_for. rewrite Hs, Hx, Hy.
    cbn [call_toUpperCase call_toFixed]. rewrite J. eexists. reflexivity.
  - intros url body H. rewrite analyzeCandidate_requests in H.
    destruct (chartUrl now1 now2 coin) as [e | address]; [destruct H |].
    destruct H as [H | H]; [discriminate |].
    destruct (net (GET address)) as [e | chartRes]; [destruct H |].
    destruct (ok chartRes); [| destruct H].
    destruct (json chartRes) as [e | chartData]; [destruct H |].
    destruct (closes_of chartData) as [e | cs]; [destruct H |].
    destruct (List.length cs <? 50)%nat; [destruct H |].
    destruct (prompt_for toUpperCase coin d cs) as [e | prompt] eqn:Hp;
      [destruct H |].
    exact (proj1 (typed _ _ Hp)).
Qed.

End Analysis.

(** * The click handler: the key, the market list, the candidates *)

Section Clicks.

Variable JSON_parse : string -> exn + value.
Variable toUpperCase : string -> string.
Variable page : inputs.
Variable Date_now : nat -> Num.number.

(** X11.  Lines 115 to 119.  A key of white space only, or none, stops
    the handler at the alert, with the output of the run before left as
    it was; any other key lets it go on without an alert. *)
Theorem blank_key_stops (before : list node) (net : request -> answer)
  (nets : nat -> request -> answer) :
  (blank (geminiKey page) ->
   run JSON_parse toUpperCase page Date_now before net nets
   = {| alerts := ["Please enter your Gemini API key!"];
        outputDiv := before |})
  /\ (~ blank (geminiKey page) ->
      alerts (run JSON_parse toUpperCase page Date_now before net nets) = []).
Proof.
  unfold run, GEMINI_API_KEY. split; intros H.
  - apply trim_empty in H. rewrite H. reflexivity.
  - destruct (String.eqb (trim (geminiKey page)) "") eqn:E.
    + apply String.eqb_eq, trim_empty in E. contradiction.
    + destruct (settle net (select page)) as [[| c l] | e]; reflexivity.
Qed.

Lemma key_given : ~ blank (geminiKey page) ->
  String.eqb (GEMINI_API_KEY page) "" = false.
Proof.
  intros H. destruct (String.eqb (GEMINI_API_KEY page) "") eqn:E; [| reflexivity].
  apply String.eqb_eq, trim_empty in E. contradiction.
Qed.

Lemma select_outcome (net : request -> answer) :
  settle net (select page)
  = match net (GET (marketsUrl page)) with
    | inl e => Rejected e
    | inr marketsRes =>
        if ok marketsRes then
          match json marketsRes with
          | inl e => Rejected e
          | inr topCryptos =>
              match market_list topCryptos with
              | inl e => Rejected e
              | inr entries =>
                  match allCandidates entries
                          (TextNum.parseFloat_string (momentumThreshold page))
                  with
                  | inl e => Rejected e
                  | inr candidates => Fulfilled candidates
                  end
              end
          end
        else
          Rejected (Error ("CoinGecko API error ("
                           ++ NumText.Number_toString
                                (Num.of_Z (status marketsRes)) ++ ")"))
    end.
Proof.
  unfold select. fold (marketsUrl page).
  rewrite settle_bind, settle_fetch.
  destruct (net (GET (marketsUrl page))) as [e | marketsRes]; [reflexivity |].
  destruct (ok marketsRes); cbn [negb]; [| reflexivity].
  rewrite settle_bind, settle_attempt.
  destruct (json marketsRes) as [e | topCryptos]; [reflexivity |].
  rewrite settle_bind, settle_attempt.
  destruct (market_list topCryptos) as [e | entries]; [reflexivity |].
  rewrite settle_attempt. reflexivity.
Qed.

(** X12.  Steps 1 and 2 under the [catch] of line 202.  When the
    candidates cannot be had (the request for the market list fails, the
    answer is not ok, its body is not JSON or is not an array, or a
    filter throws on one of its entries), the handler ends with one line,
    ["A global error occurred: "] and the message, in place of what the
    output held; for an answer that is not ok the message gives its
    status. *)
Theorem market_failure_is_global (before : list node) (net : request -> answer)
  (nets : nat -> request -> answer) (e : exn) :
  ~ blank (geminiKey page) ->
  net (GET (marketsUrl page)) = inl e
  \/ (exists marketsRes,
         net (GET (marketsUrl page)) = inr marketsRes
         /\ ((ok marketsRes = false
              /\ e = Error ("CoinGecko API error ("
                            ++ NumText.Number_toString
                                 (Num.of_Z (status marketsRes)) ++ ")"))
             \/ (ok marketsRes = true
                 /\ (json marketsRes = inl e
                     \/ exists topCryptos,
                          json marketsRes = inr topCryptos
                          /\ (market_list topCryptos = inl e
                              \/ exists entries,
                                   market_list topCryptos = inr entries
                                   /\ allCandidates entries
                                        (TextNum.parseFloat_string
                                           (momentumThreshold page))
                                      = inl e))))) ->
  settle net (select page) = Rejected e
  /\ run JSON_parse toUpperCase page Date_now before net nets
     = {| alerts := [];
          outputDiv :=
            [error_message ("A global error occurred: " ++ message e)] |}.
Proof.
  intros K H.
  assert (S : settle net (select page) = Rejected e).
  { rewrite select_outcome.
    destruct H
      as [-> | (marketsRes & -> & [[-> ->]
                                  | [-> [-> | (t & -> & [-> | (l & -> & ->)])]]])];
      reflexivity. }
  split; [exact S |].
  unfold run. rewrite (key_given K), S. reflexivity.
Qed.

(** A filter gets past the entries that can be compared. *)
Lemma filter_by_reads (test : value -> exn + bool) (entries : list value) :
  (forall change x, Js.ToNumber change = inr x -> exists b, test change = inr b) ->
  Forall comparable entries ->
  exists kept, filter_by test entries = inr kept.
Proof.
  intros T. induction 1 as [| c rest (change & x & F & N) _ [kept IH]];
    [exists []; reflexivity |].
  cbn [filter_by]. rewrite F. destruct (T change x N) as [b ->].
  rewrite IH. eexists. reflexivity.
Qed.

(** It throws at the first entry whose change cannot be read or tested. *)
Lemma filter_by_fails (test : value -> exn + bool) (good rest : list value)
  (bad : value) (e : exn) :
  (forall change x, Js.ToNumber change = inr x -> exists b, test change = inr b) ->
  Forall comparable good ->
  (Js.field bad "price_change_percentage_24h" = inl e
   \/ exists change,
        Js.field bad "price_change_percentage_24h" = inr change
        /\ test change = inl e) ->
  filter_by test (good ++ bad :: rest) = inl e.
Proof.
  intros T G B. induction G as [| c good (change & x & F & N) _ IH].
  - cbn [app filter_by]. destruct B as [-> | (change & -> & ->)]; reflexivity.
  - cbn [app filter_by]. rewrite F. destruct (T change x N) as [b ->].
    rewrite IH. reflexivity.
Qed.

Lemma gt_tests (threshold : Num.number) (change : value) (x : Num.number) :
  Js.ToNumber change = inr x -> exists b, Js.gt change threshold = inr b.
Proof. intros H. unfold Js.gt. rewrite H. eauto. Qed.

Lemma lt_tests (threshold : Num.number) (change : value) (x : Num.number) :
  Js.ToNumber change = inr x -> exists b, Js.lt change threshold = inr b.
Proof. intros H. unfold Js.lt. rewrite H. eauto. Qed.

Lemma allCandidates_reads (entries : list value) (threshold : Num.number) :
  Forall comparable entries ->
  exists candidates, allCandidates entries threshold = inr candidates.
Proof.
  intros F. unfold allCandidates.
  destruct (filter_by_reads (fun change => Js.gt change threshold) entries
              (gt_tests threshold) F) as [bulls ->].
  destruct (filter_by_reads (fun change => Js.lt change (Num.neg threshold))
              entries (lt_tests (Num.neg threshold)) F) as [bears ->].
  eexists. reflexivity.
Qed.

(** X13.  Lines 133 and 134 read and compare the 24h change of the
    entries of the market list one after the other.  The first entry that
    is [null], or whose change has no primitive value, makes the filter
    of line 133 throw, and the whole run ends with the one global error
    line, whatever the other entries are; the error names the entry, or
    is that of the conversion.  When every entry can be compared, the
    candidates are selected. *)
Theorem null_entry_fails_the_run (before : list node) (net : request -> answer)
  (nets : nat -> request -> answer) (marketsRes : response)
  (entries : list value) :
  ~ blank (geminiKey page) ->
  net (GET (marketsUrl page)) = inr marketsRes ->
  ok marketsRes = true ->
  json marketsRes = inr (VArr entries) ->
  (forall good bad rest,
      entries = (good ++ bad :: rest)%list ->
      Forall comparable good ->
      (Js.nullish bad = true ->
       outputDiv (run JSON_parse toUpperCase page Date_now before net nets)
       = [error_message
            ("A global error occurred: Cannot read properties of "
             ++ Js.nullish_text bad
             ++ " (reading 'price_change_percentage_24h')")])
      /\ (forall change e,
             Js.field bad "price_change_percentage_24h" = inr change ->
             Js.ToNumber change = inl e ->
             outputDiv (run JSON_parse toUpperCase page Date_now before net nets)
             = [error_message ("A global error occurred: " ++ message e)]))
  /\ (Forall comparable entries ->
      exists candidates,
        allCandidates entries
          (TextNum.parseFloat_string (momentumThreshold page))
        = inr candidates
        /\ settle net (select page) = Fulfilled candidates).
Proof.
  intros K Hn Ho Hj.
  assert (Thrown : forall e,
             allCandidates entries
               (TextNum.parseFloat_string (momentumThreshold page)) = inl e ->
             outputDiv (run JSON_parse toUpperCase page Date_now before net nets)
             = [error_message ("A global error occurred: " ++ message e)]).
  { intros e E. unfold run.
    rewrite (key_given K), select_outcome, Hn, Ho, Hj.
    cbn [market_list]. rewrite E. reflexivity. }
  split.
  - intros good bad rest -> G. split.
    + intros N.
      rewrite (Thrown (TypeError ("Cannot read properties of "
                                  ++ Js.nullish_text bad
                                  ++ " (reading 'price_change_percentage_24h')")));
        [reflexivity |].
      unfold allCandidates.
      rewrite (filter_by_fails _ good rest bad
                 (TypeError ("Cannot read properties of "
                             ++ Js.nullish_text bad
                             ++ " (reading 'price_change_percentage_24h')")));
        [reflexivity | apply gt_tests | exact G |].
      left. destruct bad; try discriminate; reflexivity.
    + intros change e F T. apply Thrown.
      unfold allCandidates. rewrite (filter_by_fails _ good rest bad e);
        [reflexivity | apply gt_tests | exact G |].
      right. exists change. split; [exact F |]. unfold Js.gt. rewrite T.
      reflexivity.
  - intros F.
    destruct (allCandidates_reads entries
                (TextNum.parseFloat_string (momentumThreshold page)) F)
      as [candidates E].
    exists candidates. split; [exact E |].
    rewrite select_outcome, Hn, Ho, Hj. cbn [market_list]. rewrite E.
    reflexivity.
Qed.

Lemma filter_none {A : Type} (f : A -> bool) (l : list A) :
  (forall x, f x = false) -> filter f l = [].
Proof.
  intros H. induction l as [| x l IH]; [reflexivity |].
  simpl. rewrite H. exact IH.
Qed.

Lemma neg_NaN (t : Num.number) : Num.isNaN t = true -> Num.isNaN (Num.neg t) = true.
Proof. destruct t; intros H; try discriminate; reflexivity. Qed.

Lemma passes_none (test : value -> exn + bool) :
  (forall change, test change <> inr true) ->
  forall c, passes test c = false.
Proof.
  intros H c. unfold passes.
  destruct (Js.field c "price_change_percentage_24h") as [e | change];
    [reflexivity |].
  specialize (H change). destruct (test change) as [e | []]; congruence.
Qed.

Lemma no_candidates_at_NaN (entries : list value) (threshold : Num.number)
  (candidates : list candidate) :
  Num.isNaN threshold = true ->
  allCandidates entries threshold = inr candidates ->
  candidates = [].
Proof.
  intros HN H.
  destruct (allCandidates_filters _ _ _ H) as (bulls & bears & B & R & ->).
  rewrite (filter_by_kept _ _ _ B), (filter_by_kept _ _ _ R).
  rewrite !filter_none; [reflexivity | |]; apply passes_none; intros change.
  - unfold Js.lt. destruct (Js.ToNumber change) as [e | x]; [discriminate |].
    rewrite (ltb_NaN_r _ _ (neg_NaN _ HN)). discriminate.
  - unfold Js.gt. destruct (Js.ToNumber change) as [e | x]; [discriminate |].
    rewrite (ltb_NaN_l _ _ HN). discriminate.
Qed.

(** X14.  Line 132.  A threshold that does not parse (an emptied field,
    a word) is NaN, to which nothing compares: whatever the market list
    holds, there is no candidate.  When every entry can be compared the
    handler ends with the message of line 141; when a filter throws, with
    the global error line.  No analysis is started. *)
Theorem unparsed_threshold_finds_nothing (before : list node)
  (net : request -> answer) (nets : nat -> request -> answer)
  (marketsRes : response) (topCryptos : value) (entries : list value) :
  ~ blank (geminiKey page) ->
  net (GET (marketsUrl page)) = inr marketsRes ->
  ok marketsRes = true ->
  json marketsRes = inr topCryptos ->
  market_list topCryptos = inr entries ->
  Num.isNaN (TextNum.parseFloat_string (momentumThreshold page)) = true ->
  (forall candidates,
      allCandidates entries (TextNum.parseFloat_string (momentumThreshold page))
      = inr candidates ->
      candidates = [])
  /\ (Forall comparable entries ->
      settle net (select page) = Fulfilled []
      /\ run JSON_parse toUpperCase page Date_now before net nets
         = {| alerts := [];
              outputDiv :=
                [error_message "No coins found matching the momentum threshold. Try widening your criteria."] |})
  /\ (forall e,
         allCandidates entries
           (TextNum.parseFloat_string (momentumThreshold page)) = inl e ->
         settle net (select page) = Rejected e
         /\ run JSON_parse toUpperCase page Date_now before net nets
            = {| alerts := [];
                 outputDiv :=
                   [error_message
                      ("A global error occurred: " ++ message e)] |}).
Proof.
  intros K Hn Ho Hj Hm HN.
  split; [intros candidates; apply no_candidates_at_NaN, HN |].
  split.
  - intros F.
    destruct (allCandidates_reads entries
                (TextNum.parseFloat_string (momentumThreshold page)) F)
      as [candidates E].
    assert (S : settle net (select page) = Fulfilled []).
    { rewrite select_outcome, Hn, Ho, Hj, Hm, E.
      rewrite (no_candidates_at_NaN _ _ _ HN E). reflexivity. }
    split; [exact S |].
    unfold run. rewrite (key_given K), S. reflexivity.
  - intros e E.
    assert (S : settle net (select page) = Rejected e).
    { rewrite select_outcome, Hn, Ho, Hj, Hm, E. reflexivity. }
    split; [exact S |].
    unfold run. rewrite (key_given K), S. reflexivity.
Qed.

Lemma disjoint_filters {A : Type} (f g : A -> bool) (l : list A) :
  (forall x, f x = true -> g x = false) ->
  (List.length (filter f l) + List.length (filter g l) <= List.length l)%nat.
Proof.
  intros H. induction l as [| x l IH]; [simpl; lia |].
  simpl. destruct (f x) eqn:F.
  - rewrite (H x F). simpl. lia.
  - destruct (g x); simpl; lia.
Qed.

Lemma filter_length_le {A : Type} (f : A -> bool) (l : list A) :
  (List.length (filter f l) <= List.length l)%nat.
Proof.
  induction l as [| x l IH]; [simpl; lia |].
  simpl. destruct (f x); simpl; lia.
Qed.

(** X15.  The number of line 146.  There are at most twice as many
    candidates as entries in the market list, and at most as many when
    the threshold is not negative: no entry is then both above the
    threshold and below its opposite. *)
Theorem candidates_count (topCryptos : list value) (threshold : Num.number)
  (candidates : list candidate) :
  allCandidates topCryptos threshold = inr candidates ->
  (List.length candidates <= 2 * List.length topCryptos)%nat
  /\ (not_negative threshold ->
      (List.length candidates <= List.length topCryptos)%nat).
Proof.
  intros H.
  destruct (allCandidates_filters _ _ _ H) as (bulls & bears & B & R & ->).
  rewrite (filter_by_kept _ _ _ B), (filter_by_kept _ _ _ R).
  unfold candidate. rewrite length_app, !length_map. split.
  - pose proof (filter_length_le
                  (passes (fun change => Js.gt change threshold)) topCryptos).
    pose proof (filter_length_le
                  (passes (fun change => Js.lt change (Num.neg threshold)))
                  topCryptos).
    lia.
  - intros Hn. apply disjoint_filters.
    intros c Hc. unfold passes in *.
    destruct (Js.field c "price_change_percentage_24h") as [e | change];
      [reflexivity |].
    unfold Js.gt in Hc. unfold Js.lt.
    destruct (Js.ToNumber change) as [e | x]; [reflexivity |].
    apply above_not_below; assumption.
Qed.

End Clicks.

(** * Step 4: the cards and the closing line *)

Section Cards.

Variable JSON_parse : string -> exn + value.
Variable toUpperCase : string -> string.
Variable page : inputs.
Variable Date_now : nat -> Num.number.

Lemma cards_in_app (a b : list node) :
  cards_in (a ++ b) = (cards_in a ++ cards_in b)%list.
Proof. apply flat_map_app. Qed.

Lemma cards_in_rejections (results : list (outcome (option Trade.t))) :
  cards_in (rejections results) = [].
Proof.
  induction results as [| [a | reason] rest IH]; [reflexivity | exact IH |].
  exact IH.
Qed.

(** A group of setups that was appended whole holds the cards of its
    trades. *)
Lemma setups_made (title : string) (trades : list Trade.t) :
  snd (setups title trades) = None ->
  exists cards,
    cards_of trades = inr cards
    /\ cards_in (fst (setups title trades)) = cards.
Proof.
  destruct (setups_cases title trades)
    as [(-> & ->) | [(cards & _ & Hc & ->) | (e & _ & _ & ->)]]; cbn [fst snd].
  - intros _. exists []. split; reflexivity.
  - intros _. exists cards. split; [exact Hc |].
    cbn [cards_in flat_map]. rewrite !app_nil_r. reflexivity.
  - discriminate.
Qed.

(** When step 4 ends without an error, the cards of the display are those
    of the long plans, then those of the short ones. *)
Lemma cards_in_display (results : list (outcome (option Trade.t))) :
  snd (display results) = None ->
  exists long short,
    cards_of (filter (fun t => String.eqb (Trade.direction t) "Long")
                (validTrades results)) = inr long
    /\ cards_of (filter (fun t => String.eqb (Trade.direction t) "Short")
                   (validTrades results)) = inr short
    /\ cards_in (fst (display results)) = (long ++ short)%list.
Proof.
  intros Hend.
  destruct (display_cases results)
    as [(e & _ & E) | [(e & _ & _ & E) | (L & S & E)]];
    rewrite E in Hend |- *; try discriminate.
  destruct (setups_made _ _ L) as (long & Hl & Cl).
  destruct (setups_made _ _ S) as (short & Hs & Cs).
  exists long, short. split; [exact Hl |]. split; [exact Hs |].
  cbn [fst]. rewrite !cards_in_app, Cl, Cs, cards_in_rejections.
  destruct (validTrades results); cbn [cards_in flat_map app];
    rewrite ?app_nil_r; reflexivity.
Qed.

Lemma partition_permutation {A : Type} (f g : A -> bool) (l : list A) :
  (forall x, In x l -> f x = negb (g x)) ->
  Permutation (filter f l ++ filter g l) l.
Proof.
  induction l as [| x l IH]; intros H; [constructor |].
  assert (IH' : Permutation (filter f l ++ filter g l) l).
  { apply IH. intros y Hy. apply H. right. exact Hy. }
  cbn [filter]. rewrite (H x (or_introl eq_refl)).
  destruct (g x); cbn [negb].
  - apply Permutation_sym, Permutation_cons_app, Permutation_sym, IH'.
  - cbn [app]. constructor. exact IH'.
Qed.

(** The plans of a run are long or short, after their candidates. *)
Lemma plans_of_run (nets : nat -> request -> answer)
  (candidates : list candidate) (t : Trade.t) :
  In t (validTrades
          (outcomes nets 0
             (analysisPromises JSON_parse toUpperCase page Date_now candidates))) ->
  exists i c,
    nth_error candidates i = Some c
    /\ settle (nets i)
         (analyzeCandidate JSON_parse toUpperCase page
            (Date_now (2 * i)) (Date_now (2 * i + 1)) (fst c) (snd c)
            (GEMINI_API_KEY page))
       = Fulfilled (Some t)
    /\ Trade.direction t
       = match snd c with bullish => "Long" | bearish => "Short" end.
Proof.
  intros H. apply In_validTrades in H.
  destruct (result_of_some _ _ _ _ _ _ _ H) as (i & c & Hc & Ho).
  exists i, c. split; [exact Hc |]. split; [exact Ho |].
  destruct (emitted_from_verdict _ _ _ _ _ _ _ _ _ _ Ho) as (analysis & _ & Hp).
  destruct (plan_emitted _ _ _ _ _ _ Hp)
    as (isValid & a_entry & a_stopLoss & rationale & symbol & entry & sl & _ & _
        & _ & _ & _ & _ & _ & _ & _ & _ & _ & _ & ->).
  reflexivity.
Qed.

Lemma plans_partition (nets : nat -> request -> answer)
  (candidates : list candidate) :
  Permutation
    (filter (fun t => String.eqb (Trade.direction t) "Long")
       (validTrades
          (outcomes nets 0
             (analysisPromises JSON_parse toUpperCase page Date_now candidates)))
     ++ filter (fun t => String.eqb (Trade.direction t) "Short")
          (validTrades
             (outcomes nets 0
                (analysisPromises JSON_parse toUpperCase page Date_now
                   candidates))))
    (validTrades
       (outcomes nets 0
          (analysisPromises JSON_parse toUpperCase page Date_now candidates))).
Proof.
  apply partition_permutation.
  intros t Ht. destruct (plans_of_run _ _ _ Ht) as (i & c & _ & _ & ->).
  destruct (snd c); reflexivity.
Qed.

Lemma cards_of_app (l1 l2 : list Trade.t) (c1 c2 : list card) :
  cards_of l1 = inr c1 -> cards_of l2 = inr c2 ->
  cards_of (l1 ++ l2) = inr (c1 ++ c2)%list.
Proof.
  intros H1 H2. apply cards_of_each. apply Forall2_app; apply cards_of_each;
    assumption.
Qed.



(** X17.  Lines 193 to 195.  The only log line of the final output is the
    closing one, and it is there exactly when no analysis returned a trade
    plan, also when analyses failed and their errors follow it; the output
    has no card then.  When no card throws, it is there exactly when the
    output has no card. *)
Theorem closing_line (before : list node) (net : request -> answer)
  (nets : nat -> request -> answer) (candidates : list candidate) :
  ~ blank (geminiKey page) ->
  settle net (select page) = Fulfilled candidates ->
  candidates <> [] ->
  (forall text,
      In (log_message text)
        (outputDiv (run JSON_parse toUpperCase page Date_now before net nets)) ->
      text = "Analysis complete. No high-confluence ICT setups found based on the current rules.")
  /\ (In (log_message "Analysis complete. No high-confluence ICT setups found based on the current rules.")
        (outputDiv (run JSON_parse toUpperCase page Date_now before net nets))
      <-> validTrades
            (outcomes nets 0
               (analysisPromises JSON_parse toUpperCase page Date_now
                  candidates)) = [])
  /\ (validTrades
        (outcomes nets 0
           (analysisPromises JSON_parse toUpperCase page Date_now candidates))
      = [] ->
      cards_in
        (outputDiv (run JSON_parse toUpperCase page Date_now before net nets))
      = [])
  /\ (snd (display
             (outcomes nets 0
                (analysisPromises JSON_parse toUpperCase page Date_now
                   candidates))) = None ->
      (In (log_message "Analysis complete. No high-confluence ICT setups found based on the current rules.")
         (outputDiv (run JSON_parse toUpperCase page Date_now before net nets))
       <-> cards_in
             (outputDiv
                (run JSON_parse toUpperCase page Date_now before net nets))
           = [])).
Proof.
  intros K Hs Hc.
  rewrite (run_display _ _ _ _ _ _ _ _ (key_given page K) Hs Hc).
  set (results := outcomes nets 0
                    (analysisPromises JSON_parse toUpperCase page Date_now
                       candidates)).
  assert (L : forall text,
             In (log_message text) (caught (display results))
             <-> validTrades results = []
                 /\ text = "Analysis complete. No high-confluence ICT setups found based on the current rules.").
  { intros text. rewrite In_caught.
    destruct (display_cases results)
      as [(e & E1 & E) | [(e & _ & E2 & E) | (_ & _ & E)]]; rewrite E;
      cbn [fst snd].
    - assert (T : validTrades results <> []).
      { intros T. rewrite T in E1. discriminate. }
      split.
      + intros [H | (e' & _ & H)]; [| discriminate].
        destruct (setups_logs _ _ _ H).
      + intros [T' _]. contradiction.
    - assert (T : validTrades results <> []).
      { intros T. rewrite T in E2. discriminate. }
      split.
      + intros [H | (e' & _ & H)]; [| discriminate].
        apply in_app_iff in H. destruct H as [H | H];
          destruct (setups_logs _ _ _ H).
      + intros [T' _]. contradiction.
    - rewrite !in_app_iff. split.
      + intros [[H | [H | [H | H]]] | (e' & He & _)]; [| | | | discriminate].
        * destruct (setups_logs _ _ _ H).
        * destruct (setups_logs _ _ _ H).
        * destruct (validTrades results); simpl in H; [| contradiction].
          destruct H as [H | []]. injection H as <-. auto.
        * apply rejections_nodes in H. destruct H as [t H]. discriminate.
      + intros [-> ->]. left. right. right. left. left. reflexivity. }
  assert (Empty : validTrades results = [] ->
                  cards_in (caught (display results)) = []).
  { intros T. unfold display. rewrite T. cbn [filter setups caught app].
    apply cards_in_rejections. }
  split; [intros text H; apply L in H; apply H |].
  split; [rewrite L; split; [intros [E _]; exact E | auto] |].
  split; [exact Empty |].
  intros Hend. rewrite L. split; [intros [E _]; auto |].
  intros E. split; [| reflexivity].
  destruct (cards_in_display results Hend) as (long & short & Hl & Hsh & C).
  assert (Out : cards_in (caught (display results)) = (long ++ short)%list).
  { destruct (display results) as [out ended]. cbn [snd] in Hend. subst ended.
    exact C. }
  rewrite Out in E. apply app_eq_nil in E. destruct E as [-> ->].
  pose proof (cards_of_app _ _ _ _ Hl Hsh) as All. apply cards_of_each in All.
  inversion All as [Nil |]. 
  pose proof (plans_partition nets candidates) as P. fold results in P.
  rewrite <- Nil in P. apply Permutation_nil in P. exact P.
Qed.

End Cards.

(** * Settings and theme *)
Section Settings.

Lemma or_else_some (s fallback : string) :
  or_else (Some s) fallback = if String.eqb s "" then fallback else s.
Proof. reflexivity. Qed.

(** X18.  [saveSettings] then [loadSettings].  What was in the input
    elements comes back, but for an emptied field, which comes back as its
    default: 10, 3, 50 and 3; the key comes back as it was.  The stored
    theme is not touched. *)
Theorem settings_round_trip (page : inputs) (store : storage) :
  fst (loadSettings (saveSettings page store))
  = {| geminiKey := geminiKey page;
       riskAmount :=
         if String.eqb (riskAmount page) "" then "10" else riskAmount page;
       rrRatio := if String.eqb (rrRatio page) "" then "3" else rrRatio page;
       coinCount :=
         if String.eqb (coinCount page) "" then "50" else coinCount page;
       momentumThreshold :=
         if String.eqb (momentumThreshold page) "" then "3"
         else momentumThreshold page |}
  /\ snd (loadSettings (saveSettings page store)) = snd (loadSettings store).
Proof.
  split; [| reflexivity].
  unfold loadSettings, saveSettings, getItem, setItem. cbn [fst].
  cbn [String.eqb Ascii.eqb Bool.eqb]. cbn [or_else].
  destruct (String.eqb (geminiKey page) "") eqn:E; [| reflexivity].
  apply String.eqb_eq in E. rewrite E. reflexivity.
Qed.

(** X19.  The theme.  After the toggle was changed to [isDarkMode],
    [loadSettings] sets the toggle to it again and the document to the
    same theme, also when the settings were saved in between; and the
    change leaves the stored settings as they were. *)
Theorem theme_round_trip (isDarkMode : bool) (page : inputs) (store : storage) :
  snd (loadSettings (snd (themeChanged isDarkMode store)))
  = {| checked := isDarkMode;
       data_theme := fst (themeChanged isDarkMode store) |}
  /\ snd (loadSettings (saveSettings page (snd (themeChanged isDarkMode store))))
     = {| checked := isDarkMode;
          data_theme := fst (themeChanged isDarkMode store) |}
  /\ fst (themeChanged isDarkMode store)
     = (if isDarkMode then "dark" else "light")
  /\ fst (loadSettings (snd (themeChanged isDarkMode store)))
     = fst (loadSettings store).
Proof. destruct isDarkMode; repeat split. Qed.

End Settings.

(** * The card of a trade plan *)

Section CardFacts.

Variable JSON_parse : string -> exn + value.
Variable toUpperCase : string -> string.
Variable page : inputs.
Variables now1 now2 : Num.number.
Variable net : request -> answer.
Variable coin : Coin.t.
Variable d : direction.
Variable apiKey : string.

(** The markup of a card holds the text of the notes between the label
    and the end of the paragraph. *)
Lemma card_notes (t : Trade.t) (c : card) :
  createTradeCard t = inr c ->
  exists notes before after,
    Js.ToString (Trade.notes t) = inr notes
    /\ innerHTML c
       = before ++ "><strong>AI Rationale:</strong> " ++ notes ++ "</p>"
         ++ after.
Proof.
  unfold createTradeCard.
  destruct (Js.ToString (Trade.name t)) as [e | name]; [discriminate |].
  destruct (Js.ToString (Trade.notes t)) as [e | notes]; [discriminate |].
  intros H. cbv zeta in H.
  lazymatch type of H with
  | inr ?made = inr _ =>
      assert (E : innerHTML c = innerHTML made) by (f_equal; congruence)
  end.
  rewrite E. clear E H. exists notes. cbn [innerHTML].
  lazymatch goal with
  | |- exists _ _, _ /\ String.concat "" ?l = _ =>
      let p := pieces_around notes l in
      lazymatch p with
      | (?before, ?after) =>
          lazymatch after with
          | "</p>" :: ?after' =>
              exists (String.concat "" (removelast before)),
                     (String.concat "" after');
              split; [reflexivity |];
              change l with (removelast before
                             ++ ["><strong>AI Rationale:</strong> ";
                                 notes; "</p>"]
                             ++ after')%list
          end
      end
  end.
  rewrite !concat_app, !concat_cons. simpl (String.concat "" []).
  rewrite append_empty_r, !append_assoc. reflexivity.
Qed.

Lemma plan_of_analysis (t : Trade.t) :
  settle net
    (analyzeCandidate JSON_parse toUpperCase page now1 now2 coin d apiKey)
  = Fulfilled (Some t) ->
  exists analysis rationale,
    verdict JSON_parse toUpperCase now1 now2 net coin d apiKey analysis
    /\ Js.field analysis "rationale" = inr rationale
    /\ Trade.notes t = rationale
    /\ Trade.name t = Coin.name coin
    /\ Trade.direction t
       = match d with bullish => "Long" | bearish => "Short" end.
Proof.
  intros H.
  destruct (emitted_from_verdict _ _ _ _ _ _ _ _ _ _ H) as (analysis & Hv & Hp).
  destruct (plan_emitted _ _ _ _ _ _ Hp)
    as (isValid & a_entry & a_stopLoss & rationale & symbol & entry & sl & _ & _
        & _ & Hr & _ & _ & _ & _ & _ & _ & _ & _ & ->).
  exists analysis, rationale. repeat split; assumption.
Qed.

(** X20.  Lines 60 to 79 on the plans of [analyzeCandidate].  The card of
    a plan can be made exactly when the name of its coin and the
    rationale of its verdict have a text; making it throws the error of
    the conversion otherwise, that of the name first.  The card of the
    plan of a bullish candidate has the class [trade-card long], that of
    a bearish one [trade-card short]: the lower-cased direction of the
    plan is one of the two the style sheet knows. *)
Theorem card_class (t : Trade.t) :
  settle net
    (analyzeCandidate JSON_parse toUpperCase page now1 now2 coin d apiKey)
  = Fulfilled (Some t) ->
  (forall c,
      createTradeCard t = inr c ->
      className c
      = match d with
        | bullish => "trade-card long"
        | bearish => "trade-card short"
        end)
  /\ ((exists c, createTradeCard t = inr c)
      <-> convertible (Coin.name coin) /\ convertible (Trade.notes t))
  /\ (forall e,
         createTradeCard t = inl e
         <-> Js.ToString (Coin.name coin) = inl e
             \/ (convertible (Coin.name coin)
                 /\ Js.ToString (Trade.notes t) = inl e)).
Proof.
  intros H. destruct (plan_of_analysis t H) as (_ & _ & _ & _ & _ & Hname & Hd).
  unfold convertible. rewrite <- Hname. unfold createTradeCard.
  destruct (Js.ToString (Trade.name t)) as [e1 | name];
    [| destruct (Js.ToString (Trade.notes t)) as [e2 | notes]].
  - split; [discriminate |]. split.
    + split; [intros [c Hc]; discriminate | intros [[s Hs] _]; discriminate].
    + intros e. split.
      * intros E. left. congruence.
      * intros [E | [[s Hs] _]]; [congruence | discriminate].
  - split; [discriminate |]. split.
    + split; [intros [c Hc]; discriminate | intros [_ [s Hs]]; discriminate].
    + intros e. split.
      * intros E. right. split; [eauto | congruence].
      * intros [E | [_ E]]; [discriminate | congruence].
  - split.
    + intros c Hc. injection Hc as <-. cbn [className]. rewrite Hd.
      destruct d; reflexivity.
    + split.
      * split; [intros _; split; eauto | intros _; eauto].
      * intros e. split; [discriminate |].
        intros [E | [_ E]]; discriminate.
Qed.

(** X21.  From the answer of the reasoning service to [innerHTML].  The
    rationale of the verdict is put into the markup of the card as it is,
    converted to a string and nothing more: nothing between line 106 and
    line 75 escapes it. *)
Theorem rationale_is_not_escaped (t : Trade.t) (c : card) :
  settle net
    (analyzeCandidate JSON_parse toUpperCase page now1 now2 coin d apiKey)
  = Fulfilled (Some t) ->
  createTradeCard t = inr c ->
  exists analysis rationale notes before after,
    verdict JSON_parse toUpperCase now1 now2 net coin d apiKey analysis
    /\ Js.field analysis "rationale" = inr rationale
    /\ Js.ToString rationale = inr notes
    /\ innerHTML c
       = before ++ "><strong>AI Rationale:</strong> " ++ notes ++ "</p>"
         ++ after.
Proof.
  intros H Hc.
  destruct (plan_of_analysis t H) as (analysis & rationale & Hv & Hr & Hn & _).
  destruct (card_notes t c Hc) as (notes & before & after & Ht & E).
  exists analysis, rationale, notes, before, after. rewrite <- Hn.
  split; [exact Hv |]. split; [rewrite Hn; exact Hr |].
  split; [exact Ht | exact E].
Qed.

End CardFacts.

(** * Concrete runs of these properties *)

Section MoreInstances.

Import Scenario Cases.

(** X1 on a reply with one fenced block. *)
Lemma match_block_sound_witness :
  match_block (fenced "{ verdict }") = Some "{ verdict }"
  /\ exists before ws1 body ws2 after,
       fenced "{ verdict }"
       = before ++ "```json" ++ ws1 ++ "{ verdict }" ++ ws2 ++ "```" ++ after
       /\ "{ verdict }" = "{" ++ body ++ "}"
       /\ blank ws1 /\ blank ws2.
Proof.
  split; [reflexivity |].
  apply (match_block_sound (fenced "{ verdict }") "{ verdict }").
  reflexivity.
Defined.

(** X2 on a reply with a line break on both sides of the block. *)
Lemma match_block_complete_witness :
  blank nl
  /\ exists block, match_block reply = Some block.
Proof.
  split; [reflexivity |].
  apply (match_block_complete "Here is the plan:" nl " verdict " nl " Good luck.");
    reflexivity.
Defined.

(** X5 on a coin whose id has no text, and on a network that is down. *)
Lemma unreadable_history_is_thrown_witness :
  chartUrl clock clock nameless = inl Js.unconvertible
  /\ settle offline
       (analyzeCandidate reads_nothing upper defaults clock clock nameless
          bullish "key")
     = Rejected Js.unconvertible
  /\ requests offline
       (analyzeCandidate reads_nothing upper defaults clock clock nameless
          bullish "key")
     = []
  /\ chartUrl clock clock x = inr (history x)
  /\ offline (GET (history x)) = inl (TypeError "Failed to fetch")
  /\ settle offline
       (analyzeCandidate reads_nothing upper defaults clock clock x bullish "key")
     = Rejected (TypeError "Failed to fetch")
  /\ requests offline
       (analyzeCandidate reads_nothing upper defaults clock clock x bullish "key")
     = [GET (history x)].
Proof.
  destruct (unreadable_history_is_thrown reads_nothing upper defaults clock
              clock offline nameless bullish "key" Js.unconvertible)
    as (_ & Id & _).
  destruct (unreadable_history_is_thrown reads_nothing upper defaults clock
              clock offline x bullish "key" (TypeError "Failed to fetch"))
    as (_ & _ & Net).
  destruct (Id eq_refl) as [I1 I2].
  destruct (Net (history x) eq_refl (or_introl eq_refl)) as [N1 N2].
  split; [reflexivity |]. split; [exact I1 |]. split; [exact I2 |].
  split; [reflexivity |]. split; [reflexivity |]. split; [exact N1 | exact N2].
Defined.

(** X8 on the verdict of scenario A, and on a verdict whose stop loss has
    no text. *)
Lemma verdict_decides_witness :
  verdict (reads (valid (num 100) (num 95))) upper clock clock (answering 50)
    x bullish "key" (valid (num 100) (num 95))
  /\ settle (answering 50)
       (analyzeCandidate (reads (valid (num 100) (num 95))) upper defaults
          clock clock x bullish "key")
     = Fulfilled (Some planA)
  /\ verdict (reads (valid (num 100) opaque)) upper clock clock (answering 50)
       x bullish "key" (valid (num 100) opaque)
  /\ settle (answering 50)
       (analyzeCandidate (reads (valid (num 100) opaque)) upper defaults
          clock clock x bullish "key")
     = Rejected Js.unconvertible.
Proof.
  assert (P100 : Js.parseFloat (num 100) = inr (Num.of_Z 100))
    by (vm_compute; reflexivity).
  assert (P95 : Js.parseFloat (num 95) = inr (Num.of_Z 95))
    by (vm_compute; reflexivity).
  destruct (verdict_decides (reads (valid (num 100) (num 95))) upper defaults
              clock clock (answering 50) x bullish "key"
              (valid (num 100) (num 95)) (VBool true) (num 100) (num 95)
              (VStr "Clear MSS on the 5min chart.")
              (scenario_verdict _ _ _ _) eq_refl eq_refl eq_refl eq_refl)
    as (symbol & Hsym & Parsed & _).
  destruct (verdict_decides (reads (valid (num 100) opaque)) upper defaults
              clock clock (answering 50) x bullish "key"
              (valid (num 100) opaque) (VBool true) (num 100) opaque
              (VStr "Clear MSS on the 5min chart.")
              (scenario_verdict _ _ _ _) eq_refl eq_refl eq_refl eq_refl)
    as (symbol' & _ & _ & Thrown).
  split; [apply scenario_verdict |].
  split.
  { rewrite (Parsed _ _ P100 P95). injection Hsym as <-.
    vm_compute. reflexivity. }
  split; [apply scenario_verdict |].
  destruct (Thrown eq_refl) as [_ Stop].
  exact (Stop _ _ P100 eq_refl).
Defined.

(** X9 on scenario A with the settings unset. *)
Lemma unparsed_settings_witness :
  exists t,
    settle (answering 50)
      (analyzeCandidate (reads (valid (num 100) (num 95))) upper unset
         clock clock x bullish "key")
    = Fulfilled (Some t)
    /\ Num.isNaN (TextNum.parseFloat_string (riskAmount unset)) = true
    /\ Num.isNaN (TextNum.parseFloat_string (rrRatio unset)) = true
    /\ Trade.lotSize t = "NaN"
    /\ Trade.tp t = "NaN"
    /\ Num.isNaN (Trade.rr t) = true
    /\ Trade.entry t = "100.00000".
Proof.
  lazymatch goal with
  | |- exists t, ?run = _ /\ _ =>
      let r := eval vm_compute in run in
      lazymatch r with
      | Fulfilled (Some ?t) =>
          exists t;
          assert (H : run = Fulfilled (Some t)) by (vm_compute; reflexivity);
          pose proof (unparsed_settings _ _ _ _ _ _ _ _ _ t H) as [L T]
      end
  end.
  assert (N1 : Num.isNaN (TextNum.parseFloat_string (riskAmount unset)) = true)
    by (vm_compute; reflexivity).
  assert (N2 : Num.isNaN (TextNum.parseFloat_string (rrRatio unset)) = true)
    by (vm_compute; reflexivity).
  destruct (T N2) as [T1 T2].
  split; [exact H |]. split; [exact N1 |]. split; [exact N2 |].
  split; [exact (L N1) |]. split; [exact T1 |]. split; [exact T2 | reflexivity].
Defined.

(** X10 on a verdict with entry and stop loss both at 100. *)
Lemma zero_distance_lot_witness :
  verdict (reads (valid (num 100) (num 100))) upper clock clock (answering 50)
    x bullish "key" (valid (num 100) (num 100))
  /\ Js.parseFloat (num 100) = inr (Num.of_Z 100)
  /\ exists t,
       settle (answering 50)
         (analyzeCandidate (reads (valid (num 100) (num 100))) upper defaults
            clock clock x bullish "key")
       = Fulfilled (Some t)
       /\ (Trade.lotSize t = "Infinity" \/ Trade.lotSize t = "-Infinity"
           \/ Trade.lotSize t = "NaN")
       /\ (Trade.tp t = Trade.entry t \/ Trade.tp t = "NaN").
Proof.
  split; [apply scenario_verdict |].
  split; [vm_compute; reflexivity |].
  let v := eval vm_compute in (Num.of_Z 100) in
  lazymatch v with
  | S754_finite ?s ?m ?e =>
      apply (zero_distance_lot (reads (valid (num 100) (num 100))) upper
               defaults clock clock (answering 50) x bullish "key"
               (valid (num 100) (num 100)) (VBool true) (num 100) (num 100)
               s m e)
  end;
    [apply scenario_verdict | reflexivity | reflexivity | reflexivity
    | reflexivity | vm_compute; reflexivity | vm_compute; reflexivity].
Defined.

(** X12 on a market list refused with the status 429, where the output of
    the run before is gone, and on a market list whose second entry has a
    24h change without a primitive value. *)
Lemma market_failure_is_global_witness :
  ~ blank (geminiKey defaults)
  /\ no_history (GET (marketsUrl defaults)) = inr (refuse 429 "Too Many Requests")
  /\ run reads_nothing upper defaults still [log_message "before"] no_history
       mixed
     = {| alerts := [];
          outputDiv :=
            [error_message "A global error occurred: CoinGecko API error (429)"] |}
  /\ allCandidates [entry_of x; odd] (Num.of_Z 3) = inl Js.unconvertible
  /\ run reads_nothing upper defaults still [] (listing [entry_of x; odd]) mixed
     = {| alerts := [];
          outputDiv :=
            [error_message "A global error occurred: Cannot convert object to primitive value"] |}.
Proof.
  split; [discriminate |].
  split; [reflexivity |].
  split.
  - apply (market_failure_is_global reads_nothing upper defaults still
             [log_message "before"] no_history mixed
             (Error "CoinGecko API error (429)")).
    + discriminate.
    + right. exists (refuse 429 "Too Many Requests").
      split; [reflexivity |]. left. split; [reflexivity |].
      vm_compute. reflexivity.
  - split; [vm_compute; reflexivity |].
    apply (market_failure_is_global reads_nothing upper defaults still
             [] (listing [entry_of x; odd]) mixed Js.unconvertible).
    + discriminate.
    + right. exists (respond (VArr [entry_of x; odd])).
      split; [reflexivity |]. right. split; [reflexivity |]. right.
      exists (VArr [entry_of x; odd]). split; [reflexivity |]. right.
      exists [entry_of x; odd]. split; [reflexivity |].
      vm_compute. reflexivity.
Defined.

(** X13 on two market lists of three entries: in the first the second
    entry is [null], in the second its 24h change has no primitive
    value and the [null] comes after it. *)
Lemma null_entry_fails_the_run_witness :
  ~ blank (geminiKey defaults)
  /\ Forall comparable [entry_of x]
  /\ outputDiv
       (run reads_nothing upper defaults still []
          (listing [entry_of x; VNull; odd]) mixed)
     = [error_message
          "A global error occurred: Cannot read properties of null (reading 'price_change_percentage_24h')"]
  /\ outputDiv
       (run reads_nothing upper defaults still []
          (listing [entry_of x; odd; VNull]) mixed)
     = [error_message
          "A global error occurred: Cannot convert object to primitive value"].
Proof.
  assert (K : ~ blank (geminiKey defaults)) by discriminate.
  assert (G : Forall comparable [entry_of x]).
  { constructor; [| constructor].
    exists (num 5), (Num.of_Z 5). split; reflexivity. }
  destruct (null_entry_fails_the_run reads_nothing upper defaults still []
              (listing [entry_of x; VNull; odd]) mixed
              (respond (VArr [entry_of x; VNull; odd]))
              [entry_of x; VNull; odd] K eq_refl eq_refl eq_refl)
    as [First _].
  destruct (null_entry_fails_the_run reads_nothing upper defaults still []
              (listing [entry_of x; odd; VNull]) mixed
              (respond (VArr [entry_of x; odd; VNull]))
              [entry_of x; odd; VNull] K eq_refl eq_refl eq_refl)
    as [Second _].
  split; [exact K |]. split; [exact G |]. split.
  - exact (proj1 (First [entry_of x] VNull [odd] eq_refl G) eq_refl).
  - exact (proj2 (Second [entry_of x] odd [VNull] eq_refl G) opaque
             Js.unconvertible eq_refl eq_refl).
Defined.

(** X14 on the market list of two movers, with the threshold emptied. *)
Lemma unparsed_threshold_finds_nothing_witness :
  ~ blank (geminiKey unset)
  /\ market_list (VArr (map entry_of [x; y])) = inr (map entry_of [x; y])
  /\ Num.isNaN (TextNum.parseFloat_string (momentumThreshold unset)) = true
  /\ Forall comparable (map entry_of [x; y])
  /\ settle (markets [x; y]) (select unset) = Fulfilled []
  /\ run reads_nothing upper unset still [] (markets [x; y]) mixed
     = {| alerts := [];
          outputDiv :=
            [error_message "No coins found matching the momentum threshold. Try widening your criteria."] |}.
Proof.
  assert (G : Forall comparable (map entry_of [x; y])).
  { constructor; [| constructor; [| constructor]].
    - exists (num 5), (Num.of_Z 5). split; reflexivity.
    - exists (num (-5)), (Num.of_Z (-5)). split; reflexivity. }
  split; [discriminate |].
  split; [reflexivity |].
  split; [vm_compute; reflexivity |].
  split; [exact G |].
  destruct (unparsed_threshold_finds_nothing reads_nothing upper unset still []
              (markets [x; y]) mixed (respond (VArr (map entry_of [x; y])))
              (VArr (map entry_of [x; y])) (map entry_of [x; y]))
    as (_ & None & _);
    [discriminate | reflexivity | reflexivity | reflexivity | reflexivity
    | vm_compute; reflexivity |].
  exact (None G).
Defined.

(** X15 on a market list of three entries, one of them at the threshold. *)
Lemma candidates_count_witness :
  allCandidates (map entry_of [x; edge; y]) (Num.of_Z 3)
  = inr [(x, bullish); (y, bearish)]
  /\ not_negative (Num.of_Z 3)
  /\ (List.length [(x, bullish); (y, bearish)]
      <= 2 * List.length (map entry_of [x; edge; y]))%nat
  /\ (List.length [(x, bullish); (y, bearish)]
      <= List.length (map entry_of [x; edge; y]))%nat.
Proof.
  assert (H : allCandidates (map entry_of [x; edge; y]) (Num.of_Z 3)
              = inr [(x, bullish); (y, bearish)]) by (vm_compute; reflexivity).
  assert (P : not_negative (Num.of_Z 3)) by reflexivity.
  destruct (candidates_count _ _ _ H) as [Twice Once].
  split; [exact H |]. split; [exact P |]. split; [exact Twice | exact (Once P)].
Defined.


(** X17 on a run without a plan: one analysis skipped, one failed. *)
Lemma closing_line_witness :
  ~ blank (geminiKey defaults)
  /\ settle (markets [x; y]) (select defaults)
     = Fulfilled [(x, bullish); (y, bearish)]
  /\ validTrades
       (outcomes mixed 0
          (analysisPromises reads_nothing upper defaults ticking
             [(x, bullish); (y, bearish)]))
     = []
  /\ cards_in
       (outputDiv
          (run reads_nothing upper defaults ticking [] (markets [x; y]) mixed))
     = []
  /\ In (log_message "Analysis complete. No high-confluence ICT setups found based on the current rules.")
       (outputDiv
          (run reads_nothing upper defaults ticking [] (markets [x; y]) mixed)).
Proof.
  assert (V : validTrades
                (outcomes mixed 0
                   (analysisPromises reads_nothing upper defaults ticking
                      [(x, bullish); (y, bearish)]))
              = []) by (vm_compute; reflexivity).
  split; [discriminate |].
  split; [vm_compute; reflexivity |].
  split; [exact V |].
  destruct (closing_line reads_nothing upper defaults ticking []
              (markets [x; y]) mixed [(x, bullish); (y, bearish)])
    as (_ & L & E & _); [discriminate | vm_compute; reflexivity | discriminate |].
  split; [exact (E V) | exact (proj2 L V)].
Defined.

(** X20 on the plan of scenario A. *)
Lemma card_class_witness :
  settle (answering 50)
    (analyzeCandidate (reads (valid (num 100) (num 95))) upper defaults
       clock clock x bullish "key")
  = Fulfilled (Some planA)
  /\ exists made,
       createTradeCard planA = inr made
       /\ className made = "trade-card long".
Proof.
  assert (H : settle (answering 50)
                (analyzeCandidate (reads (valid (num 100) (num 95))) upper
                   defaults clock clock x bullish "key")
              = Fulfilled (Some planA)) by (vm_compute; reflexivity).
  split; [exact H |].
  destruct (card_class _ _ _ _ _ _ _ _ _ planA H) as (Class & Made & _).
  destruct (proj2 Made) as [made Hm].
  { split; eexists; reflexivity. }
  exists made. split; [exact Hm | exact (Class made Hm)].
Defined.

(** X21 on the plan of scenario A. *)
Lemma rationale_is_not_escaped_witness :
  settle (answering 50)
    (analyzeCandidate (reads (valid (num 100) (num 95))) upper defaults
       clock clock x bullish "key")
  = Fulfilled (Some planA)
  /\ exists made analysis rationale notes before after,
       createTradeCard planA = inr made
       /\ verdict (reads (valid (num 100) (num 95))) upper clock clock
            (answering 50) x bullish "key" analysis
       /\ Js.field analysis "rationale" = inr rationale
       /\ Js.ToString rationale = inr notes
       /\ innerHTML made
          = before ++ "><strong>AI Rationale:</strong> " ++ notes ++ "</p>"
            ++ after.
Proof.
  assert (H : settle (answering 50)
                (analyzeCandidate (reads (valid (num 100) (num 95))) upper
                   defaults clock clock x bullish "key")
              = Fulfilled (Some planA)) by (vm_compute; reflexivity).
  split; [exact H |].
  assert (M : exists made, createTradeCard planA = inr made)
    by (eexists; reflexivity).
  destruct M as [made Hm].
  destruct (rationale_is_not_escaped _ _ _ _ _ _ _ _ _ planA made H Hm)
    as (analysis & rationale & notes & before & after & R).
  exists made, analysis, rationale, notes, before, after.
  split; [exact Hm | exact R].
Defined.

(** X22 on two analyses: the first is skipped at its price history, which
    counts, the second fails, which does not. *)
Lemma progress_moves_forward_witness :
  exists f,
    steps mixed 3
      (launch
         (analysisPromises reads_nothing upper defaults ticking
            [(x, bullish); (y, bearish)])) f
    /\ analyzedCount
         (launch
            (analysisPromises reads_nothing upper defaults ticking
               [(x, bullish); (y, bearish)])) = 0%nat
    /\ analyzedCount f = 1%nat
    /\ button f = showLoading "Analyzing 1 / 2 coins..."
    /\ (analyzedCount f <= 3)%nat
    /\ (analyzedCount f <= 2)%nat.
Proof.
  destruct (completes mixed 3
              (launch
                 (analysisPromises reads_nothing upper defaults ticking
                    [(x, bullish); (y, bearish)])) eq_refl)
    as (f & S & All).
  exists f. split; [exact S |].
  destruct (progress_moves_forward reads_nothing upper defaults ticking mixed
              [(x, bullish); (y, bearish)] 3 f S)
    as (Z0 & _ & _ & B & N & C & _ & Done).
  assert (One : analyzedCount f = 1%nat).
  { rewrite (Done _ All). vm_compute. reflexivity. }
  split; [exact Z0 |]. split; [exact One |].
  split; [rewrite B, One; vm_compute; reflexivity |].
  split; [exact N | exact C].
Defined.

End MoreInstances.
